(** * BaselineMCP: the feature store and the comparison engine

    A shallow embedding of [src/data-loader.ts] (class [DataLoader]) and of
    [compareFeatures] ([src/mcp-server.ts], repeated verbatim in
    [src/sse-server.ts]), with the part of the JavaScript runtime those
    functions rely on: strings, insertion-ordered [Map]s, property lookup on
    plain objects and [Date]. *)

From Stdlib Require Import ZArith QArith Qround List String Ascii Bool Lia.
From Stdlib Require Import DecimalString DecimalZ DecimalPos.
Import ListNotations.

Local Open Scope string_scope.
Local Open Scope Z_scope.

(* ================================================================== *)
(** * The JavaScript runtime, as far as the program uses it *)
(* ================================================================== *)

Module JS.

(** ** Strings

    A string is its sequence of code units; the embedding covers the strings
    whose code units lie in U+0000..U+00FF, one [ascii] per code unit. *)

Definition in_range (lo hi n : N) : bool := ((lo <=? n) && (n <=? hi))%N.

(** [String.prototype.toLowerCase] on one code unit: A..Z and the Latin-1
    capitals U+00C0..U+00DE (U+00D7, the multiplication sign, apart). *)
Definition lower_unit (c : ascii) : ascii :=
  let n := N_of_ascii c in
  if in_range 65 90 n || (in_range 192 222 n && negb (n =? 215)%N)
  then ascii_of_N (n + 32) else c.

Fixpoint toLowerCase (s : string) : string :=
  match s with
  | EmptyString => EmptyString
  | String c r => String (lower_unit c) (toLowerCase r)
  end.

(** WhiteSpace and LineTerminator code units below U+0100: TAB, LF, VT, FF,
    CR, SPACE and NBSP. *)
Definition is_space (c : ascii) : bool :=
  let n := N_of_ascii c in
  in_range 9 13 n || (n =? 32)%N || (n =? 160)%N.

Fixpoint trimStart (s : string) : string :=
  match s with
  | EmptyString => EmptyString
  | String c r => if is_space c then trimStart r else s
  end.

Fixpoint trimEnd (s : string) : string :=
  match s with
  | EmptyString => EmptyString
  | String c r =>
      let r' := trimEnd r in
      if is_space c && (r' =? "")%string then EmptyString else String c r'
  end.

Definition trim (s : string) : string := trimEnd (trimStart s).

(** [hay.includes(q)]: [q] occurs in [hay] as a substring. *)
Fixpoint includes (hay q : string) : bool :=
  String.prefix q hay ||
  match hay with
  | EmptyString => false
  | String _ r => includes r q
  end.

(** [parts.join(' ')]. *)
Definition join (parts : list string) : string := String.concat " " parts.

(** Truthiness of a string: every string but the empty one. *)
Definition truthy (s : string) : bool := negb (s =? "")%string.

(** [a || b] on optional strings ([None] is [undefined]): the first operand
    when it is truthy, the second one otherwise. *)
Definition or_str (a b : option string) : option string :=
  match a with
  | Some s => if truthy s then a else b
  | None => b
  end.

(** ** [Map]: keys in insertion order, [set] on a key already there keeps
    its place *)

Section MapOps.
Context {K V : Type} (keq : K -> K -> bool).

Fixpoint map_get (k : K) (m : list (K * V)) : option V :=
  match m with
  | [] => None
  | (k', v) :: r => if keq k k' then Some v else map_get k r
  end.

Fixpoint map_set (k : K) (v : V) (m : list (K * V)) : list (K * V) :=
  match m with
  | [] => [(k, v)]
  | (k', v') :: r =>
      if keq k k' then (k, v) :: r else (k', v') :: map_set k v r
  end.

End MapOps.

(** ** Plain objects

    An object is the list of its own enumerable string-keyed properties, in
    [Object.entries] order. A lookup [o[k]] that misses the own properties
    goes on to [Object.prototype]. *)

Definition Obj (A : Type) : Type := list (string * A).

Definition object_prototype_keys : list string :=
  [ "constructor"; "__defineGetter__"; "__defineSetter__"; "hasOwnProperty";
    "__lookupGetter__"; "__lookupSetter__"; "isPrototypeOf";
    "propertyIsEnumerable"; "toString"; "valueOf"; "__proto__";
    "toLocaleString" ].

Inductive Property (A : Type) : Type :=
  | Own (a : A)                 (* an own property *)
  | Inherited (k : string)      (* the member [k] of [Object.prototype] *)
  | Undefined.
Arguments Own {A} a.
Arguments Inherited {A} k.
Arguments Undefined {A}.

Definition obj_get {A : Type} (o : Obj A) (k : string) : Property A :=
  match map_get String.eqb k o with
  | Some a => Own a
  | None =>
      if existsb (String.eqb k) object_prototype_keys
      then Inherited k else Undefined
  end.

(** ** Numbers that may be [NaN] *)

Inductive Num : Type :=
  | Int (z : Z)
  | NaN.

Definition num_sub (a b : Num) : Num :=
  match a, b with
  | Int x, Int y => Int (x - y)
  | _, _ => NaN
  end.

Definition num_abs (a : Num) : Num :=
  match a with
  | Int x => Int (Z.abs x)
  | NaN => NaN
  end.

(** [a < b]: false as soon as one side is [NaN]. *)
Definition num_lt (a b : Num) : bool :=
  match a, b with
  | Int x, Int y => x <? y
  | _, _ => false
  end.

(** [ToIntegerOrInfinity] of a finite number: the fraction is dropped. *)
Definition truncate (q : Q) : Z :=
  if Qle_bool 0 q then Qfloor q else Qceiling q.

(** ** Dates (ECMAScript, "Time Values and Time Range" and what follows) *)

Definition msPerDay : Z := 86400000.

Definition Day (t : Z) : Z := t / msPerDay.

Definition DayFromYear (y : Z) : Z :=
  365 * (y - 1970) + (y - 1969) / 4 - (y - 1901) / 100 + (y - 1601) / 400.

Definition TimeFromYear (y : Z) : Z := msPerDay * DayFromYear y.

Definition InLeapYear (y : Z) : bool :=
  (y mod 4 =? 0) && (negb (y mod 100 =? 0) || (y mod 400 =? 0)).

(** [YearFromTime(t)] is the largest [y] with [TimeFromYear(y) <= t]: the
    largest [y] with [DayFromYear y <= Day t], searched downwards from a
    year that is not before it. *)
Fixpoint year_down (fuel : nat) (y d : Z) : Z :=
  match fuel with
  | O => y
  | S f => if DayFromYear y <=? d then y else year_down f (y - 1) d
  end.

Definition YearFromDay (d : Z) : Z :=
  year_down 1024 (1970 + Z.max (d / 365) (d / 366)) d.

Definition YearFromTime (t : Z) : Z := YearFromDay (Day t).

(** Days before the first of month [m] (1..12) in a year. *)
Definition days_before_month (leap : bool) (m : Z) : Z :=
  let l := if leap then 1 else 0 in
  match m with
  | 1 => 0 | 2 => 31 | 3 => 59 + l | 4 => 90 + l | 5 => 120 + l
  | 6 => 151 + l | 7 => 181 + l | 8 => 212 + l | 9 => 243 + l
  | 10 => 273 + l | 11 => 304 + l | _ => 334 + l
  end.

Definition days_in_month (leap : bool) (m : Z) : Z :=
  match m with
  | 2 => if leap then 29 else 28
  | 4 | 6 | 9 | 11 => 30
  | _ => 31
  end.

(** The time value of midnight UTC on a calendar date. *)
Definition utc_midnight (y m d : Z) : Z :=
  (DayFromYear y + days_before_month (InLeapYear y) m + (d - 1)) * msPerDay.

Definition digit (c : ascii) : option Z :=
  let n := N_of_ascii c in
  if in_range 48 57 n then Some (Z.of_N n - 48) else None.

Fixpoint digits_acc (s : list ascii) (acc : Z) : option Z :=
  match s with
  | [] => Some acc
  | c :: r =>
      match digit c with
      | Some v => digits_acc r (10 * acc + v)
      | None => None
      end
  end.

Definition number (s : list ascii) : option Z :=
  match s with
  | [] => None
  | _ => digits_acc s 0
  end.

(** The date-only forms of the Date Time String Format, [YYYY-MM-DD], which
    stand for midnight UTC: the time value of a string of that form naming
    a day of the calendar, [None] for every other string. *)
Definition iso_date_only (s : string) : option Z :=
  match list_ascii_of_string s with
  | [y1; y2; y3; y4; d1; m1; m2; d2; dd1; dd2] =>
      if (Ascii.eqb d1 "-" && Ascii.eqb d2 "-")%char then
        match number [y1; y2; y3; y4], number [m1; m2], number [dd1; dd2] with
        | Some y, Some m, Some d =>
            if (1 <=? m) && (m <=? 12) && (1 <=? d)
               && (d <=? days_in_month (InLeapYear y) m)
            then Some (utc_midnight y m d) else None
        | _, _, _ => None
        end
      else None
  | _ => None
  end.

(** What the program needs of the host's [Date]: [Date_parse s] is the time
    value of [new Date(s)] ([None] for an invalid date) and [LocalTZA t] the
    offset of local time at [t]. A host reads the date-only form as the
    standard fixes it, gives an invalid date for the empty string and keeps
    local time within a day of UTC; the other strings are read as the host
    pleases. *)
Record Host : Type := {
  Date_parse : string -> option Z;
  LocalTZA : Z -> Z;
  parse_date_only :
    forall s t, iso_date_only s = Some t -> Date_parse s = Some t;
  parse_empty : Date_parse "" = None;
  tza_bound : forall t, Z.abs (LocalTZA t) <= msPerDay
}.

(** [new Date(s).getFullYear()]. *)
Definition getFullYear (h : Host) (s : string) : Num :=
  match Date_parse h s with
  | Some t => Int (YearFromTime (t + LocalTZA h t))
  | None => NaN
  end.

End JS.

(* ================================================================== *)
(** * [types.ts] *)
(* ================================================================== *)

(** [string | boolean], the type of one cell of the support matrix. *)
Inductive SupportValue : Type :=
  | Version (v : string)
  | Flag (b : bool).

(** Every key is optional: [None] is an absent key. *)
Record BrowserSupport : Type := {
  chrome : option SupportValue;
  edge : option SupportValue;
  firefox : option SupportValue;
  safari : option SupportValue;
  chrome_android : option SupportValue;
  firefox_android : option SupportValue;
  safari_ios : option SupportValue
}.

Record BaselineStatus : Type := {
  high : option string;
  low : option string
}.

Record Status : Type := {
  experimental : option bool;
  standard_track : option bool;
  deprecated : option bool
}.

Record FeatureData : Type := {
  name : string;
  description : option string;
  mdn_url : option string;
  spec_url : option string;
  baseline : option BaselineStatus;
  support : BrowserSupport;
  status : option Status
}.

(** [BaselineFeature]; its fields carry the prefix [bf_] where the name is
    taken by [FeatureData]. *)
Record BaselineFeature : Type := {
  bf_name : string;
  year : Z;
  quarter : option string;
  bf_description : option string;
  bf_mdn_url : option string
}.

Record BaselineDifference : Type := {
  yearDiff : JS.Num;
  aFirst : bool
}.

Record SupportRow : Type := {
  browser : string;
  aVersion : string;
  bVersion : string
}.

Record ComparisonResult : Type := {
  featureA : FeatureData;
  featureB : FeatureData;
  baselineDifference : option BaselineDifference;
  supportDifference : list SupportRow
}.

(* ================================================================== *)
(** * The [web-features] module, as [loadBCDData] reads it *)
(* ================================================================== *)

(** The records of the external dataset are [AnyRecord]s; the embedding
    gives them the fields the loader and the search read, each optional and
    of the type the loader casts it to. *)
Record RawStatus : Type := {
  rs_baseline : option BaselineStatus;
  rs_support : option BrowserSupport;
  rs_experimental : option bool;
  rs_standard_track : option bool;
  rs_deprecated : option bool
}.

Record RawFeature : Type := {
  r_name : option string;
  r_description : option string;
  r_summary : option string;
  r_mdn_url : option string;
  r_spec : option string;
  r_status : option RawStatus;
  r_support : option BrowserSupport;
  r_experimental : option bool;
  r_standard_track : option bool;
  r_deprecated : option bool;
  r_group : option string;
  r_compat_features : option (list string)
}.

(** An object whose content the program never reads. *)
Definition AnyRecord : Type := JS.Obj string.

(** The [features] export: an entry is a record or [null] ([None]). *)
Definition Features : Type := JS.Obj (option RawFeature).

Record Exports : Type := {
  e_features : option Features;
  e_groups : option AnyRecord;
  e_browsers : option AnyRecord;
  e_snapshots : option AnyRecord
}.

(** The module namespace: the named exports and the [default] one. *)
Record WebFeatures : Type := {
  named : Exports;
  default : option Exports
}.

(* ================================================================== *)
(** * [data-loader.ts]: class [DataLoader] *)
(* ================================================================== *)

(** The instance fields. *)
Record DataLoader : Type := {
  bcdCache : list (string * FeatureData);
  baselineCache : list (Z * list BaselineFeature);
  lastUpdate : Z;
  featuresMap : option Features;
  groups : option AnyRecord;
  browsers : option AnyRecord;
  snapshots : option AnyRecord
}.

(** The fields of a fresh instance. *)
Definition new_DataLoader : DataLoader :=
  {| bcdCache := []; baselineCache := []; lastUpdate := 0;
     featuresMap := None; groups := None; browsers := None;
     snapshots := None |}.

Definition CACHE_TTL : Z := 1000 * 60 * 60.

Definition set_bcdCache (c : list (string * FeatureData)) (st : DataLoader)
  : DataLoader :=
  {| bcdCache := c; baselineCache := baselineCache st;
     lastUpdate := lastUpdate st; featuresMap := featuresMap st;
     groups := groups st; browsers := browsers st;
     snapshots := snapshots st |}.

Definition set_lastUpdate (t : Z) (st : DataLoader) : DataLoader :=
  {| bcdCache := bcdCache st; baselineCache := baselineCache st;
     lastUpdate := t; featuresMap := featuresMap st;
     groups := groups st; browsers := browsers st;
     snapshots := snapshots st |}.

Definition set_baselineCache (c : list (Z * list BaselineFeature))
  (st : DataLoader) : DataLoader :=
  {| bcdCache := bcdCache st; baselineCache := c;
     lastUpdate := lastUpdate st; featuresMap := featuresMap st;
     groups := groups st; browsers := browsers st;
     snapshots := snapshots st |}.

(** The four assignments at the head of the external branch. *)
Definition set_exports (f : option Features) (g b s : option AnyRecord)
  (st : DataLoader) : DataLoader :=
  {| bcdCache := bcdCache st; baselineCache := baselineCache st;
     lastUpdate := lastUpdate st; featuresMap := f;
     groups := g; browsers := b; snapshots := s |}.

(** How a block ends: normally, or by a throw; either way with the instance
    as the block left it. *)
Inductive Completion : Type :=
  | Normal (st : DataLoader)
  | Throw (st : DataLoader).

(** ** The bundled sample data *)

Definition no_support : BrowserSupport :=
  {| chrome := None; edge := None; firefox := None; safari := None;
     chrome_android := None; firefox_android := None; safari_ios := None |}.

Definition desktop (c e f s : SupportValue) : BrowserSupport :=
  {| chrome := Some c; edge := Some e; firefox := Some f; safari := Some s;
     chrome_android := None; firefox_android := None; safari_ios := None |}.

Definition only_standard_track : Status :=
  {| experimental := None; standard_track := Some true; deprecated := None |}.

Definition only_experimental : Status :=
  {| experimental := Some true; standard_track := None; deprecated := None |}.

Definition css_has_selector : FeatureData :=
  {| name := "CSS :has() selector";
     description := Some "The :has() CSS pseudo-class represents an element if any of the selectors passed as parameters match at least one element.";
     mdn_url := Some "https://developer.mozilla.org/en-US/docs/Web/CSS/:has";
     spec_url := None;
     baseline := Some {| high := Some "2023-12-01"; low := Some "2023-03-01" |};
     support := desktop (Version "105") (Version "105") (Version "121")
                        (Version "15.4");
     status := Some only_standard_track |}.

Definition offscreen_canvas : FeatureData :=
  {| name := "OffscreenCanvas";
     description := Some "The OffscreenCanvas interface provides a canvas that can be rendered off screen.";
     mdn_url := Some "https://developer.mozilla.org/en-US/docs/Web/API/OffscreenCanvas";
     spec_url := None;
     baseline := Some {| high := Some "2022-03-01"; low := Some "2021-09-01" |};
     support := desktop (Version "69") (Version "79") (Version "105")
                        (Version "16.4");
     status := Some only_standard_track |}.

Definition webusb : FeatureData :=
  {| name := "WebUSB API";
     description := Some "The WebUSB API provides a way to safely expose USB device services to the web.";
     mdn_url := Some "https://developer.mozilla.org/en-US/docs/Web/API/USB";
     spec_url := None;
     baseline := None;
     support := desktop (Version "61") (Version "79") (Flag false)
                        (Flag false);
     status := Some only_experimental |}.

Definition fetch_streaming : FeatureData :=
  {| name := "Fetch Streaming";
     description := Some "Streaming support for the Fetch API using ReadableStream.";
     mdn_url := Some "https://developer.mozilla.org/en-US/docs/Web/API/Fetch_API/Using_Fetch#processing_a_text_file_line_by_line";
     spec_url := None;
     baseline := Some {| high := Some "2022-07-01"; low := Some "2020-01-01" |};
     support := desktop (Version "43") (Version "14") (Version "65")
                        (Version "10.1");
     status := Some only_standard_track |}.

(** [Object.entries(this.getSampleBCDData())]: no key is an array index, so
    the entries come in the order in which the literal writes them. *)
Definition getSampleBCDData : list (string * FeatureData) :=
  [ ("css-has-selector", css_has_selector);
    ("offscreen-canvas", offscreen_canvas);
    ("webusb", webusb);
    ("fetch-streaming", fetch_streaming) ].

Definition sample_entry (n : string) (y : Z) (q d : string)
  : BaselineFeature :=
  {| bf_name := n; year := y; quarter := Some q; bf_description := Some d;
     bf_mdn_url := None |}.

(** [Object.entries(this.getSampleBaselineData())], each key through
    [parseInt]: the keys are array indices, which [Object.entries] lists in
    ascending order whatever the order of the literal (2024, 2023, 2022). *)
Definition getSampleBaselineData : list (Z * list BaselineFeature) :=
  [ (2022, [ sample_entry "offscreen-canvas" 2022 "Q1" "OffscreenCanvas API";
             sample_entry "fetch-streaming" 2022 "Q3"
                          "Fetch API streaming support" ]);
    (2023, [ sample_entry "css-has-selector" 2023 "Q4"
                          "CSS :has() pseudo-class selector" ]);
    (2024, [ sample_entry "css-has-selector" 2024 "Q1"
                          "CSS :has() pseudo-class selector" ]) ].

(** ** [loadBCDData] *)

(** [a || b] where [a], when defined, is an object (always truthy). *)
Definition or_obj {A : Type} (a b : option A) : option A :=
  match a with
  | Some _ => a
  | None => b
  end.

(** [x || d] for a string [d]. *)
Definition or_default (x : option string) (d : string) : string :=
  match x with
  | Some s => if JS.truthy s then s else d
  | None => d
  end.

(** [x || undefined]. *)
Definition or_undefined (x : option string) : option string :=
  match x with
  | Some s => if JS.truthy s then x else None
  | None => None
  end.

(** [!!x] on an optional boolean. *)
Definition bang_bang (x : option bool) : bool :=
  match x with
  | Some b => b
  | None => false
  end.

(** [f.status?.p]. *)
Definition status_field {A : Type} (f : RawFeature)
  (p : RawStatus -> option A) : option A :=
  match r_status f with
  | Some s => p s
  | None => None
  end.

(** The object literal [mapped] of the loop body. *)
Definition mapped (id : string) (f : RawFeature) : FeatureData :=
  {| name := or_default (r_name f) id;
     description := or_undefined (JS.or_str (r_description f) (r_summary f));
     mdn_url := or_undefined (JS.or_str (r_mdn_url f) (r_mdn_url f));
     spec_url := or_undefined (r_spec f);
     baseline := status_field f rs_baseline;
     support :=
       match or_obj (status_field f rs_support) (r_support f) with
       | Some s => s
       | None => no_support
       end;
     status :=
       Some {| experimental :=
                 Some (bang_bang (status_field f rs_experimental)
                       || bang_bang (r_experimental f));
               standard_track :=
                 Some (bang_bang (status_field f rs_standard_track)
                       || bang_bang (r_standard_track f));
               deprecated :=
                 Some (bang_bang (status_field f rs_deprecated)
                       || bang_bang (r_deprecated f)) |} |}.

Definition cache_set (k : string) (v : FeatureData) (st : DataLoader)
  : DataLoader :=
  set_bcdCache (JS.map_set String.eqb k v (bcdCache st)) st.

(** [for (const [id, f] of Object.entries(this.featuresMap))]: reading
    [f.name] throws when the entry is [null], and the loop is left with the
    entries set so far in the cache. *)
Fixpoint map_features (entries : Features) (st : DataLoader) : Completion :=
  match entries with
  | [] => Normal st
  | (_, None) :: _ => Throw st
  | (id, Some f) :: rest => map_features rest (cache_set id (mapped id f) st)
  end.

(** [for (const [key, data] of Object.entries(sampleData))
       this.bcdCache.set(key, data)]. *)
Definition load_sample (st : DataLoader) : DataLoader :=
  fold_left (fun s kv => cache_set (fst kv) (snd kv) s) getSampleBCDData st.

Definition export_of {A : Type} (m : WebFeatures) (p : Exports -> option A)
  : option A :=
  or_obj (p (named m)) (match default m with Some d => p d | None => None end).

(** [mod.features || mod.default], as a condition. *)
Definition has_features_or_default (m : WebFeatures) : bool :=
  match e_features (named m), default m with
  | None, None => false
  | _, _ => true
  end.

(** The external branch of the [try] block, up to the assignment of
    [lastUpdate]. *)
Definition load_external (st : DataLoader) (m : WebFeatures) : Completion :=
  let st1 :=
    set_exports (export_of m e_features) (export_of m e_groups)
      (export_of m e_browsers) (export_of m e_snapshots) st in
  match featuresMap st1 with
  | Some fm => map_features fm st1
  | None => Normal st1
  end.

(** The [try] block; [imported] is what
    [import('web-features').catch(() => null)] resolves to and [now] the
    clock when [lastUpdate] is assigned. *)
Definition try_block (st : DataLoader) (imported : option WebFeatures)
  (now : Z) : Completion :=
  match
    match imported with
    | Some m =>
        if has_features_or_default m then load_external st m
        else Normal (load_sample st)
    | None => Normal (load_sample st)
    end
  with
  | Normal st' => Normal (set_lastUpdate now st')
  | Throw st' => Throw st'
  end.

(** [loadBCDData]: [now0] is the clock at the gate. The promise it returns
    is fulfilled ([Normal]) or rejected ([Throw]). *)
Definition loadBCDData (st : DataLoader) (imported : option WebFeatures)
  (now0 now : Z) : Completion :=
  if (now0 - lastUpdate st <? CACHE_TTL)
     && (0 <? Z.of_nat (List.length (bcdCache st)))
  then Normal st
  else
    match try_block st imported now with
    | Normal st' => Normal st'
    | Throw st' => Normal (load_sample st')
    end.

(** [loadBaselineData]. *)
Definition loadBaselineData (st : DataLoader) : DataLoader :=
  fold_left
    (fun s kv =>
       set_baselineCache
         (JS.map_set Z.eqb (fst kv) (snd kv) (baselineCache s)) s)
    getSampleBaselineData st.

(** ** [normalizeFeatureName] and [getFeature] *)

(** The object literal [normalizations]. *)
Definition normalizations : JS.Obj string :=
  [ ("css :has()", "css-has-selector");
    ("css has", "css-has-selector");
    ("offscreen canvas", "offscreen-canvas");
    ("web usb", "webusb");
    ("fetch streaming", "fetch-streaming") ].

(** What [normalizeFeatureName] returns: a string, or, though the signature
    says [string], the member of [Object.prototype] that the lookup
    [normalizations[lower]] found under an inherited key. *)
Inductive Key : Type :=
  | Str (s : string)
  | Member (k : string).

Definition normalizeFeatureName (name : string) : Key :=
  let lower := JS.toLowerCase name in
  match JS.obj_get normalizations lower with
  | JS.Own s => if JS.truthy s then Str s else Str name
  | JS.Inherited k => Member k
  | JS.Undefined => Str name
  end.

(** A key as a property name: a string is itself; [Object.prototype] is
    printed as [[object Object]], a built-in function as its source text
    (the member [constructor] is the function [Object]). *)
Definition property_key (k : Key) : string :=
  match k with
  | Str s => s
  | Member m =>
      if (m =? "__proto__")%string then "[object Object]"
      else if (m =? "constructor")%string
           then "function Object() { [native code] }"
           else "function " ++ m ++ "() { [native code] }"
  end.

(** [this.bcdCache.get(k)]: the keys of the cache are strings, and no
    object is the same value as a string. *)
Definition cache_get (st : DataLoader) (k : Key) : option FeatureData :=
  match k with
  | Str s => JS.map_get String.eqb s (bcdCache st)
  | Member _ => None
  end.

(** What [getFeature] hands out under the type [FeatureData]: a record of
    the cache, or, from [featuresMap] through the cast, a raw record or a
    member of [Object.prototype]. *)
Inductive Found : Type :=
  | Cached (f : FeatureData)
  | Raw (r : RawFeature)
  | Proto (k : string).

Definition cached (o : option FeatureData) : option Found :=
  match o with
  | Some f => Some (Cached f)
  | None => None
  end.

Definition getFeature (st : DataLoader) (name : string) : option Found :=
  let normalizedName := normalizeFeatureName name in
  let from_cache :=
    cached (or_obj (cache_get st normalizedName) (cache_get st (Str name))) in
  match featuresMap st with
  | Some fm =>
      match JS.obj_get fm (property_key normalizedName) with
      | JS.Own (Some r) =>
          Some (match cache_get st normalizedName with
                | Some f => Cached f
                | None => Raw r
                end)
      | JS.Inherited k =>
          Some (match cache_get st normalizedName with
                | Some f => Cached f
                | None => Proto k
                end)
      | JS.Own None | JS.Undefined => from_cache
      end
  | None => from_cache
  end.

(** [getRawFeature]. *)
Definition getRawFeature (st : DataLoader) (id : string)
  : JS.Property (option RawFeature) :=
  match featuresMap st with
  | Some fm => JS.obj_get fm id
  | None => JS.Undefined
  end.

(** ** [getBaselineFeatures] and [getAllFeatures] *)

Definition getBaselineFeatures (st : DataLoader) (y : Z)
  : list BaselineFeature :=
  match JS.map_get Z.eqb y (baselineCache st) with
  | Some l => l
  | None => []
  end.

Definition getAllFeatures (st : DataLoader) : list FeatureData :=
  match featuresMap st with
  | Some fm =>
      flat_map
        (fun kv =>
           match JS.map_get String.eqb (fst kv) (bcdCache st) with
           | Some f => [f]
           | None => []
           end) fm
  | None => map snd (bcdCache st)
  end.

(** ** [findFeatures] *)

Record Hit : Type := {
  id : string;
  h_name : string;
  h_description : string;
  group : option string
}.

(** An entry of the loop: of [Object.entries(this.featuresMap)] or of
    [this.bcdCache.entries()]. *)
Inductive Entry : Type :=
  | OfMap (r : option RawFeature)
  | OfCache (f : FeatureData).

Definition entries (st : DataLoader) : list (string * Entry) :=
  match featuresMap st with
  | Some fm => map (fun kv => (fst kv, OfMap (snd kv))) fm
  | None => map (fun kv => (fst kv, OfCache (snd kv))) (bcdCache st)
  end.

(** [raw]: the entry when [featuresMap] is there, [undefined] otherwise. *)
Definition raw_of (e : Entry) : option RawFeature :=
  match e with
  | OfMap r => r
  | OfCache _ => None
  end.

(** [p] read on [feature], which is
    [this.bcdCache.get(id) || rawOrFeature]; [pf] reads it on a record of
    the cache and [pr] on a raw record. *)
Definition feature_field (st : DataLoader) (i : string) (e : Entry)
  (pf : FeatureData -> option string) (pr : RawFeature -> option string)
  : option string :=
  match JS.map_get String.eqb i (bcdCache st) with
  | Some f => pf f
  | None =>
      match e with
      | OfMap (Some r) => pr r
      | OfMap None => None
      | OfCache f => pf f
      end
  end.

Definition raw_field {A : Type} (e : Entry) (p : RawFeature -> option A)
  : option A :=
  match raw_of e with
  | Some r => p r
  | None => None
  end.

Definition hit (st : DataLoader) (i : string) (e : Entry) : Hit :=
  {| id := i;
     h_name :=
       or_default
         (JS.or_str (feature_field st i e (fun f => Some (name f)) r_name)
                    (raw_field e r_name)) i;
     h_description :=
       or_default
         (JS.or_str (feature_field st i e description r_description)
                    (raw_field e r_description)) "";
     group := or_undefined (raw_field e r_group) |}.

(** [[id, name, description, ...(raw?.compat_features || [])]
      .filter(Boolean).join(' ').toLowerCase()]. *)
Definition hay (st : DataLoader) (i : string) (e : Entry) : string :=
  let h := hit st i e in
  let extra :=
    match raw_field e r_compat_features with
    | Some l => l
    | None => []
    end in
  JS.toLowerCase
    (JS.join (filter JS.truthy (i :: h_name h :: h_description h :: extra))).

(** The loop, with [results] as built so far; [limit] is a finite number,
    a whole one or not. *)
Fixpoint find_loop (st : DataLoader) (q : string) (limit : Q)
  (es : list (string * Entry)) (results : list Hit) : list Hit :=
  match es with
  | [] => results
  | (i, e) :: rest =>
      if Qle_bool limit (inject_Z (Z.of_nat (List.length results)))
      then results
      else if JS.includes (hay st i e) q
           then find_loop st q limit rest (results ++ [hit st i e])%list
           else find_loop st q limit rest results
  end.

(** [results.slice(0, limit)]: [limit] is cut to a whole number, and a
    negative one counts from the end. *)
Definition slice0 {A : Type} (l : list A) (limit : Q) : list A :=
  let len := Z.of_nat (List.length l) in
  let relativeEnd := JS.truncate limit in
  let final :=
    if relativeEnd <? 0 then Z.max (len + relativeEnd) 0
    else Z.min relativeEnd len in
  firstn (Z.to_nat final) l.

(** [findFeatures]; [query] is [None] when the caller passes
    [undefined]. *)
Definition findFeatures (st : DataLoader) (query : option string)
  (limit : Q) : list Hit :=
  let q := JS.trim (JS.toLowerCase (or_default query "")) in
  if JS.truthy q then slice0 (find_loop st q limit (entries st) []) limit
  else [].

(** [findFeatures(query)]: the default [limit]. *)
Definition findFeatures_default (st : DataLoader) (query : option string)
  : list Hit :=
  findFeatures st query (inject_Z 10).

(* ================================================================== *)
(** * [compareFeatures] ([mcp-server.ts] and [sse-server.ts]) *)
(* ================================================================== *)

Definition browsers_tracked : list string :=
  ["chrome"; "edge"; "firefox"; "safari"].

(** [s[browser]] for a key of the matrix. *)
Definition support_get (s : BrowserSupport) (b : string)
  : option SupportValue :=
  if (b =? "chrome")%string then chrome s
  else if (b =? "edge")%string then edge s
  else if (b =? "firefox")%string then firefox s
  else if (b =? "safari")%string then safari s
  else if (b =? "chrome_android")%string then chrome_android s
  else if (b =? "firefox_android")%string then firefox_android s
  else if (b =? "safari_ios")%string then safari_ios s
  else None.

(** [typeof x === 'string' ? x : x ? 'supported' : 'not supported']. *)
Definition label (x : option SupportValue) : string :=
  match x with
  | Some (Version v) => v
  | Some (Flag true) => "supported"
  | Some (Flag false) | None => "not supported"
  end.

Definition row (a b : FeatureData) (br : string) : SupportRow :=
  {| browser := br;
     aVersion := label (support_get (support a) br);
     bVersion := label (support_get (support b) br) |}.

(** [f.baseline?.high], when it is truthy. *)
Definition baseline_high (f : FeatureData) : option string :=
  match baseline f with
  | Some b =>
      match high b with
      | Some s => if JS.truthy s then Some s else None
      | None => None
      end
  | None => None
  end.

Definition compareFeatures (h : JS.Host) (a b : FeatureData)
  : ComparisonResult :=
  let supportDifference :=
    fold_left (fun acc br => (acc ++ [row a b br])%list) browsers_tracked [] in
  let baselineDifference :=
    match baseline_high a, baseline_high b with
    | Some ha, Some hb =>
        let yearA := JS.getFullYear h ha in
        let yearB := JS.getFullYear h hb in
        Some {| yearDiff := JS.num_abs (JS.num_sub yearA yearB);
                aFirst := JS.num_lt yearA yearB |}
    | _, _ => None
    end in
  {| featureA := a; featureB := b;
     baselineDifference := baselineDifference;
     supportDifference := supportDifference |}.

(* ================================================================== *)
(** * Stores and hosts the statements refer to *)
(* ================================================================== *)

(** The store of a process in which [web-features] cannot be imported,
    after [start()] has awaited [loadBCDData] (the clock reading [now0] at
    the gate and [now] at the end) and [loadBaselineData]: the bundled
    sample store. *)
Definition bundled (now0 now : Z) : DataLoader :=
  match loadBCDData new_DataLoader None now0 now with
  | Normal st | Throw st => loadBaselineData st
  end.

(** A host that reads the date-only form alone and lives in UTC. *)
Definition utc : JS.Host.
Proof.
  refine {| JS.Date_parse := JS.iso_date_only; JS.LocalTZA := fun _ => 0 |}.
  - intros s t E. exact E.
  - reflexivity.
  - intros _. vm_compute. discriminate.
Defined.

(** A host that reads the date-only form alone and keeps local time at the
    fixed offset [off], of a day at most, from UTC. *)
Definition host_at (off : Z) (bound : Z.abs off <= JS.msPerDay) : JS.Host :=
  {| JS.Date_parse := JS.iso_date_only;
     JS.LocalTZA := fun _ => off;
     JS.parse_date_only := fun s t E => E;
     JS.parse_empty := eq_refl;
     JS.tza_bound := fun _ => bound |}.

(** Ten hours behind UTC. *)
Definition honolulu : JS.Host.
Proof.
  refine (host_at (-36000000) _). vm_compute. discriminate.
Defined.

(** The character of the decimal digit [n]. *)
Definition digit_char (n : Z) : ascii := ascii_of_N (Z.to_N (48 + n)).

(** The date-only form [YYYY-MM-DD] of the calendar date [y]-[m]-[d]. *)
Definition date_only (y m d : Z) : string :=
  string_of_list_ascii
    [ digit_char (y / 1000); digit_char (y / 100 mod 10);
      digit_char (y / 10 mod 10); digit_char (y mod 10); "-"%char;
      digit_char (m / 10); digit_char (m mod 10); "-"%char;
      digit_char (d / 10); digit_char (d mod 10) ].

(** A day of the calendar, with a year of four digits. *)
Definition calendar_date (y m d : Z) : Prop :=
  0 <= y <= 9999 /\ 1 <= m <= 12
  /\ 1 <= d <= JS.days_in_month (JS.InLeapYear y) m.

(** The year in which midnight UTC of the calendar date [y]-[m]-[d] falls
    in local time: the year [y] itself, but for a host [west] of UTC on
    the first of January, where it is still the year before. *)
Definition local_year (west : bool) (y m d : Z) : Z :=
  if west && (m =? 1) && (d =? 1) then y - 1 else y.

(** The host keeps local time behind UTC ([west]), or at UTC or ahead of
    it, by less than a day. *)
Definition keeps (h : JS.Host) (west : bool) : Prop :=
  forall t,
    if west then - JS.msPerDay <= JS.LocalTZA h t < 0
    else 0 <= JS.LocalTZA h t < JS.msPerDay.

(** A record like [css-has-selector], with another baseline high date. *)
Definition dated (d : string) : FeatureData :=
  {| name := name css_has_selector;
     description := description css_has_selector;
     mdn_url := mdn_url css_has_selector;
     spec_url := spec_url css_has_selector;
     baseline := Some {| high := Some d; low := None |};
     support := support css_has_selector;
     status := status css_has_selector |}.

(** [f.baseline?.high], be it truthy or not. *)
Definition high_of (f : FeatureData) : option string :=
  match baseline f with
  | Some b => high b
  | None => None
  end.

(** The invariant of the data model: a baseline high date, when present,
    is a date the host can parse. *)
Definition high_parsable (h : JS.Host) (f : FeatureData) : Prop :=
  forall s, high_of f = Some s -> exists t, JS.Date_parse h s = Some t.

(** The normalization of a support cell, in the words of the
    specification. *)
Inductive Normalized : option SupportValue -> string -> Prop :=
  | norm_version v : Normalized (Some (Version v)) v
  | norm_truthy : Normalized (Some (Flag true)) "supported"
  | norm_false : Normalized (Some (Flag false)) "not supported"
  | norm_absent : Normalized None "not supported".

(** A row of the comparison for the browser [br], given the two cells it
    is made from. *)
Definition row_of_cells (br : string) (ca cb : option SupportValue)
  (r : SupportRow) : Prop :=
  browser r = br /\ Normalized ca (aVersion r) /\ Normalized cb (bVersion r).

(** [this.featuresMap && this.featuresMap[k]], when it is truthy: what
    the external features answer under the key [k]. *)
Definition external (st : DataLoader) (k : Key) : option Found :=
  match featuresMap st with
  | Some fm =>
      match JS.obj_get fm (property_key k) with
      | JS.Own (Some r) => Some (Raw r)
      | JS.Inherited m => Some (Proto m)
      | JS.Own None | JS.Undefined => None
      end
  | None => None
  end.

(** The lookup in the words of the specification of the case-sensitive
    lookup: every attempt uses the name as it is written. *)
Definition lookup_verbatim (st : DataLoader) (n : string) : option Found :=
  match external st (Str n) with
  | Some v =>
      Some (match JS.map_get String.eqb n (bcdCache st) with
            | Some f => Cached f
            | None => v
            end)
  | None => cached (JS.map_get String.eqb n (bcdCache st))
  end.

(** The alias table read as a finite map: its own keys. *)
Definition alias (s : string) : option string :=
  JS.map_get String.eqb s normalizations.

(** Normalization in the words of the specification: the name is lowercased
    and trimmed, then the alias table is applied; a name the table does not
    know is returned as it came. *)
Definition normalize_as_specified (name : string) : Key :=
  match alias (JS.trim (JS.toLowerCase name)) with
  | Some i => Str i
  | None => Str name
  end.

(** [c.set(k, v)] for every entry of a list, in its order. *)
Definition set_all (es : list (string * FeatureData))
  (c : list (string * FeatureData)) : list (string * FeatureData) :=
  fold_left (fun acc kv => JS.map_set String.eqb (fst kv) (snd kv) acc) es c.

(** The records the loop of the external branch makes of the entries that
    are not [null], in the order of the entries. *)
Definition mapped_entries (fm : Features) : list (string * FeatureData) :=
  flat_map
    (fun kv =>
       match snd kv with
       | Some f => [(fst kv, mapped (fst kv) f)]
       | None => []
       end) fm.

Definition not_null (kv : string * option RawFeature) : Prop :=
  snd kv <> None.

(** The external source is absent: the import failed, or the module has
    neither [features] nor [default]. *)
Definition source_absent (imported : option WebFeatures) : bool :=
  match imported with
  | Some m => negb (has_features_or_default m)
  | None => true
  end.

(** The gate at the head of [loadBCDData]. *)
Definition fresh (st : DataLoader) (now0 : Z) : bool :=
  (now0 - lastUpdate st <? CACHE_TTL)
  && (0 <? Z.of_nat (List.length (bcdCache st))).

(** A second [loadBCDData] after a first one. *)
Definition and_then (c : Completion) (imported : option WebFeatures)
  (now0 now : Z) : Completion :=
  match c with
  | Normal st => loadBCDData st imported now0 now
  | Throw st => Throw st
  end.

Definition mem (k : string) (l : list string) : bool :=
  existsb (String.eqb k) l.

(** A cache that holds both a record that comes from the external features
    [fm] alone and a record that comes from the bundled sample alone. *)
Definition partial_merge (fm : Features) (c : list (string * FeatureData))
  : bool :=
  existsb (fun k => mem k (map fst fm)
                    && negb (mem k (map fst getSampleBCDData))) (map fst c)
  && existsb (fun k => mem k (map fst getSampleBCDData)
                       && negb (mem k (map fst fm))) (map fst c).

Definition raw_named (n : string) : RawFeature :=
  {| r_name := Some n; r_description := None; r_summary := None;
     r_mdn_url := None; r_spec := None; r_status := None;
     r_support := None; r_experimental := None; r_standard_track := None;
     r_deprecated := None; r_group := None; r_compat_features := None |}.

(** An export whose one feature has an alias for id. *)
Definition exports_alias_id : WebFeatures :=
  {| named := {| e_features := Some [("css has", Some (raw_named "Has"))];
                 e_groups := None; e_browsers := None;
                 e_snapshots := None |};
     default := None |}.

(** A [features] export whose second entry is [null]. *)
Definition features_with_null : Features :=
  [ ("view-transitions", Some (raw_named "View Transitions"));
    ("popover", None) ].

Definition exports_with_null : WebFeatures :=
  {| named := {| e_features := Some features_with_null; e_groups := None;
                 e_browsers := None; e_snapshots := None |};
     default := None |}.

(** A module with a [default] export that has no [features]. *)
Definition exports_without_features : WebFeatures :=
  {| named := {| e_features := None; e_groups := None; e_browsers := None;
                 e_snapshots := None |};
     default := Some {| e_features := None; e_groups := None;
                        e_browsers := None; e_snapshots := None |} |}.

(** The entry passes the test of the loop of [findFeatures]. *)
Definition matches (st : DataLoader) (q : string) (e : string * Entry)
  : bool :=
  JS.includes (hay st (fst e) (snd e)) q.

(** The hits of a query over the whole dataset, in its iteration order. *)
Definition all_hits (st : DataLoader) (q : string) : list Hit :=
  map (fun e => hit st (fst e) (snd e)) (filter (matches st q) (entries st)).

(** The query as the loop sees it. *)
Definition needle (query : option string) : string :=
  JS.trim (JS.toLowerCase (or_default query "")).

(** A string of white space only (the empty string is one). *)
Fixpoint all_space (s : string) : bool :=
  match s with
  | EmptyString => true
  | String c r => JS.is_space c && all_space r
  end.

(* ================================================================== *)
(** * What a load writes, and the stores a process can reach *)
(* ================================================================== *)

(** The ids of the cache, in its iteration order. *)
Definition ids (st : DataLoader) : list string := map fst (bcdCache st).

(** The entries of a [features] export that come before its first [null]
    entry (all of them when none is [null]). *)
Fixpoint before_null (fm : Features) : Features :=
  match fm with
  | [] => []
  | (_, None) :: _ => []
  | e :: rest => e :: before_null rest
  end.

Definition is_null (kv : string * option RawFeature) : bool :=
  match snd kv with
  | Some _ => false
  | None => true
  end.

(** The records a load that passes the gate sets in the cache, in the
    order of the calls of [set]: those of the bundled sample when the source
    is absent; those of the external features when none is [null]; those of
    the features before the first [null], then the bundled sample, when the
    loop throws; none when the module has a [default] and no [features]. *)
Definition writes (imported : option WebFeatures)
  : list (string * FeatureData) :=
  match imported with
  | None => getSampleBCDData
  | Some m =>
      if has_features_or_default m then
        match export_of m e_features with
        | Some fm =>
            if existsb is_null fm
            then (mapped_entries (before_null fm) ++ getSampleBCDData)%list
            else mapped_entries fm
        | None => []
        end
      else getSampleBCDData
  end.

(** The stores of a process: the fresh instance, and what the two loaders
    make of a store, whatever the module, the clock and the order of the
    calls. *)
Inductive Reachable : DataLoader -> Prop :=
  | reach_new : Reachable new_DataLoader
  | reach_loadBCDData st imported now0 now st' :
      Reachable st ->
      loadBCDData st imported now0 now = Normal st' ->
      Reachable st'
  | reach_loadBaselineData st :
      Reachable st -> Reachable (loadBaselineData st).

(** The value the last entry of [es] under the key [k] holds. *)
Fixpoint last_value (k : string) (es : list (string * FeatureData))
  : option FeatureData :=
  match es with
  | [] => None
  | (k', v) :: rest =>
      match last_value k rest with
      | Some w => Some w
      | None => if String.eqb k k' then Some v else None
      end
  end.

(** A [features] export with two records and no [null]. *)
Definition features_sound : Features :=
  [ ("view-transitions", Some (raw_named "View Transitions"));
    ("popover", Some (raw_named "")) ].

Definition exports_sound : WebFeatures :=
  {| named := {| e_features := Some features_sound; e_groups := None;
                 e_browsers := None; e_snapshots := None |};
     default := None |}.

(** The keys of [Object.prototype] that lowercasing changes: all of them
    but [constructor] and [__proto__]. *)
Definition inherited_with_capital (k : string) : bool :=
  mem k JS.object_prototype_keys && negb (String.eqb (JS.toLowerCase k) k).

(** [t] occurs in [x]: some text before it, some text behind it. *)
Definition occurs_in (t x : string) : Prop :=
  exists p s, x = p ++ t ++ s.

(** The texts of which the haystack of an entry is made, the empty ones
    included: the id, the name and the description of its hit, and the
    [compat_features] of the raw record. *)
Definition hay_texts (st : DataLoader) (i : string) (e : Entry)
  : list string :=
  i :: h_name (hit st i e) :: h_description (hit st i e)
    :: match raw_field e r_compat_features with
       | Some l => l
       | None => []
       end.

(** The four cells of a support matrix that the comparison reads. *)
Definition desktop_cells (s : BrowserSupport)
  : option SupportValue * option SupportValue
    * option SupportValue * option SupportValue :=
  (chrome s, edge s, firefox s, safari s).

(** A row without the names of its sides. *)
Definition cells (r : SupportRow) : string * string * string :=
  (browser r, aVersion r, bVersion r).

Definition swapped (r : SupportRow) : string * string * string :=
  (browser r, bVersion r, aVersion r).

(** [offscreen-canvas] with other texts, another low date and the mobile
    keys filled. *)
Definition offscreen_canvas_mobile : FeatureData :=
  {| name := "Offscreen canvas";
     description := None;
     mdn_url := None;
     spec_url := Some "https://html.spec.whatwg.org/";
     baseline := Some {| high := Some "2022-03-01"; low := None |};
     support :=
       {| chrome := Some (Version "69"); edge := Some (Version "79");
          firefox := Some (Version "105"); safari := Some (Version "16.4");
          chrome_android := Some (Version "69");
          firefox_android := Some (Flag false);
          safari_ios := Some (Flag true) |};
     status := None |}.

(* ================================================================== *)
(** * More of the runtime: numbers in texts *)
(* ================================================================== *)

(** The quotation mark. *)
Definition quote : string :=
  String (Ascii.Ascii false true false false false true false false) "".

(** [`${n}`] for a whole number [n]: its decimal digits, with a minus sign
    when it is negative (the numbers of twenty-two digits and more, which
    are printed with an exponent, are outside the embedding). *)
Definition show (n : Z) : string := NilZero.string_of_int (Z.to_int n).

(** [`${x}`] for a value that may be [undefined]. *)
Definition show_opt {A : Type} (f : A -> string) (x : option A) : string :=
  match x with
  | Some a => f a
  | None => "undefined"
  end.

Definition hex_digit (c : ascii) : option Z :=
  let n := N_of_ascii c in
  if JS.in_range 48 57 n then Some (Z.of_N n - 48)
  else if JS.in_range 97 102 n then Some (Z.of_N n - 87)
  else if JS.in_range 65 70 n then Some (Z.of_N n - 55)
  else None.

(** The value of the longest run of digits at the head of [s]; [acc] is
    the value of the digits read so far, [None] when none was read. *)
Fixpoint digits_prefix (radix : Z) (digit_of : ascii -> option Z)
  (s : string) (acc : option Z) : option Z :=
  match s with
  | EmptyString => acc
  | String c r =>
      match digit_of c with
      | Some v =>
          digits_prefix radix digit_of r
            (Some (radix * match acc with Some a => a | None => 0 end + v))
      | None => acc
      end
  end.

(** A Number, as far as [parseInt] gives one: a whole number, [NaN], or
    an infinity. (The zero with a minus sign, which [parseInt] reads in
    [-0], is not told from zero: neither [Map.get] nor [JSON.stringify]
    does.) *)
Inductive Number : Type :=
  | Finite (z : Z)
  | NotANumber
  | Infinity (negative : bool).

(** The Number value for a whole number: exact up to 2^53 in magnitude; a
    value beyond is rounded as the host does it (for more than twenty
    digits the standard leaves the host a choice), never to [NaN]. *)
Record Rounding : Type := {
  to_number : Z -> Number;
  to_number_safe :
    forall z, - 2 ^ 53 <= z <= 2 ^ 53 -> to_number z = Finite z;
  to_number_defined : forall z, to_number z <> NotANumber
}.

(** Rounding to the nearest double, ties to the even one, and to an
    infinity from 2^1024 on. *)
Definition round_nearest_even (z : Z) : Number :=
  let a := Z.abs z in
  if a <=? 2 ^ 53 then Finite z
  else
    let e := Z.log2 a - 52 in
    let q := a / 2 ^ e in
    let r := a mod 2 ^ e in
    let half := 2 ^ (e - 1) in
    let q' :=
      if r <? half then q
      else if half <? r then q + 1
      else if Z.even q then q else q + 1 in
    if 2 ^ 1024 <=? q' * 2 ^ e then Infinity (z <? 0)
    else Finite (Z.sgn z * (q' * 2 ^ e)).

Definition nearest_even : Rounding.
Proof.
  refine {| to_number := round_nearest_even |}.
  - intros z R. unfold round_nearest_even.
    replace (Z.abs z <=? 2 ^ 53) with true; [ reflexivity | ].
    symmetry. apply Z.leb_le. apply Z.abs_le. exact R.
  - intros z. unfold round_nearest_even.
    destruct (Z.abs z <=? 2 ^ 53); [ discriminate | ].
    cbv zeta. destruct (2 ^ 1024 <=? _); discriminate.
Defined.

(** The digits that [parseInt] reads behind the sign: [0x] or [0X] for
    the radix 16, then the digits, up to the first character that is
    none; [None] when there is no digit. *)
Definition read_unsigned (s : string) : option Z :=
  match s with
  | String "0" (String "x" r) | String "0" (String "X" r) =>
      digits_prefix 16 hex_digit r None
  | r => digits_prefix 10 JS.digit r None
  end.

(** The whole number that [parseInt(s)], without a radix, reads: white
    space at the head is skipped, a sign is read, then the digits. *)
Definition integer_read (s : string) : option Z :=
  match JS.trimStart s with
  | String "-" r => option_map Z.opp (read_unsigned r)
  | String "+" r => read_unsigned r
  | s1 => read_unsigned s1
  end.

(** [parseInt(s)]: the Number value for the number read, [NaN] when there
    is no digit. *)
Definition parseInt (R : Rounding) (s : string) : Number :=
  match integer_read s with
  | Some z => to_number R z
  | None => NotANumber
  end.

(** [rest] does not go on with a number that ends before it: it does not
    begin with a digit. *)
Definition stops (rest : string) : bool :=
  match rest with
  | EmptyString => true
  | String c _ =>
      match JS.digit c with
      | Some _ => false
      | None => true
      end
  end.

(** [rest] begins with [x] or [X], which behind a lone [0] makes the
    prefix of the radix 16. *)
Definition begins_with_x (rest : string) : bool :=
  match rest with
  | String c _ => Ascii.eqb c "x" || Ascii.eqb c "X"
  | EmptyString => false
  end.

(** The decimal text of [n] followed by [rest] is read as [n]. *)
Definition ends_number (n : Z) (rest : string) : bool :=
  stops rest && negb ((n =? 0) && begins_with_x rest).

(* ================================================================== *)
(** * What the servers do with a value of [getFeature] *)
(* ================================================================== *)

(** [getFeature] is typed [FeatureData | undefined], and the servers read
    the fields of [FeatureData] on what it returns, which may be a raw
    record or a member of [Object.prototype]: a field that the value does
    not have reads as [undefined]. *)

Definition found_support (x : Found) : option BrowserSupport :=
  match x with
  | Cached f => Some (support f)
  | Raw r => r_support r
  | Proto _ => None
  end.

Definition found_baseline (x : Found) : option BaselineStatus :=
  match x with
  | Cached f => baseline f
  | Raw _ | Proto _ => None
  end.

(** [x.baseline?.high], when it is truthy. *)
Definition found_high (x : Found) : option string :=
  match found_baseline x with
  | Some b =>
      match high b with
      | Some s => if JS.truthy s then Some s else None
      | None => None
      end
  | None => None
  end.

(** The [name] of a member of [Object.prototype]: a function has the name
    of its key, but for the function [Object] under [constructor]; the
    object under [__proto__] has none. *)
Definition member_name (k : string) : option string :=
  if (k =? "__proto__")%string then None
  else if (k =? "constructor")%string then Some "Object"
  else Some k.

Definition found_name (x : Found) : option string :=
  match x with
  | Cached f => Some (name f)
  | Raw r => r_name r
  | Proto k => member_name k
  end.

Definition found_description (x : Found) : option string :=
  match x with
  | Cached f => description f
  | Raw r => r_description r
  | Proto _ => None
  end.

Definition found_mdn_url (x : Found) : option string :=
  match x with
  | Cached f => mdn_url f
  | Raw r => r_mdn_url r
  | Proto _ => None
  end.

(** A raw record has its link under [spec], not under [spec_url]. *)
Definition found_spec_url (x : Found) : option string :=
  match x with
  | Cached f => spec_url f
  | Raw _ | Proto _ => None
  end.

Inductive StatusValue : Type :=
  | StatusOf (s : option Status)
  | RawStatusOf (s : option RawStatus).

Definition found_status (x : Found) : StatusValue :=
  match x with
  | Cached f => StatusOf (status f)
  | Raw r => RawStatusOf (r_status r)
  | Proto _ => StatusOf None
  end.

(** What a handler throws. *)
Inductive Error : Type :=
  | TypeError                          (* a property read on [undefined] *)
  | UnknownTool (tool : option string) (* [Error(`Unknown tool: ${name}`)] *)
  | Rejected.                          (* an awaited promise was rejected *)

Inductive Res (A : Type) : Type :=
  | Returned (a : A)
  | Raised (e : Error).
Arguments Returned {A} a.
Arguments Raised {A} e.

(** [error.message]; the text of a [TypeError] is the host's. *)
Definition message (type_error : string) (e : Error) : string :=
  match e with
  | TypeError => type_error
  | UnknownTool tool => "Unknown tool: " ++ show_opt (fun s => s) tool
  | Rejected => type_error
  end.

(** The result of [compareFeatures] on values of [getFeature]. *)
Record Comparison : Type := {
  c_featureA : Found;
  c_featureB : Found;
  c_baselineDifference : option BaselineDifference;
  c_supportDifference : list SupportRow
}.

Definition row_of (sa sb : BrowserSupport) (br : string) : SupportRow :=
  {| browser := br;
     aVersion := label (support_get sa br);
     bVersion := label (support_get sb br) |}.

(** [compareFeatures] as the servers call it: the first turn of the loop
    reads [featureA.support[browser]], then [featureB.support[browser]],
    and throws when the support matrix is [undefined]. *)
Definition compareFeatures_cast (h : JS.Host) (x y : Found)
  : Res Comparison :=
  match found_support x, found_support y with
  | Some sa, Some sb =>
      Returned
        {| c_featureA := x; c_featureB := y;
           c_baselineDifference :=
             match found_high x, found_high y with
             | Some ha, Some hb =>
                 let yearA := JS.getFullYear h ha in
                 let yearB := JS.getFullYear h hb in
                 Some {| yearDiff := JS.num_abs (JS.num_sub yearA yearB);
                         aFirst := JS.num_lt yearA yearB |}
             | _, _ => None
             end;
           c_supportDifference := map (row_of sa sb) browsers_tracked |}
  | _, _ => Raised TypeError
  end.

(** The comparison of two cached records, among the values. *)
Definition of_result (c : ComparisonResult) : Comparison :=
  {| c_featureA := Cached (featureA c); c_featureB := Cached (featureB c);
     c_baselineDifference := baselineDifference c;
     c_supportDifference := supportDifference c |}.

(* ================================================================== *)
(** * The tools, as both servers have them *)
(* ================================================================== *)

(** The [arguments] of a tool call; a key that is absent is [None]. The
    year is a whole number. *)
Record Args : Type := {
  featureName : option string;
  arg_year : option Z;
  arg_featureA : option string;
  arg_featureB : option string;
  arg_query : option string;
  arg_limit : option Q
}.

(** [args?.key]. *)
Definition arg {A : Type} (args : option Args) (key : Args -> option A)
  : option A :=
  match args with
  | Some a => key a
  | None => None
  end.

(** [name === s], for a name that may be [undefined]: the test of a
    [case] of a [switch]. *)
Definition is_case (n : option string) (s : string) : bool :=
  match n with
  | Some x => String.eqb x s
  | None => false
  end.

(** [params] of [tools/call]. *)
Record Params : Type := {
  tool : option string;
  arguments : option Args
}.

(** The object that [getFeatureSupport] of the HTTP server prints. *)
Record Report : Type := {
  rep_name : option string;
  rep_description : option string;
  baselineYear : option JS.Num;          (* [None] is [null] *)
  baselineStatus : string;
  browserSupport : option BrowserSupport;
  links_mdn : option string;
  links_spec : option string;
  rep_status : StatusValue
}.

(** An element of [features] in the answer of [listBaselineFeatures]. *)
Record Summary : Type := {
  sum_name : string;
  sum_quarter : option string;
  sum_description : option string
}.

(** The [text] of the one element of [content]: a sentence, or
    [JSON.stringify(v, null, 2)] for an object [v], kept as the object. *)
Inductive ToolText : Type :=
  | Plain (s : string)
  | FeatureJson (r : Report)
  | YearJson (y : Z) (count : nat) (features : list Summary)
  | ComparisonJson (c : Comparison)
  | SearchJson (query : option string) (count : nat) (results : list Hit)
  | ErrorText (e : Error).               (* [`Error: ${error.message}`] *)

(** [getFeature(name)] when [name] may be [undefined]: [name.toLowerCase()]
    throws then. *)
Definition getFeature_arg (st : DataLoader) (n : option string)
  : Res (option Found) :=
  match n with
  | Some s => Returned (getFeature st s)
  | None => Raised TypeError
  end.

(** The body of [listBaselineFeatures], after the load. *)
Definition baseline_reply (st : DataLoader) (y : option Z) : ToolText :=
  match y with
  | Some n =>
      match getBaselineFeatures st n with
      | [] =>
          Plain ("No Baseline features found for year " ++ show n
                 ++ ". Available years: 2022, 2023, 2024")
      | features =>
          YearJson n (List.length features)
            (map (fun f => {| sum_name := bf_name f;
                              sum_quarter := quarter f;
                              sum_description := bf_description f |})
                 features)
      end
  | None =>
      Plain ("No Baseline features found for year undefined"
             ++ ". Available years: 2022, 2023, 2024")
  end.

(** The body of [compareSupport], after the load. *)
Definition comparison_reply (h : JS.Host) (st : DataLoader)
  (a b : option string) : Res ToolText :=
  match getFeature_arg st a with
  | Raised e => Raised e
  | Returned dataA =>
      match getFeature_arg st b with
      | Raised e => Raised e
      | Returned dataB =>
          match dataA, dataB with
          | Some x, Some y =>
              match compareFeatures_cast h x y with
              | Returned c => Returned (ComparisonJson c)
              | Raised e => Raised e
              end
          | _, _ =>
              Returned
                (Plain ("One or both features not found: "
                        ++ quote ++ show_opt (fun s => s) a ++ quote ++ ", "
                        ++ quote ++ show_opt (fun s => s) b ++ quote))
          end
      end
  end.

(** A load that is awaited: the instance it leaves, or the rejection. *)
Definition awaited (c : Completion) : DataLoader * option Error :=
  match c with
  | Normal st => (st, None)
  | Throw st => (st, Some Rejected)
  end.

(** What the import and the clock give during one request: the module,
    the clock at the gate of [loadBCDData] and at its end. *)
Record Env : Type := {
  imported : option WebFeatures;
  gate_time : Z;
  load_time : Z
}.

Definition load (st : DataLoader) (env : Env) : DataLoader * option Error :=
  awaited (loadBCDData st (imported env) (gate_time env) (load_time env)).

(* ================================================================== *)
(** * [sse-server.ts]: class [SSEServer] *)
(* ================================================================== *)

Module Sse.

(** The middleware that validates the [Origin] header: [None] is
    [next()], [Some] the answer that ends the request. *)
Definition validateOrigin (origin : option string) : option (Z * string) :=
  match origin with
  | Some o =>
      if JS.truthy o
         && negb (String.prefix "http://localhost" o)
         && negb (String.prefix "http://127.0.0.1" o)
      then Some (403, "Invalid origin")
      else None
  | None => None
  end.

(** The names of the tools of [tools/list], with the keys they require. *)
Definition tools : list (string * list string) :=
  [ ("getFeatureSupport", ["featureName"]);
    ("listBaselineFeatures", ["year"]);
    ("compareSupport", ["featureA"; "featureB"]) ].

Definition getFeatureSupport (h : JS.Host) (st : DataLoader)
  (n : option string) : Res ToolText :=
  match getFeature_arg st n with
  | Raised e => Raised e
  | Returned None =>
      Returned
        (Plain ("Feature " ++ quote ++ show_opt (fun s => s) n ++ quote
                ++ " not found. Available features include: css-has-selector, offscreen-canvas, webusb, fetch-streaming"))
  | Returned (Some x) =>
      Returned
        (FeatureJson
           {| rep_name := found_name x;
              rep_description := found_description x;
              baselineYear :=
                match found_high x with
                | Some s => Some (JS.getFullYear h s)
                | None => None
                end;
              baselineStatus :=
                match found_baseline x with
                | Some _ => "Baseline"
                | None => "Not in Baseline"
                end;
              browserSupport := found_support x;
              links_mdn := found_mdn_url x;
              links_spec := found_spec_url x;
              rep_status := found_status x |})
  end.

Definition listBaselineFeatures (st : DataLoader) (y : option Z)
  : ToolText :=
  baseline_reply st y.

Definition compareSupport (h : JS.Host) (st : DataLoader)
  (a b : option string) : Res ToolText :=
  comparison_reply h st a b.

(** [handleToolCall]: the destructuring of [params] throws when there are
    none; both loads are awaited before the [switch]. *)
Definition handleToolCall (h : JS.Host) (st : DataLoader) (env : Env)
  (params : option Params) : DataLoader * Res ToolText :=
  match params with
  | None => (st, Raised TypeError)
  | Some p =>
      match load st env with
      | (st1, Some e) => (st1, Raised e)
      | (st1, None) =>
          let st2 := loadBaselineData st1 in
          let args := arguments p in
          (st2,
           if is_case (tool p) "getFeatureSupport"
           then getFeatureSupport h st2 (arg args featureName)
           else if is_case (tool p) "listBaselineFeatures"
           then Returned (listBaselineFeatures st2 (arg args arg_year))
           else if is_case (tool p) "compareSupport"
           then compareSupport h st2 (arg args arg_featureA)
                               (arg args arg_featureB)
           else Raised (UnknownTool (tool p)))
      end
  end.

(** ** The JSON-RPC endpoint *)

(** The [id] of a request. *)
Inductive Id : Type :=
  | IdNumber (n : Z)
  | IdString (s : string)
  | IdNull
  | IdUndefined.

(** The body of a [POST /], when it is an object; [method] is [None] when
    the key is absent. (A [method] that is no string is told from these by
    nothing the server does: when it is falsy it is taken as absent, and
    otherwise as a name that is none of the cases of the [switch].) *)
Record Request : Type := {
  method : option string;
  params : option Params;
  id : Id
}.

(** What an answer holds under [result] or under [error]. *)
Inductive Outcome : Type :=
  | Initialized (protocolVersion name version : string)
  | ToolList (l : list (string * list string))
  | ToolResult (t : ToolText)
  | RpcError (code : Z) (text : string) (data : option Error).

Record Response : Type := {
  jsonrpc : string;
  response_id : Id;
  outcome : Outcome
}.

Record Session : Type := {
  session_id : string;
  created : Z
}.

(** The instance fields; a client is the handle of an open response. *)
Record Server : Type := {
  dataLoader : DataLoader;
  clients : list (string * nat);
  sessions : list (string * Session);
  eventCounter : Z
}.

Definition new_Server : Server :=
  {| dataLoader := new_DataLoader; clients := []; sessions := [];
     eventCounter := 0 |}.

Definition set_dataLoader (d : DataLoader) (s : Server) : Server :=
  {| dataLoader := d; clients := clients s; sessions := sessions s;
     eventCounter := eventCounter s |}.

(** What [initialize] reads besides the request: the clock for the id, the
    digits of [Math.random().toString(36).substr(2, 9)], the clock for
    [created]. *)
Record Entropy : Type := {
  id_time : Z;
  random : string;
  created_time : Z
}.

Definition newSessionId (r : Entropy) : string :=
  "session-" ++ show (id_time r) ++ "-" ++ random r.

Definition answer (i : Id) (o : Outcome) : Response :=
  {| jsonrpc := "2.0"; response_id := i; outcome := o |}.

(** [handleMCPRequest]: the new state, the answer and the session id, if
    one was made. The [catch] turns what the [switch] throws into the
    error -32603. *)
Definition handleMCPRequest (h : JS.Host) (s : Server) (env : Env)
  (r : Entropy) (request : Request) : Server * (Response * option string) :=
  if is_case (method request) "initialize" then
    let sid := newSessionId r in
    ({| dataLoader := dataLoader s; clients := clients s;
        sessions :=
          JS.map_set String.eqb sid
            {| session_id := sid; created := created_time r |}
            (sessions s);
        eventCounter := eventCounter s |},
     (answer (id request)
             (Initialized "2025-06-18" "web-baseline-server" "1.0.0"),
      Some sid))
  else if is_case (method request) "tools/list" then
    (s, (answer (id request) (ToolList tools), None))
  else if is_case (method request) "tools/call" then
    match handleToolCall h (dataLoader s) env (params request) with
    | (d, Returned t) =>
        (set_dataLoader d s, (answer (id request) (ToolResult t), None))
    | (d, Raised e) =>
        (set_dataLoader d s,
         (answer (id request) (RpcError (-32603) "Internal error" (Some e)),
          None))
    end
  else
    (s, (answer (id request) (RpcError (-32601) "Method not found" None),
         None)).

(** ** The routes *)

(** The headers of a request that the routes read. *)
Record Headers : Type := {
  Origin : option string;
  Mcp_Session_Id : option string;
  MCP_Protocol_Version : option string;
  Accept : option string
}.

(** An answer: its status, the [Mcp-Session-Id] header, its body. *)
Inductive Body : Type :=
  | ErrorBody (error : string)
  | ErrorPage             (* the page of the error handler of Express *)
  | NoBody
  | JsonBody (r : Response)
  | EventStream (event_id : string) (data : Response)
  | FeatureBody (f : Found)
  | BaselineBody (y : Number) (features : list BaselineFeature)
  | ComparisonBody (c : Comparison).

Record Reply : Type := {
  status_code : Z;
  session_header : option string;
  body : Body
}.

Definition reply (code : Z) (b : Body) : Reply :=
  {| status_code := code; session_header := None; body := b |}.

Definition supported_versions : list string :=
  ["2024-11-05"; "2025-03-26"; "2025-06-18"].

(** What [express.json()], which is registered before the check of the
    origin, makes of the body of a request: it fails with an error that
    has a status (400 for malformed JSON, 413 for a body that is too
    large, 415 for a charset it does not know), and the error handler of
    Express answers with that status; or it goes on with [req.body], an
    object, or [undefined] where it has left the body alone. *)
Inductive Payload : Type :=
  | Unreadable (status : Z)
  | Read (content : option Request).

(** The answer of the [catch] of the route: the [id] is
    [req.body?.id || null]. *)
Definition internal_error (content : option Request) (e : Error)
  : Reply :=
  reply 500
    (JsonBody
       (answer
          match content with
          | Some request =>
              match id request with
              | IdNumber 0 | IdString EmptyString | IdUndefined => IdNull
              | i => i
              end
          | None => IdNull
          end
          (RpcError (-32603) "Internal error" (Some e)))).

(** [app.post('/')], behind the middleware: the request has passed
    [express.json()] and [validateOrigin]. Reading [request.method] throws
    when the body is [undefined], which the [catch] of the route answers;
    [handleMCPRequest] catches what it throws itself. *)
Definition post_root (h : JS.Host) (s : Server) (env : Env) (r : Entropy)
  (hd : Headers) (content : option Request) : Server * Reply :=
  let protocolVersion :=
    or_default (MCP_Protocol_Version hd) "2025-03-26" in
  let acceptHeader := or_default (Accept hd) "" in
  if negb (mem protocolVersion supported_versions)
  then (s, reply 400 (ErrorBody "Unsupported MCP protocol version"))
  else
    match content with
    | None => (s, internal_error content TypeError)
    | Some request =>
        match JS.or_str (method request) None with
        | None => (s, reply 202 NoBody)
        | Some _ =>
            match handleMCPRequest h s env r request with
            | (s1, (response, sid)) =>
                if JS.includes acceptHeader "text/event-stream"
                then
                  let n := eventCounter s1 + 1 in
                  ({| dataLoader := dataLoader s1; clients := clients s1;
                      sessions := sessions s1; eventCounter := n |},
                   {| status_code := 200; session_header := sid;
                      body := EventStream ("event-" ++ show n) response |})
                else
                  (s1, {| status_code := 200; session_header := sid;
                          body := JsonBody response |})
            end
        end
    end.

(** The request through the middleware and the route: the parser of the
    body first, then the check of the origin. *)
Definition post (h : JS.Host) (s : Server) (env : Env) (r : Entropy)
  (hd : Headers) (payload : Payload) : Server * Reply :=
  match payload with
  | Unreadable status => (s, reply status ErrorPage)
  | Read content =>
      match validateOrigin (Origin hd) with
      | Some (code, error) => (s, reply code (ErrorBody error))
      | None => post_root h s env r hd content
      end
  end.

Fixpoint map_delete {V : Type} (k : string) (m : list (string * V))
  : list (string * V) :=
  match m with
  | [] => []
  | (k', v) :: rest =>
      if String.eqb k k' then rest else (k', v) :: map_delete k rest
  end.

Definition map_has {V : Type} (k : string) (m : list (string * V)) : bool :=
  match JS.map_get String.eqb k m with
  | Some _ => true
  | None => false
  end.

(** [app.delete('/')], behind the middleware. *)
Definition delete_root (s : Server) (hd : Headers) : Server * Reply :=
  match Mcp_Session_Id hd with
  | Some sid =>
      if JS.truthy sid && map_has sid (sessions s)
      then ({| dataLoader := dataLoader s;
               clients := map_delete sid (clients s);
               sessions := map_delete sid (sessions s);
               eventCounter := eventCounter s |},
            reply 200 NoBody)
      else (s, reply 404 (ErrorBody "Session not found"))
  | None => (s, reply 404 (ErrorBody "Session not found"))
  end.

(** [app.get('/api/features/:name')]. *)
Definition api_features (s : Server) (env : Env) (n : string)
  : Server * Reply :=
  match load (dataLoader s) env with
  | (d, Some _) =>
      (set_dataLoader d s, reply 500 (ErrorBody "Internal server error"))
  | (d, None) =>
      (set_dataLoader d s,
       match getFeature d n with
       | Some f => reply 200 (FeatureBody f)
       | None => reply 404 (ErrorBody "Feature not found")
       end)
  end.

(** [getBaselineFeatures(year)] for the number that [parseInt] gave: the
    keys of the cache are whole numbers, and neither [NaN] nor an infinity
    is one. *)
Definition getBaselineFeatures_num (st : DataLoader) (y : Number)
  : list BaselineFeature :=
  match y with
  | Finite n => getBaselineFeatures st n
  | NotANumber | Infinity _ => []
  end.

(** [app.get('/api/baseline/:year')]. *)
Definition api_baseline (R : Rounding) (s : Server) (y : string)
  : Server * Reply :=
  let d := loadBaselineData (dataLoader s) in
  let n := parseInt R y in
  (set_dataLoader d s,
   reply 200 (BaselineBody n (getBaselineFeatures_num d n))).

(** [app.get('/api/compare/:featureA/:featureB')]: the [catch] answers
    500 for what [compareFeatures] throws. *)
Definition api_compare (h : JS.Host) (s : Server) (env : Env)
  (a b : string) : Server * Reply :=
  match load (dataLoader s) env with
  | (d, Some _) =>
      (set_dataLoader d s, reply 500 (ErrorBody "Internal server error"))
  | (d, None) =>
      (set_dataLoader d s,
       match getFeature d a, getFeature d b with
       | Some x, Some y =>
           match compareFeatures_cast h x y with
           | Returned c => reply 200 (ComparisonBody c)
           | Raised _ => reply 500 (ErrorBody "Internal server error")
           end
       | _, _ => reply 404 (ErrorBody "One or both features not found")
       end)
  end.

(** ** The event streams *)

(** What [app.get('/')] answers: the documentation, or an event stream
    with its first event. *)
Inductive Stream : Type :=
  | Documentation
  | Opened (clientId : string) (event_id : string).

(** [app.get('/')], behind the middleware; [now] is the clock and [res]
    the handle of the response, which is kept open. *)
Definition get_root (s : Server) (hd : Headers) (now : Z) (res : nat)
  : Server * Stream :=
  let acceptHeader := or_default (Accept hd) "" in
  if negb (JS.includes acceptHeader "text/event-stream")
  then (s, Documentation)
  else
    let clientId :=
      or_default (Mcp_Session_Id hd) ("client-" ++ show now) in
    let n := eventCounter s + 1 in
    ({| dataLoader := dataLoader s;
        clients := JS.map_set String.eqb clientId res (clients s);
        sessions := sessions s; eventCounter := n |},
     Opened clientId ("event-" ++ show n)).

(** [app.get('/events')]: the id of the client it registers. *)
Definition events (s : Server) (now : Z) (res : nat) : Server * string :=
  let legacyClientId := "legacy-" ++ show now in
  ({| dataLoader := dataLoader s;
      clients := JS.map_set String.eqb legacyClientId res (clients s);
      sessions := sessions s; eventCounter := eventCounter s |},
   legacyClientId).

(** The handler of [close] of a stream opened under [clientId]. *)
Definition close (s : Server) (clientId : string) : Server :=
  {| dataLoader := dataLoader s;
     clients := map_delete clientId (clients s);
     sessions := sessions s; eventCounter := eventCounter s |}.

(** [broadcastUpdate(data)]: [write res] tells whether [client.write]
    returns on the handle [res] ([false]: it throws, and the client is
    deleted). The loop visits the entries of [clients] in order; the
    handles written to are logged. *)
Definition broadcastUpdate (write : nat -> bool) (s : Server)
  : Server * list nat :=
  fold_left
    (fun acc kv =>
       (if write (snd kv) then fst acc else close (fst acc) (fst kv),
        (snd acc ++ [snd kv])%list))
    (clients s) (s, []).

(** ** [start] *)

(** What [app.listen(port, '127.0.0.1')] comes to. *)
Inductive Listen : Type :=
  | Listening
  | AddressInUse        (* the event [error] with the code [EADDRINUSE] *)
  | OtherError.         (* the event [error] with another code *)

Inductive Started : Type :=
  | Bound (port : Z)
  | Failed (port : Z)   (* [console.error('Server error:', err)] *)
  | BadPort (port : Z). (* [listen] throws: the port is not in 0..65535 *)

(** [start(port)], with [fuel] for the calls of [start] from the handler
    of [error], which tries the next port on [EADDRINUSE]; [None] when the
    fuel does not suffice. *)
Fixpoint start_from (listen : Z -> Listen) (fuel : nat) (port : Z)
  : option Started :=
  match fuel with
  | O => None
  | S f =>
      if (port <? 0) || (65535 <? port) then Some (BadPort port)
      else
        match listen port with
        | Listening => Some (Bound port)
        | OtherError => Some (Failed port)
        | AddressInUse => start_from listen f (port + 1)
        end
  end.

(** [start(port)]: a port above 65535 ends the calls, so as many calls as
    there are ports from [port] to 65536 suffice. *)
Definition start (listen : Z -> Listen) (port : Z) : option Started :=
  start_from listen (S (Z.to_nat (65536 - port))) port.

End Sse.

(* ================================================================== *)
(** * [mcp-server.ts]: class [WebBaselineMCPServer] *)
(* ================================================================== *)

Module Mcp.

(** The names of the tools of the list, with the keys they require. *)
Definition tools : list (string * list string) :=
  [ ("getFeatureSupport", ["featureName"]);
    ("findFeatureId", ["query"]);
    ("listBaselineFeatures", ["year"]);
    ("compareSupport", ["featureA"; "featureB"]) ].

(** [findFeatureId(query, limit = 10)]. *)
Definition findFeatureId (st : DataLoader) (env : Env)
  (query : option string) (limit : option Q) : DataLoader * Res ToolText :=
  match load st env with
  | (st1, Some e) => (st1, Raised e)
  | (st1, None) =>
      let results :=
        findFeatures st1 query
          (match limit with Some l => l | None => inject_Z 10 end) in
      (st1, Returned (SearchJson query (List.length results) results))
  end.

Definition listBaselineFeatures (st : DataLoader) (y : option Z)
  : DataLoader * Res ToolText :=
  let st1 := loadBaselineData st in
  (st1, Returned (baseline_reply st1 y)).

Definition compareSupport (h : JS.Host) (st : DataLoader) (env : Env)
  (a b : option string) : DataLoader * Res ToolText :=
  match load st env with
  | (st1, Some e) => (st1, Raised e)
  | (st1, None) => (st1, comparison_reply h st1 a b)
  end.

Section CallTool.

(** [getFeatureSupport] of this server prints fields of the raw record
    ([id], [description_html]) that the embedding of the raw records does
    not have: the handler of the tool calls takes it as it is. *)
Variable getFeatureSupport :
  DataLoader -> Env -> option string -> DataLoader * Res ToolText.

(** The handler of [CallToolRequestSchema]: what a tool throws is caught
    and printed. *)
Definition callTool (h : JS.Host) (st : DataLoader) (env : Env)
  (n : string) (args : option Args) : DataLoader * ToolText :=
  let called :=
    if String.eqb n "getFeatureSupport"
    then getFeatureSupport st env (arg args featureName)
    else if String.eqb n "findFeatureId"
    then findFeatureId st env (arg args arg_query) (arg args arg_limit)
    else if String.eqb n "listBaselineFeatures"
    then listBaselineFeatures st (arg args arg_year)
    else if String.eqb n "compareSupport"
    then compareSupport h st env (arg args arg_featureA)
                        (arg args arg_featureB)
    else (st, Raised (UnknownTool (Some n))) in
  match called with
  | (st1, Returned t) => (st1, t)
  | (st1, Raised e) => (st1, ErrorText e)
  end.

End CallTool.

(** [start()], up to the connection of the transport. *)
Definition start (st : DataLoader) (env : Env) : DataLoader * option Error :=
  match load st env with
  | (st1, Some e) => (st1, Some e)
  | (st1, None) => (loadBaselineData st1, None)
  end.

End Mcp.

(* ================================================================== *)
(** * Statements about the servers *)
(* ================================================================== *)

(** The years that the sentence of [listBaselineFeatures] names. *)
Definition year_named (y : option Z) : bool :=
  match y with
  | Some n => existsb (Z.eqb n) [2022; 2023; 2024]
  | None => false
  end.

(** The reply of [listBaselineFeatures] on the store [st] is the list of
    the year, not empty, for a year that the sentence names, and the
    sentence for every other year. *)
Definition years_as_named (st : DataLoader) (y : option Z) : Prop :=
  if year_named y
  then exists n fs,
         y = Some n
         /\ baseline_reply st y = YearJson n (List.length fs) fs
         /\ fs <> []
         /\ map sum_name fs = map bf_name (getBaselineFeatures st n)
  else baseline_reply st y
       = Plain ("No Baseline features found for year "
                ++ show_opt show y
                ++ ". Available years: 2022, 2023, 2024").

(** What [start] ends in, seen from the first port [p] it tries: every
    port before the last one was in use. *)
Definition start_outcome (listen : Z -> Sse.Listen) (p : Z)
  (r : Sse.Started) : Prop :=
  match r with
  | Sse.Bound q =>
      p <= q <= 65535 /\ listen q = Sse.Listening
      /\ forall k, p <= k < q -> listen k = Sse.AddressInUse
  | Sse.Failed q =>
      p <= q <= 65535 /\ listen q = Sse.OtherError
      /\ forall k, p <= k < q -> listen k = Sse.AddressInUse
  | Sse.BadPort q =>
      q = 65536 /\ forall k, p <= k <= 65535 -> listen k = Sse.AddressInUse
  end.

(* ================================================================== *)
(** * The comparison engine *)
(* ================================================================== *)

Lemma label_Normalized (x : option SupportValue) : Normalized x (label x).
Proof.
  destruct x as [[v | []] | ]; simpl; constructor.
Qed.

Lemma supportDifference_rows (h : JS.Host) (a b : FeatureData) :
  supportDifference (compareFeatures h a b) = map (row a b) browsers_tracked.
Proof. reflexivity. Qed.

(** C2. For every pair of records the comparison holds exactly one row per
    tracked browser, in the order chrome, edge, firefox, safari, made from
    the cells [chrome], [edge], [firefox] and [safari] of the two support
    matrices; in each row either side is the version string when the cell
    is a string, ["supported"] when it is [true] and ["not supported"] when
    it is [false] or absent. *)
Theorem C2_support_rows (h : JS.Host) (a b : FeatureData) :
  exists r1 r2 r3 r4,
    supportDifference (compareFeatures h a b) = [r1; r2; r3; r4]
    /\ row_of_cells "chrome" (chrome (support a)) (chrome (support b)) r1
    /\ row_of_cells "edge" (edge (support a)) (edge (support b)) r2
    /\ row_of_cells "firefox" (firefox (support a)) (firefox (support b)) r3
    /\ row_of_cells "safari" (safari (support a)) (safari (support b)) r4.
Proof.
  rewrite supportDifference_rows. unfold browsers_tracked. simpl map.
  do 4 eexists. split; [ reflexivity | ].
  unfold row_of_cells, row, support_get. simpl.
  repeat split; apply label_Normalized.
Qed.

(** The rows of [webusb] against [css-has-selector], cell by cell: a
    version on either side, and [false] against a version. *)
Lemma C2_support_rows_witness :
  supportDifference (compareFeatures utc webusb css_has_selector)
  = [ {| browser := "chrome"; aVersion := "61"; bVersion := "105" |};
      {| browser := "edge"; aVersion := "79"; bVersion := "105" |};
      {| browser := "firefox"; aVersion := "not supported";
         bVersion := "121" |};
      {| browser := "safari"; aVersion := "not supported";
         bVersion := "15.4" |} ].
Proof.
  destruct (C2_support_rows utc webusb css_has_selector)
    as (r1 & r2 & r3 & r4 & -> & R1 & R2 & R3 & R4).
  unfold row_of_cells in *. simpl in R1, R2, R3, R4.
  destruct r1 as [n1 a1 b1], r2 as [n2 a2 b2], r3 as [n3 a3 b3],
           r4 as [n4 a4 b4].
  simpl in *.
  destruct R1 as (-> & A1 & B1), R2 as (-> & A2 & B2),
           R3 as (-> & A3 & B3), R4 as (-> & A4 & B4).
  inversion A1; inversion B1; inversion A2; inversion B2;
    inversion A3; inversion B3; inversion A4; inversion B4.
  reflexivity.
Defined.

(** The guard [featureA.baseline?.high && featureB.baseline?.high], and
    what the comparison computes behind it. *)
Lemma baselineDifference_guard (h : JS.Host) (a b : FeatureData) :
  baselineDifference (compareFeatures h a b) =
  match baseline_high a, baseline_high b with
  | Some ha, Some hb =>
      Some {| yearDiff :=
                JS.num_abs (JS.num_sub (JS.getFullYear h ha)
                                       (JS.getFullYear h hb));
              aFirst := JS.num_lt (JS.getFullYear h ha)
                                  (JS.getFullYear h hb) |}
  | _, _ => None
  end.
Proof. reflexivity. Qed.

Lemma baseline_high_absent (f : FeatureData) :
  high_of f = None -> baseline_high f = None.
Proof.
  unfold high_of, baseline_high. destruct (baseline f) as [bl | ]; trivial.
  intros ->. reflexivity.
Qed.

Lemma baseline_high_present (f : FeatureData) (s : string) :
  baseline_high f = Some s -> high_of f = Some s.
Proof.
  unfold high_of, baseline_high.
  destruct (baseline f) as [bl | ]; [ | discriminate ].
  destruct (high bl) as [s' | ]; [ | discriminate ].
  destruct (JS.truthy s'); [ trivial | discriminate ].
Qed.

(** The empty string is a date no host parses: under the invariant a date
    that is present passes the guard. *)
Lemma baseline_high_parsable (h : JS.Host) (f : FeatureData) (s : string) :
  high_parsable h f -> high_of f = Some s -> baseline_high f = Some s.
Proof.
  intros P E. destruct (P s E) as [t Ht].
  unfold high_of in E. unfold baseline_high.
  destruct (baseline f) as [bl | ]; [ | discriminate ].
  rewrite E. destruct s as [ | c r]; [ | reflexivity ].
  rewrite (JS.parse_empty h) in Ht. discriminate.
Qed.

Lemma getFullYear_parsed (h : JS.Host) (s : string) (t : Z) :
  JS.Date_parse h s = Some t ->
  JS.getFullYear h s = JS.Int (JS.YearFromTime (t + JS.LocalTZA h t)).
Proof. unfold JS.getFullYear. intros ->. reflexivity. Qed.

Lemma year_down_spec (fuel : nat) (y d : Z) :
  d < JS.DayFromYear (y + 1) ->
  JS.DayFromYear (y - Z.of_nat fuel) <= d ->
  JS.DayFromYear (JS.year_down fuel y d) <= d
  < JS.DayFromYear (JS.year_down fuel y d + 1).
Proof.
  revert y. induction fuel as [ | f IH]; intros y Up Low.
  - simpl. rewrite Z.sub_0_r in Low. lia.
  - simpl JS.year_down.
    destruct (Z.leb_spec (JS.DayFromYear y) d) as [L | G]; [ lia | ].
    apply IH.
    + replace (y - 1 + 1) with y by lia. exact G.
    + replace (y - 1 - Z.of_nat f) with (y - Z.of_nat (S f)) by lia.
      exact Low.
Qed.

(** Over the days of the time range of the standard (a hundred million
    either side of the epoch) the search finds the year of the day. *)
Lemma YearFromDay_spec (d : Z) :
  -100000000 <= d <= 100000000 ->
  JS.DayFromYear (JS.YearFromDay d) <= d
  < JS.DayFromYear (JS.YearFromDay d + 1).
Proof.
  intros R. unfold JS.YearFromDay. apply year_down_spec.
  - unfold JS.DayFromYear. Z.to_euclidean_division_equations. lia.
  - unfold JS.DayFromYear. change (Z.of_nat 1024) with 1024.
    Z.to_euclidean_division_equations. lia.
Qed.

(** [YearFromTime] is the function of the standard on every time value. *)
Lemma YearFromTime_spec (t : Z) :
  -8640000000000000 <= t <= 8640000000000000 ->
  JS.TimeFromYear (JS.YearFromTime t) <= t
  < JS.TimeFromYear (JS.YearFromTime t + 1).
Proof.
  intros R. unfold JS.YearFromTime, JS.TimeFromYear.
  assert (-100000000 <= JS.Day t <= 100000000) as RD.
  { unfold JS.Day, JS.msPerDay. Z.to_euclidean_division_equations. lia. }
  pose proof (YearFromDay_spec (JS.Day t) RD) as S.
  revert S. generalize (JS.DayFromYear (JS.YearFromDay (JS.Day t))).
  generalize (JS.DayFromYear (JS.YearFromDay (JS.Day t) + 1)).
  unfold JS.Day, JS.msPerDay. intros hi lo S.
  Z.to_euclidean_division_equations. lia.
Qed.

(** Local time is within a day of UTC, so the local day of a midnight UTC
    is that day, the one before or the one after. *)
Lemma Day_near_midnight (d off : Z) :
  Z.abs off <= JS.msPerDay ->
  JS.Day (d * JS.msPerDay + off) = d - 1
  \/ JS.Day (d * JS.msPerDay + off) = d
  \/ JS.Day (d * JS.msPerDay + off) = d + 1.
Proof.
  unfold JS.Day, JS.msPerDay. intros B.
  rewrite Z.add_comm, Z.div_add by lia.
  assert (-1 <= off / 86400000 <= 1) as R.
  { split.
    - apply Z.div_le_lower_bound; lia.
    - apply Z.div_le_upper_bound; lia. }
  lia.
Qed.

Lemma year_of_midnight (h : JS.Host) (s : string) (d y : Z) :
  JS.iso_date_only s = Some (d * JS.msPerDay) ->
  JS.YearFromDay (d - 1) = y -> JS.YearFromDay d = y ->
  JS.YearFromDay (d + 1) = y ->
  JS.getFullYear h s = JS.Int y.
Proof.
  intros P Y1 Y2 Y3.
  rewrite (getFullYear_parsed h s _ (JS.parse_date_only h s _ P)).
  unfold JS.YearFromTime.
  destruct (Day_near_midnight d (JS.LocalTZA h (d * JS.msPerDay))
              (JS.tza_bound h _)) as [E | [E | E]];
    rewrite E; congruence.
Qed.

(** The two dates of the sample comparison, on every host. *)
Lemma year_2023_12_01 (h : JS.Host) :
  JS.getFullYear h "2023-12-01" = JS.Int 2023.
Proof. apply (year_of_midnight h _ 19692); reflexivity. Qed.

Lemma year_2022_03_01 (h : JS.Host) :
  JS.getFullYear h "2022-03-01" = JS.Int 2022.
Proof. apply (year_of_midnight h _ 19052); reflexivity. Qed.

Lemma bundled_cache (now0 now : Z) :
  bcdCache (bundled now0 now) = getSampleBCDData.
Proof.
  unfold bundled, loadBCDData. simpl bcdCache at 1.
  rewrite andb_false_r. reflexivity.
Qed.

Lemma bundled_featuresMap (now0 now : Z) :
  featuresMap (bundled now0 now) = None.
Proof.
  unfold bundled, loadBCDData. simpl bcdCache at 1.
  rewrite andb_false_r. reflexivity.
Qed.

Lemma getFeature_no_map (st : DataLoader) (n : string) :
  featuresMap st = None ->
  getFeature st n =
  cached (or_obj (cache_get st (normalizeFeatureName n))
                 (cache_get st (Str n))).
Proof. unfold getFeature. intros ->. reflexivity. Qed.

Lemma digit_of_char (n : Z) :
  0 <= n <= 9 -> JS.digit (digit_char n) = Some n.
Proof.
  intros R. destruct n as [ | p | p]; [ reflexivity | | lia ].
  do 4 (try destruct p as [p | p | ]); try lia; reflexivity.
Qed.

Lemma number_two (n : Z) :
  0 <= n <= 99 ->
  JS.number [digit_char (n / 10); digit_char (n mod 10)] = Some n.
Proof.
  intros R. unfold JS.number, JS.digits_acc.
  rewrite !digit_of_char by (Z.to_euclidean_division_equations; lia).
  f_equal. Z.to_euclidean_division_equations. lia.
Qed.

Lemma number_four (n : Z) :
  0 <= n <= 9999 ->
  JS.number [digit_char (n / 1000); digit_char (n / 100 mod 10);
             digit_char (n / 10 mod 10); digit_char (n mod 10)] = Some n.
Proof.
  intros R. unfold JS.number, JS.digits_acc.
  rewrite !digit_of_char by (Z.to_euclidean_division_equations; lia).
  f_equal. Z.to_euclidean_division_equations. lia.
Qed.

Lemma month_cases (m : Z) :
  1 <= m <= 12 ->
  m = 1 \/ m = 2 \/ m = 3 \/ m = 4 \/ m = 5 \/ m = 6 \/ m = 7 \/ m = 8
  \/ m = 9 \/ m = 10 \/ m = 11 \/ m = 12.
Proof. lia. Qed.

Lemma days_in_month_bound (l : bool) (m : Z) :
  1 <= m <= 12 -> 28 <= JS.days_in_month l m <= 31.
Proof.
  intros R. pose proof (month_cases m R) as C.
  repeat (destruct C as [-> | C]; [ destruct l; simpl; lia | ]).
  subst m. destruct l; simpl; lia.
Qed.

Lemma iso_date_only_string (y m d : Z) :
  calendar_date y m d ->
  JS.iso_date_only (date_only y m d) = Some (JS.utc_midnight y m d).
Proof.
  intros (Y & M & D).
  pose proof (days_in_month_bound (JS.InLeapYear y) m M) as B.
  unfold JS.iso_date_only, date_only.
  rewrite list_ascii_of_string_of_list_ascii.
  cbv beta iota.
  change (Ascii.eqb "-" "-") with true. cbv beta iota delta [andb].
  rewrite number_four by exact Y.
  rewrite !number_two by lia.
  replace (1 <=? m) with true by (symmetry; apply Z.leb_le; lia).
  replace (m <=? 12) with true by (symmetry; apply Z.leb_le; lia).
  replace (1 <=? d) with true by (symmetry; apply Z.leb_le; lia).
  replace (d <=? JS.days_in_month (JS.InLeapYear y) m) with true
    by (symmetry; apply Z.leb_le; lia).
  reflexivity.
Qed.

Lemma DayFromYear_next (y : Z) :
  JS.DayFromYear (y + 1)
  = JS.DayFromYear y + 365 + (if JS.InLeapYear y then 1 else 0).
Proof.
  unfold JS.DayFromYear, JS.InLeapYear.
  destruct (Z.eqb_spec (y mod 4) 0) as [E4 | E4];
    destruct (Z.eqb_spec (y mod 100) 0) as [E100 | E100];
    destruct (Z.eqb_spec (y mod 400) 0) as [E400 | E400];
    cbv [andb orb negb];
    Z.to_euclidean_division_equations; lia.
Qed.

Lemma DayFromYear_mono (a b : Z) :
  a <= b -> JS.DayFromYear a <= JS.DayFromYear b.
Proof.
  intros L. unfold JS.DayFromYear. Z.to_euclidean_division_equations. lia.
Qed.

Lemma YearFromDay_unique (d y : Z) :
  -100000000 <= d <= 100000000 ->
  JS.DayFromYear y <= d < JS.DayFromYear (y + 1) ->
  JS.YearFromDay d = y.
Proof.
  intros R In. pose proof (YearFromDay_spec d R) as S.
  destruct (Z.lt_trichotomy (JS.YearFromDay d) y) as [L | [E | G]];
    [ | exact E | ].
  - pose proof (DayFromYear_mono (JS.YearFromDay d + 1) y ltac:(lia)). lia.
  - pose proof (DayFromYear_mono (y + 1) (JS.YearFromDay d) ltac:(lia)). lia.
Qed.

Lemma day_of_year (y m d : Z) :
  calendar_date y m d ->
  0 <= JS.days_before_month (JS.InLeapYear y) m + (d - 1)
  < 365 + (if JS.InLeapYear y then 1 else 0)
  /\ (JS.days_before_month (JS.InLeapYear y) m + (d - 1) = 0
      <-> m = 1 /\ d = 1).
Proof.
  intros (_ & M & D). pose proof (month_cases m M) as C.
  destruct (JS.InLeapYear y);
    destruct C as [-> | [-> | [-> | [-> | [-> | [-> | [-> | [-> | [-> |
                  [-> | [-> | ->]]]]]]]]]]];
    cbv [JS.days_before_month JS.days_in_month] in *; lia.
Qed.

Lemma DayFromYear_range (y : Z) :
  0 <= y <= 10000 -> -800000 <= JS.DayFromYear y <= 3000000.
Proof.
  intros R. unfold JS.DayFromYear. Z.to_euclidean_division_equations. lia.
Qed.

Lemma getFullYear_date_only (h : JS.Host) (west : bool) (y m d : Z) :
  keeps h west -> calendar_date y m d ->
  JS.getFullYear h (date_only y m d) = JS.Int (local_year west y m d).
Proof.
  intros K C. pose proof (day_of_year y m d C) as (In & First).
  pose proof (DayFromYear_next y) as Next.
  pose proof (DayFromYear_next (y - 1)) as Prev.
  replace (y - 1 + 1) with y in Prev by lia.
  pose proof (DayFromYear_range y ltac:(destruct C; lia)) as Ry.
  rewrite (getFullYear_parsed h _ _
             (JS.parse_date_only h _ _ (iso_date_only_string y m d C))).
  f_equal. unfold JS.YearFromTime, JS.utc_midnight.
  set (x := JS.days_before_month (JS.InLeapYear y) m + (d - 1)) in *.
  replace (JS.DayFromYear y + JS.days_before_month (JS.InLeapYear y) m
           + (d - 1)) with (JS.DayFromYear y + x) by (unfold x; lia).
  clearbody x.
  assert (0 <= x < 366) as Rx by (destruct (JS.InLeapYear y); lia).
  specialize (K ((JS.DayFromYear y + x) * JS.msPerDay)).
  set (off := JS.LocalTZA h ((JS.DayFromYear y + x) * JS.msPerDay)) in *.
  clearbody off.
  unfold local_year. destruct west; cbn [andb].
  - assert (JS.Day ((JS.DayFromYear y + x) * JS.msPerDay + off)
            = JS.DayFromYear y + x - 1) as E.
    { unfold JS.Day, JS.msPerDay in *. Z.to_euclidean_division_equations.
      lia. }
    rewrite E.
    destruct (Z.eqb_spec m 1) as [M1 | M1];
      [ destruct (Z.eqb_spec d 1) as [D1 | D1] | ]; cbn [andb].
    + assert (x = 0) as -> by (apply First; tauto).
      apply YearFromDay_unique; [ lia | ].
      replace (y - 1 + 1) with y by lia.
      destruct (JS.InLeapYear (y - 1)); lia.
    + assert (x <> 0) as Z0 by (intros Z0; apply First in Z0; tauto).
      apply YearFromDay_unique; [ lia | ].
      destruct (JS.InLeapYear y); lia.
    + assert (x <> 0) as Z0 by (intros Z0; apply First in Z0; tauto).
      apply YearFromDay_unique; [ lia | ].
      destruct (JS.InLeapYear y); lia.
  - assert (JS.Day ((JS.DayFromYear y + x) * JS.msPerDay + off)
            = JS.DayFromYear y + x) as E.
    { unfold JS.Day, JS.msPerDay in *. Z.to_euclidean_division_equations.
      lia. }
    rewrite E. apply YearFromDay_unique; [ lia | ].
    destruct (JS.InLeapYear y); lia.
Qed.

(** The full year is that of local time: the first of January is still
    the year before for a host west of Greenwich, and the difference of two
    years depends on the host. *)
Lemma year_depends_on_host :
  baselineDifference
    (compareFeatures utc (dated "2023-01-01") (dated "2022-12-31"))
  = Some {| yearDiff := JS.Int 1; aFirst := false |}
  /\ baselineDifference
       (compareFeatures honolulu (dated "2023-01-01") (dated "2022-12-31"))
     = Some {| yearDiff := JS.Int 0; aFirst := false |}.
Proof. split; reflexivity. Qed.

(** The guard is a test of truthiness: an empty string, though present,
    counts as no date, and a string the host cannot parse gives [NaN]. *)
Lemma unparsable_dates :
  baselineDifference (compareFeatures utc (dated "") css_has_selector) = None
  /\ baselineDifference
       (compareFeatures utc (dated "soon") css_has_selector)
     = Some {| yearDiff := JS.NaN; aFirst := false |}.
Proof. split; reflexivity. Qed.

Lemma baseline_high_truthy (f : FeatureData) (s : string) :
  high_of f = Some s -> JS.truthy s = true -> baseline_high f = Some s.
Proof.
  unfold high_of, baseline_high.
  destruct (baseline f) as [bl | ]; [ | discriminate ].
  intros -> ->. reflexivity.
Qed.

Lemma date_only_truthy (y m d : Z) : JS.truthy (date_only y m d) = true.
Proof. reflexivity. Qed.



Lemma sample_high_parsable :
  high_parsable utc css_has_selector /\ high_parsable utc offscreen_canvas.
Proof.
  split; intros s E; injection E as <-; eexists; reflexivity.
Qed.

Lemma keeps_utc : keeps utc false.
Proof. intros t. simpl. unfold JS.msPerDay. lia. Qed.

Lemma keeps_honolulu : keeps honolulu true.
Proof. intros t. simpl. unfold JS.msPerDay. lia. Qed.


(** C7, as the specification words it, fails on a record of the bundled
    sample set: [webusb] has no baseline, so its comparison with itself has
    no [baselineDifference], hence no [yearDiff] equal to 0. *)
Lemma C7_self_comparison_counterexample :
  getFeature (bundled 0 0) "webusb" = Some (Cached webusb)
  /\ ~ (exists d,
          baselineDifference (compareFeatures utc webusb webusb) = Some d
          /\ yearDiff d = JS.Int 0 /\ aFirst d = false).
Proof.
  split; [ reflexivity | ].
  intros (d & E & _). discriminate E.
Qed.

(** C7, amended. For every record [A] the comparison of [A] with itself
    goes through the general path: in every row [aVersion] and [bVersion]
    are equal; when [A] has no baseline high date there is no
    [baselineDifference]; when it has one, a date the host can parse as the
    data model has it, [yearDiff] is 0 and [aFirst] is false. *)
Theorem C7_self_comparison (h : JS.Host) (A : FeatureData) :
  Forall (fun r => aVersion r = bVersion r)
         (supportDifference (compareFeatures h A A))
  /\ (high_of A = None ->
      baselineDifference (compareFeatures h A A) = None)
  /\ (forall d, baselineDifference (compareFeatures h A A) = Some d ->
      aFirst d = false)
  /\ (high_parsable h A ->
      forall s, high_of A = Some s ->
      baselineDifference (compareFeatures h A A)
      = Some {| yearDiff := JS.Int 0; aFirst := false |}).
Proof.
  split; [ | split; [ | split ] ].
  - rewrite supportDifference_rows. apply Forall_forall.
    intros r I. apply in_map_iff in I. destruct I as (br & <- & _).
    reflexivity.
  - intros E. rewrite baselineDifference_guard, (baseline_high_absent A E).
    reflexivity.
  - intros d. rewrite baselineDifference_guard.
    destruct (baseline_high A) as [s | ]; [ | discriminate ].
    intros E. injection E as <-. simpl.
    destruct (JS.getFullYear h s); [ apply Z.ltb_irrefl | reflexivity ].
  - intros P s E. destruct (P s E) as [t T].
    rewrite baselineDifference_guard, (baseline_high_parsable h A s P E).
    rewrite (getFullYear_parsed h s t T). simpl.
    rewrite Z.sub_diag, Z.ltb_irrefl. reflexivity.
Qed.

Lemma C7_self_comparison_witness :
  high_parsable utc css_has_selector
  /\ baselineDifference (compareFeatures utc css_has_selector
                                         css_has_selector)
     = Some {| yearDiff := JS.Int 0; aFirst := false |}
  /\ baselineDifference (compareFeatures utc webusb webusb) = None.
Proof.
  split; [ apply sample_high_parsable | ].
  split.
  - destruct (C7_self_comparison utc css_has_selector) as (_ & _ & _ & Dated).
    apply (Dated (proj1 sample_high_parsable) "2023-12-01"). reflexivity.
  - destruct (C7_self_comparison utc webusb) as (_ & Lacks & _).
    apply Lacks. reflexivity.
Defined.

(* ================================================================== *)
(** * Name normalization and point lookup *)
(* ================================================================== *)

Lemma lower_unit_idempotent (c : ascii) :
  JS.lower_unit (JS.lower_unit c) = JS.lower_unit c.
Proof.
  destruct c as [[] [] [] [] [] [] [] []]; reflexivity.
Qed.

Lemma toLowerCase_idempotent (s : string) :
  JS.toLowerCase (JS.toLowerCase s) = JS.toLowerCase s.
Proof.
  induction s as [ | c r IH]; simpl; [ reflexivity | ].
  rewrite lower_unit_idempotent, IH. reflexivity.
Qed.

(** A lowercased string is none of the keys of [Object.prototype] but
    [constructor] and [__proto__]: the others have a capital. *)
Lemma lowercased_inherited (s : string) :
  existsb (String.eqb (JS.toLowerCase s)) JS.object_prototype_keys = true ->
  JS.toLowerCase s = "constructor" \/ JS.toLowerCase s = "__proto__".
Proof.
  intros E. apply existsb_exists in E. destruct E as (k & I & E).
  apply String.eqb_eq in E.
  pose proof (toLowerCase_idempotent s) as Idem. rewrite E in Idem.
  simpl in I.
  repeat (destruct I as [<- | I]; [ try discriminate Idem; auto | ]).
  contradiction.
Qed.

Lemma alias_table (k i : string) :
  alias k = Some i <->
  (k = "css :has()" /\ i = "css-has-selector")
  \/ (k = "css has" /\ i = "css-has-selector")
  \/ (k = "offscreen canvas" /\ i = "offscreen-canvas")
  \/ (k = "web usb" /\ i = "webusb")
  \/ (k = "fetch streaming" /\ i = "fetch-streaming").
Proof.
  unfold alias, normalizations. simpl. split.
  - repeat match goal with
           | |- context [String.eqb k ?x] =>
               destruct (String.eqb_spec k x) as [-> | ]
           end;
      intros E; try discriminate E; injection E as <-; tauto.
  - intros [[-> ->] | [[-> ->] | [[-> ->] | [[-> ->] | [-> ->]]]]];
      reflexivity.
Qed.

Lemma alias_truthy (k i : string) : alias k = Some i -> JS.truthy i = true.
Proof.
  intros E. apply alias_table in E.
  destruct E as [[_ ->] | [[_ ->] | [[_ ->] | [[_ ->] | [_ ->]]]]];
    reflexivity.
Qed.

Lemma normalize_hit (n i : string) :
  alias (JS.toLowerCase n) = Some i -> normalizeFeatureName n = Str i.
Proof.
  intros E. unfold normalizeFeatureName, JS.obj_get.
  unfold alias in E. rewrite E.
  rewrite (alias_truthy (JS.toLowerCase n) i E). reflexivity.
Qed.

(** The lookup [normalizations[lower]] finds nothing: [lower] is no own key
    of the table and none it inherits. *)
Lemma lookup_misses (n : string) :
  JS.obj_get normalizations (JS.toLowerCase n) = JS.Undefined <->
  alias (JS.toLowerCase n) = None
  /\ JS.toLowerCase n <> "constructor" /\ JS.toLowerCase n <> "__proto__".
Proof.
  unfold JS.obj_get, alias.
  destruct (JS.map_get String.eqb (JS.toLowerCase n) normalizations) as [i | ];
    [ split; [ discriminate | intros [E _]; discriminate E ] | ].
  destruct (existsb (String.eqb (JS.toLowerCase n)) JS.object_prototype_keys)
    eqn:X.
  - split; [ discriminate | ].
    intros (_ & N1 & N2).
    destruct (lowercased_inherited n X); contradiction.
  - split; [ | reflexivity ]. intros _. split; [ reflexivity | ].
    split; intros E; rewrite E in X; discriminate X.
Qed.

Lemma normalize_miss (n : string) :
  JS.obj_get normalizations (JS.toLowerCase n) = JS.Undefined ->
  normalizeFeatureName n = Str n.
Proof. unfold normalizeFeatureName. intros ->. reflexivity. Qed.

(** The lookup reaches [Object.prototype]: under an inherited key the
    function returns no string at all. *)
Lemma normalize_inherited_key :
  normalizeFeatureName "Constructor" = Member "constructor"
  /\ normalizeFeatureName "__proto__" = Member "__proto__".
Proof. split; reflexivity. Qed.

(** C3, as the specification words it, fails: the function lowercases the
    name but never trims it, so an alias with a space before or after it is
    not recognized. *)
Lemma C3_normalize_counterexample :
  normalize_as_specified " css has " = Str "css-has-selector"
  /\ normalizeFeatureName " css has " = Str " css has "
  /\ normalizeFeatureName " css has " <> normalize_as_specified " css has ".
Proof.
  split; [ reflexivity | ]. split; [ reflexivity | ]. discriminate.
Qed.

(** C3, amended. For every name, the alias table is applied to the
    lowercased name, which is not trimmed: the five aliases [css :has()],
    [css has], [offscreen canvas], [web usb] and [fetch streaming], in any
    capitalization, give [css-has-selector], [css-has-selector],
    [offscreen-canvas], [webusb] and [fetch-streaming]; a name for which the
    lookup in the table finds nothing is returned unchanged. *)
Theorem C3_normalize (n : string) :
  (forall i, alias (JS.toLowerCase n) = Some i ->
             normalizeFeatureName n = Str i)
  /\ (JS.obj_get normalizations (JS.toLowerCase n) = JS.Undefined ->
      normalizeFeatureName n = Str n)
  /\ alias "css :has()" = Some "css-has-selector"
  /\ alias "css has" = Some "css-has-selector"
  /\ alias "offscreen canvas" = Some "offscreen-canvas"
  /\ alias "web usb" = Some "webusb"
  /\ alias "fetch streaming" = Some "fetch-streaming"
  /\ List.length normalizations = 5%nat.
Proof.
  split; [ intros i; apply normalize_hit | ].
  split; [ apply normalize_miss | ].
  repeat split.
Qed.

Lemma C3_normalize_witness :
  normalizeFeatureName "CSS Has" = Str "css-has-selector"
  /\ normalizeFeatureName " Web USB" = Str " Web USB".
Proof.
  split.
  - apply (C3_normalize "CSS Has"). reflexivity.
  - apply (C3_normalize " Web USB"). reflexivity.
Defined.

(** In a store without the external [featuresMap], a name the alias table
    does not know is looked up as it is written, whatever the lookup in the
    table inherits. *)
Lemma getFeature_verbatim (st : DataLoader) (n : string) :
  featuresMap st = None -> alias (JS.toLowerCase n) = None ->
  getFeature st n = cached (JS.map_get String.eqb n (bcdCache st)).
Proof.
  intros M A. rewrite (getFeature_no_map st n M).
  unfold normalizeFeatureName, JS.obj_get. unfold alias in A. rewrite A.
  destruct (existsb _ _); simpl;
    destruct (JS.map_get String.eqb n (bcdCache st)); reflexivity.
Qed.

Lemma external_no_map (st : DataLoader) (k : Key) :
  featuresMap st = None -> external st k = None.
Proof. unfold external. intros ->. reflexivity. Qed.

(** [getFeature], by what the external features answer under the
    normalized name. *)
Lemma getFeature_cases (st : DataLoader) (n : string) :
  getFeature st n =
  match external st (normalizeFeatureName n) with
  | Some v =>
      Some (match cache_get st (normalizeFeatureName n) with
            | Some f => Cached f
            | None => v
            end)
  | None =>
      match cache_get st (normalizeFeatureName n) with
      | Some f => Some (Cached f)
      | None => cached (JS.map_get String.eqb n (bcdCache st))
      end
  end.
Proof.
  unfold getFeature, external.
  destruct (featuresMap st) as [fm | ].
  - destruct (JS.obj_get fm (property_key (normalizeFeatureName n)))
      as [[r | ] | k | ]; try reflexivity;
      destruct (cache_get st (normalizeFeatureName n)); reflexivity.
  - destruct (cache_get st (normalizeFeatureName n)); reflexivity.
Qed.



(** C10, as the specification words it, fails for the names that the alias
    table inherits from [Object.prototype]: the lowercased form of
    [constructor] is no key of the table, yet the normalized name is not
    the name as it is written but the member found under it, and on a store
    with the external features the result is not that of the lookup of the
    name as it is written. *)
Lemma C10_case_sensitive_lookup_counterexample :
  exists st,
    loadBCDData new_DataLoader (Some exports_sound) 5 7 = Normal st
    /\ alias (JS.toLowerCase "constructor") = None
    /\ normalizeFeatureName "constructor" <> Str "constructor"
    /\ getFeature st "constructor" = None
    /\ lookup_verbatim st "constructor" = Some (Proto "constructor")
    /\ getFeature st "constructor" <> lookup_verbatim st "constructor".
Proof.
  eexists. split; [ reflexivity | ]. split; [ reflexivity | ].
  split; [ discriminate | ]. split; [ reflexivity | ].
  split; [ reflexivity | discriminate ].
Qed.

(** C10, amended. The lookup of canonical ids is case-sensitive. For every
    name whose lowercased form is neither a key of the alias table nor one
    of the two keys it inherits ([constructor] and [__proto__]), the
    normalized name is the name itself, so that on every store every
    attempt of [getFeature] uses the name as it is written: the result is
    that of the lookup of the name as written, it is the record cached
    under exactly that name on a store without the external features, and
    it is the same on two stores that agree on the external features and on
    the record cached under exactly that name. On the bundled store
    [WEBUSB] and [Css-Has-Selector] are absent while [webusb] and
    [css-has-selector] are found. *)
Theorem C10_case_sensitive_lookup (st : DataLoader) (n : string) :
  (alias (JS.toLowerCase n) = None ->
   JS.toLowerCase n <> "constructor" -> JS.toLowerCase n <> "__proto__" ->
   normalizeFeatureName n = Str n
   /\ getFeature st n = lookup_verbatim st n
   /\ (featuresMap st = None ->
       getFeature st n = cached (JS.map_get String.eqb n (bcdCache st)))
   /\ (forall st',
         featuresMap st' = featuresMap st ->
         JS.map_get String.eqb n (bcdCache st')
         = JS.map_get String.eqb n (bcdCache st) ->
         getFeature st' n = getFeature st n))
  /\ (forall now0 now,
        getFeature (bundled now0 now) "WEBUSB" = None
        /\ getFeature (bundled now0 now) "Css-Has-Selector" = None
        /\ getFeature (bundled now0 now) "webusb" = Some (Cached webusb)
        /\ getFeature (bundled now0 now) "css-has-selector"
           = Some (Cached css_has_selector)).
Proof.
  split.
  - intros A N1 N2.
    assert (normalizeFeatureName n = Str n) as N
        by (apply normalize_miss, lookup_misses; tauto).
    assert (forall s, getFeature s n = lookup_verbatim s n) as V.
    { intros s. rewrite getFeature_cases, N. unfold lookup_verbatim, cache_get.
      destruct (external s (Str n)); [ reflexivity | ].
      destruct (JS.map_get String.eqb n (bcdCache s)); reflexivity. }
    split; [ exact N | ]. split; [ apply V | ]. split.
    + intros M. rewrite V. unfold lookup_verbatim.
      rewrite (external_no_map st _ M). reflexivity.
    + intros st' M G. rewrite !V. unfold lookup_verbatim, external.
      rewrite M, G. reflexivity.
  - intros now0 now.
    rewrite !getFeature_verbatim
      by (apply bundled_featuresMap || reflexivity).
    rewrite bundled_cache. repeat split.
Qed.

Lemma C10_case_sensitive_lookup_witness :
  alias (JS.toLowerCase "WEBUSB") = None
  /\ JS.toLowerCase "WEBUSB" <> "constructor"
  /\ JS.toLowerCase "WEBUSB" <> "__proto__"
  /\ normalizeFeatureName "WEBUSB" = Str "WEBUSB"
  /\ getFeature (bundled 0 0) "WEBUSB"
     = cached (JS.map_get String.eqb "WEBUSB" (bcdCache (bundled 0 0)))
  /\ getFeature (bundled 0 0) "WEBUSB" = None
  /\ (exists st,
        loadBCDData new_DataLoader (Some exports_sound) 5 7 = Normal st
        /\ getFeature st "Popover" = None
        /\ getFeature st "popover"
           = Some (Cached (mapped "popover" (raw_named ""))))
  /\ getFeature (bundled 0 0) "webusb" = Some (Cached webusb).
Proof.
  split; [ reflexivity | ]. split; [ discriminate | ].
  split; [ discriminate | ].
  destruct (C10_case_sensitive_lookup (bundled 0 0) "WEBUSB") as (V & B).
  destruct V as (N & _ & C & _);
    [ reflexivity | discriminate | discriminate | ].
  split; [ exact N | ]. split; [ apply C; reflexivity | ].
  split; [ apply (B 0 0) | ].
  split; [ | apply (B 0 0) ].
  eexists. split; [ reflexivity | ]. split; reflexivity.
Defined.

(* ================================================================== *)
(** * Loading *)
(* ================================================================== *)

Lemma map_get_set_same (k : string) (v : FeatureData)
  (c : list (string * FeatureData)) :
  JS.map_get String.eqb k (JS.map_set String.eqb k v c) = Some v.
Proof.
  induction c as [ | [k' v'] r IH]; simpl.
  - rewrite String.eqb_refl. reflexivity.
  - destruct (String.eqb k k') eqn:E; simpl.
    + rewrite String.eqb_refl. reflexivity.
    + rewrite E. exact IH.
Qed.

Lemma map_get_set_other (k k' : string) (v : FeatureData)
  (c : list (string * FeatureData)) :
  k <> k' ->
  JS.map_get String.eqb k (JS.map_set String.eqb k' v c)
  = JS.map_get String.eqb k c.
Proof.
  intros N. apply String.eqb_neq in N.
  induction c as [ | [k2 v2] r IH]; simpl.
  - rewrite N. reflexivity.
  - destruct (String.eqb k' k2) eqn:E; simpl.
    + apply String.eqb_eq in E. subst k2. rewrite N. reflexivity.
    + destruct (String.eqb k k2); [ reflexivity | exact IH ].
Qed.

Lemma load_sample_cache (st : DataLoader) :
  bcdCache (load_sample st) = set_all getSampleBCDData (bcdCache st).
Proof. reflexivity. Qed.

(** After the sample has been written over a cache, each of its four keys
    gives the sample record, whatever the cache held. *)
Lemma sample_after_set_all (c : list (string * FeatureData))
  (k : string) (v : FeatureData) :
  In (k, v) getSampleBCDData ->
  JS.map_get String.eqb k (set_all getSampleBCDData c) = Some v.
Proof.
  unfold set_all, getSampleBCDData. simpl.
  intros [E | [E | [E | [E | []]]]]; injection E as <- <-;
    repeat first
      [ apply map_get_set_same
      | rewrite map_get_set_other by discriminate ].
Qed.

Lemma loadBCDData_stale (st : DataLoader) (imported : option WebFeatures)
  (now0 now : Z) :
  fresh st now0 = false ->
  loadBCDData st imported now0 now =
  match try_block st imported now with
  | Normal st' => Normal st'
  | Throw st' => Normal (load_sample st')
  end.
Proof. unfold loadBCDData, fresh. intros ->. reflexivity. Qed.

Lemma loadBCDData_fresh (st : DataLoader) (imported : option WebFeatures)
  (now0 now : Z) :
  fresh st now0 = true -> loadBCDData st imported now0 now = Normal st.
Proof. unfold loadBCDData, fresh. intros ->. reflexivity. Qed.

(** No failure of the external source reaches the caller: the promise of
    [loadBCDData] is always fulfilled. *)
Lemma loadBCDData_fulfilled (st : DataLoader)
  (imported : option WebFeatures) (now0 now : Z) :
  exists st', loadBCDData st imported now0 now = Normal st'.
Proof.
  unfold loadBCDData. destruct (_ && _); [ eexists; reflexivity | ].
  destruct (try_block st imported now); eexists; reflexivity.
Qed.

(** A module with a [default] export and no [features] at all passes the
    test of the external branch, which then sets nothing: a first load
    leaves the cache empty. *)
Lemma load_default_without_features :
  exists st,
    loadBCDData new_DataLoader (Some exports_without_features) 5 7
    = Normal st
    /\ bcdCache st = [] /\ lastUpdate st = 7.
Proof. eexists. repeat split. Qed.

(** C4, as the specification words it, fails. A first load from a
    [features] export whose second entry is [null] maps the first entry into
    the cache, throws on the second and then writes the bundled sample next
    to what is there: the cache holds a record of the external source and
    the four bundled records. *)
Lemma C4_load_counterexample :
  exists st,
    loadBCDData new_DataLoader (Some exports_with_null) 5 7 = Normal st
    /\ map fst (bcdCache st)
       = ["view-transitions"; "css-has-selector"; "offscreen-canvas";
          "webusb"; "fetch-streaming"]
    /\ partial_merge features_with_null (bcdCache st) = true.
Proof. eexists. repeat split. Qed.

(** The loop over entries none of which is [null] ends normally, each
    record set in turn. *)
Lemma map_features_normal (fm : Features) (st : DataLoader) :
  Forall not_null fm ->
  exists stE,
    map_features fm st = Normal stE
    /\ bcdCache stE = set_all (mapped_entries fm) (bcdCache st)
    /\ lastUpdate stE = lastUpdate st
    /\ featuresMap stE = featuresMap st.
Proof.
  intros NN. revert st.
  induction NN as [ | [i [f | ]] rest Hd _ IH]; intros st.
  - exists st. repeat split.
  - destruct (IH (cache_set i (mapped i f) st)) as (stE & M & C & L & F).
    exists stE. repeat split; assumption.
  - destruct Hd. reflexivity.
Qed.

(** The loop throws at the first [null] entry, with the records of the
    entries before it set. *)
Lemma map_features_throw (pre post : Features) (i : string)
  (st : DataLoader) :
  Forall not_null pre ->
  exists stT,
    map_features (pre ++ (i, None) :: post)%list st = Throw stT
    /\ bcdCache stT = set_all (mapped_entries pre) (bcdCache st)
    /\ lastUpdate stT = lastUpdate st.
Proof.
  intros NN. revert st.
  induction NN as [ | [k [f | ]] rest Hd _ IH]; intros st.
  - exists st. repeat split.
  - destruct (IH (cache_set k (mapped k f) st)) as (stT & M & C & L).
    exists stT. repeat split; assumption.
  - destruct Hd. reflexivity.
Qed.

Lemma load_external_features (st : DataLoader) (m : WebFeatures) :
  load_external st m =
  match export_of m e_features with
  | Some fm =>
      map_features fm
        (set_exports (export_of m e_features) (export_of m e_groups)
           (export_of m e_browsers) (export_of m e_snapshots) st)
  | None =>
      Normal (set_exports None (export_of m e_groups)
                (export_of m e_browsers) (export_of m e_snapshots) st)
  end.
Proof.
  unfold load_external. simpl featuresMap.
  destruct (export_of m e_features); reflexivity.
Qed.

(** C4, amended. For every load that passes the gate: when the external
    source is absent (the import fails, or the module has neither [features]
    nor [default]) the bundled sample is written into the cache, which from
    an empty cache gives exactly the four records [css-has-selector],
    [offscreen-canvas], [webusb] and [fetch-streaming]; when the mapping of
    the external features throws, at an entry that is [null], the bundled
    sample is written over the cache as the throw left it, the entries
    mapped before the throw included; when no entry is [null], the records
    of the external features are written and no bundled one. The failure is
    never surfaced, the promise being fulfilled in every case, and after
    either fallback each of the four sample keys gives its sample record. *)
Theorem C4_load_fallback (st : DataLoader) (imported : option WebFeatures)
  (now0 now : Z) :
  fresh st now0 = false ->
  exists st',
    loadBCDData st imported now0 now = Normal st'
    /\ (source_absent imported = true ->
        bcdCache st' = set_all getSampleBCDData (bcdCache st)
        /\ lastUpdate st' = now
        /\ forall k v, In (k, v) getSampleBCDData ->
                       JS.map_get String.eqb k (bcdCache st') = Some v)
    /\ (forall m pre i post,
          imported = Some m ->
          export_of m e_features = Some (pre ++ (i, None) :: post)%list ->
          Forall not_null pre ->
          bcdCache st'
          = set_all getSampleBCDData
              (set_all (mapped_entries pre) (bcdCache st))
          /\ lastUpdate st' = lastUpdate st
          /\ forall k v, In (k, v) getSampleBCDData ->
                         JS.map_get String.eqb k (bcdCache st') = Some v)
    /\ (forall m fm,
          imported = Some m -> export_of m e_features = Some fm ->
          Forall not_null fm ->
          bcdCache st' = set_all (mapped_entries fm) (bcdCache st)
          /\ lastUpdate st' = now)
    /\ set_all getSampleBCDData [] = getSampleBCDData.
Proof.
  intros Stale. rewrite (loadBCDData_stale st imported now0 now Stale).
  destruct (loadBCDData_fulfilled st imported now0 now) as [st' L].
  rewrite (loadBCDData_stale st imported now0 now Stale) in L.
  exists st'. split; [ exact L | ].
  split; [ | split; [ | split; [ | reflexivity ] ] ].
  - intros Absent.
    assert (st' = set_lastUpdate now (load_sample st)) as ->.
    { unfold try_block in L. destruct imported as [m | ].
      - simpl in Absent. apply negb_true_iff in Absent.
        rewrite Absent in L. injection L as <-. reflexivity.
      - injection L as <-. reflexivity. }
    split; [ reflexivity | ]. split; [ reflexivity | ].
    intros k v I. apply (sample_after_set_all (bcdCache st) k v I).
  - intros m pre i post -> F NN.
    assert (has_features_or_default m = true) as Has.
    { unfold has_features_or_default. unfold export_of, or_obj in F.
      destruct (e_features (named m)); [ reflexivity | ].
      destruct (default m); [ reflexivity | discriminate F ]. }
    unfold try_block in L. rewrite Has, load_external_features, F in L.
    destruct (map_features_throw pre post i
                (set_exports (Some (pre ++ (i, None) :: post)%list)
                   (export_of m e_groups) (export_of m e_browsers)
                   (export_of m e_snapshots) st) NN)
      as (stT & M & C & U).
    rewrite M in L. injection L as <-.
    rewrite load_sample_cache, C. simpl bcdCache.
    split; [ reflexivity | ]. split; [ exact U | ].
    intros k v I. apply sample_after_set_all, I.
  - intros m fm -> F NN.
    assert (has_features_or_default m = true) as Has.
    { unfold has_features_or_default. unfold export_of, or_obj in F.
      destruct (e_features (named m)); [ reflexivity | ].
      destruct (default m); [ reflexivity | discriminate F ]. }
    unfold try_block in L. rewrite Has, load_external_features, F in L.
    destruct (map_features_normal fm
                (set_exports (Some fm)
                   (export_of m e_groups) (export_of m e_browsers)
                   (export_of m e_snapshots) st) NN)
      as (stE & M & C & _).
    rewrite M in L. injection L as <-.
    split; [ exact C | reflexivity ].
Qed.

Lemma C4_load_fallback_witness :
  fresh new_DataLoader 5 = false
  /\ (exists st',
        loadBCDData new_DataLoader None 5 7 = Normal st'
        /\ bcdCache st' = getSampleBCDData)
  /\ (exists st',
        loadBCDData new_DataLoader (Some exports_with_null) 5 7 = Normal st'
        /\ JS.map_get String.eqb "webusb" (bcdCache st') = Some webusb).
Proof.
  split; [ reflexivity | ]. split.
  - destruct (C4_load_fallback new_DataLoader None 5 7 eq_refl)
      as (st' & L & Absent & _ & _ & Empty).
    exists st'. split; [ exact L | ].
    destruct (Absent eq_refl) as (C & _). rewrite C. exact Empty.
  - destruct (C4_load_fallback new_DataLoader (Some exports_with_null) 5 7
                eq_refl) as (st' & L & _ & Thrown & _).
    exists st'. split; [ exact L | ].
    destruct (Thrown exports_with_null
                [("view-transitions", Some (raw_named "View Transitions"))]
                "popover" [] eq_refl eq_refl) as (_ & _ & Sample).
    + repeat constructor. discriminate.
    + apply Sample. right. right. left. reflexivity.
Defined.

Lemma fresh_iff (st : DataLoader) (now0 : Z) :
  fresh st now0 = true <->
  now0 - lastUpdate st < CACHE_TTL /\ bcdCache st <> [].
Proof.
  unfold fresh. rewrite andb_true_iff, Z.ltb_lt, Z.ltb_lt. split.
  - intros [T L]. split; [ exact T | ].
    intros E. rewrite E in L. simpl in L. lia.
  - intros [T L]. split; [ exact T | ].
    destruct (bcdCache st); [ contradiction | simpl; lia ].
Qed.

(** C6. While the clock is less than the TTL of one hour past [lastUpdate]
    and the cache is not empty, [loadBCDData] returns at once and leaves
    every field of the instance as it was; a second call in that window
    gives the store the first one gave. *)
Theorem C6_load_idempotent (st : DataLoader)
  (imported imported' : option WebFeatures) (now0 now now0' now' : Z) :
  now0 - lastUpdate st < CACHE_TTL -> bcdCache st <> [] ->
  now0' - lastUpdate st < CACHE_TTL ->
  CACHE_TTL = 60 * 60 * 1000
  /\ loadBCDData st imported now0 now = Normal st
  /\ and_then (loadBCDData st imported now0 now) imported' now0' now'
     = loadBCDData st imported now0 now.
Proof.
  intros T1 NE T2. split; [ reflexivity | ].
  assert (loadBCDData st imported now0 now = Normal st) as E1
    by (apply loadBCDData_fresh, fresh_iff; split; assumption).
  split; [ exact E1 | ].
  rewrite E1. simpl.
  apply loadBCDData_fresh, fresh_iff. split; assumption.
Qed.

Lemma C6_load_idempotent_witness :
  1000 - lastUpdate (bundled 5 7) < CACHE_TTL
  /\ bcdCache (bundled 5 7) <> []
  /\ and_then (loadBCDData (bundled 5 7) (Some exports_with_null) 1000 1001)
              None 2000 2001
     = Normal (bundled 5 7).
Proof.
  split; [ reflexivity | ]. split; [ discriminate | ].
  destruct (C6_load_idempotent (bundled 5 7) (Some exports_with_null) None
              1000 1001 2000 2001) as (_ & Once & Twice).
  - reflexivity.
  - discriminate.
  - reflexivity.
  - rewrite Twice. exact Once.
Defined.

(** A load that goes past the gate and ends without a throw stamps the
    store with the clock: the window of the next call starts there. *)
Lemma reload_within_ttl (st st1 : DataLoader)
  (imported imported' : option WebFeatures) (now0 now now0' now' : Z) :
  fresh st now0 = false ->
  try_block st imported now = Normal st1 ->
  bcdCache st1 <> [] -> now0' - now < CACHE_TTL ->
  and_then (loadBCDData st imported now0 now) imported' now0' now'
  = Normal st1.
Proof.
  intros Stale Try NE T.
  rewrite (loadBCDData_stale st imported now0 now Stale), Try. simpl.
  apply loadBCDData_fresh, fresh_iff. split; [ | exact NE ].
  unfold try_block in Try.
  destruct (match imported with
            | Some m => if has_features_or_default m
                        then load_external st m else Normal (load_sample st)
            | None => Normal (load_sample st)
            end) as [s | s]; [ | discriminate Try ].
  injection Try as <-. simpl. exact T.
Qed.

(* ================================================================== *)
(** * Baseline years *)
(* ================================================================== *)

Lemma year_get_In (y : Z) (l : list BaselineFeature)
  (c : list (Z * list BaselineFeature)) :
  JS.map_get Z.eqb y c = Some l -> In (y, l) c.
Proof.
  induction c as [ | [y' l'] r IH]; simpl; [ discriminate | ].
  destruct (Z.eqb_spec y y') as [<- | N].
  - intros E. injection E as <-. left. reflexivity.
  - intros E. right. apply IH, E.
Qed.

Lemma bundled_baselineCache (now0 now : Z) :
  baselineCache (bundled now0 now) = getSampleBaselineData.
Proof.
  unfold bundled, loadBCDData. simpl bcdCache at 1.
  rewrite andb_false_r. reflexivity.
Qed.


(* ================================================================== *)
(** * Search *)
(* ================================================================== *)

(** The loop goes on while [results.length >= limit] fails: for a whole
    number [n] of results, while [n] is below the ceiling of [limit]. *)
Lemma limit_reached (limit : Q) (n : Z) :
  Qle_bool limit (inject_Z n) = (Qceiling limit <=? n).
Proof.
  destruct (Z.leb_spec (Qceiling limit) n) as [L | G].
  - apply Qle_bool_iff.
    apply Qle_trans with (inject_Z (Qceiling limit));
      [ apply Qle_ceiling | ].
    rewrite <- Zle_Qle. exact L.
  - destruct (Qle_bool limit (inject_Z n)) eqn:E; [ | reflexivity ].
    apply Qle_bool_iff in E. apply Qceiling_resp_le in E.
    rewrite Qceiling_Z in E. lia.
Qed.

(** The loop stops at [limit] results: it adds to [results] the first hits
    of the entries left, as many as [limit] still allows. *)
Lemma find_loop_firstn (st : DataLoader) (q : string) (limit : Q)
  (es : list (string * Entry)) (results : list Hit) :
  find_loop st q limit es results =
  (results
   ++ firstn (Z.to_nat (Qceiling limit - Z.of_nat (List.length results)))
        (map (fun e => hit st (fst e) (snd e)) (filter (matches st q) es)))%list.
Proof.
  revert results. induction es as [ | [i e] rest IH]; intros results.
  - simpl. rewrite firstn_nil, app_nil_r. reflexivity.
  - simpl find_loop. rewrite limit_reached.
    destruct (Z.leb_spec (Qceiling limit) (Z.of_nat (List.length results)))
      as [Full | Room].
    + replace (Z.to_nat (Qceiling limit - Z.of_nat (List.length results)))
        with 0%nat by lia.
      simpl. rewrite app_nil_r. reflexivity.
    + simpl filter. unfold matches at 1. simpl fst. simpl snd.
      destruct (JS.includes (hay st i e) q).
      * rewrite IH, length_app. simpl List.length.
        replace (Z.to_nat (Qceiling limit - Z.of_nat (List.length results)))
          with (S (Z.to_nat (Qceiling limit
                             - Z.of_nat (List.length results + 1))))
          by lia.
        simpl. rewrite <- app_assoc. reflexivity.
      * apply IH.
Qed.

Lemma firstn_min_length {A : Type} (n : nat) (l : list A) :
  firstn (Nat.min n (List.length l)) l = firstn n l.
Proof.
  destruct (Nat.le_ge_cases n (List.length l)) as [L | G].
  - rewrite Nat.min_l by exact L. reflexivity.
  - rewrite Nat.min_r by exact G.
    rewrite firstn_all, firstn_all2 by exact G. reflexivity.
Qed.

(** Cutting the first hits up to the ceiling of [limit] at [limit], made
    whole, leaves the first hits up to the floor of [limit]. *)
Lemma slice0_firstn {A : Type} (l : list A) (limit : Q) :
  slice0 (firstn (Z.to_nat (Qceiling limit)) l) limit
  = firstn (Z.to_nat (Qfloor limit)) l.
Proof.
  pose proof (Qle_floor_ceiling limit) as FC. rewrite <- Zle_Qle in FC.
  unfold slice0, JS.truncate.
  destruct (Qle_bool 0 limit) eqn:Sign.
  - apply Qle_bool_iff in Sign. apply Qfloor_resp_le in Sign.
    change (0 <= Qfloor limit) in Sign.
    destruct (Z.ltb_spec (Qfloor limit) 0) as [Neg | _]; [ lia | ].
    rewrite firstn_firstn, length_firstn.
    replace (Nat.min
               (Z.to_nat (Z.min (Qfloor limit)
                  (Z.of_nat (Nat.min (Z.to_nat (Qceiling limit))
                                     (List.length l)))))
               (Z.to_nat (Qceiling limit)))
      with (Nat.min (Z.to_nat (Qfloor limit)) (List.length l)) by lia.
    apply firstn_min_length.
  - assert (Qceiling limit <= 0) as Neg.
    { destruct (Z.le_gt_cases (Qceiling limit) 0) as [L | G];
        [ exact L | ].
      assert (Qle_bool 0 limit = true) as Contra; [ | congruence ].
      apply Qle_bool_iff. apply Qlt_le_weak.
      apply Qle_lt_trans with (inject_Z (Qceiling limit - 1));
        [ | apply Qceiling_lt ].
      change 0%Q with (inject_Z 0). rewrite <- Zle_Qle. lia. }
    replace (Z.to_nat (Qceiling limit)) with 0%nat by lia.
    replace (Z.to_nat (Qfloor limit)) with 0%nat by lia.
    simpl firstn. apply firstn_nil.
Qed.

Lemma findFeatures_firstn (st : DataLoader) (query : option string)
  (limit : Q) :
  findFeatures st query limit =
  if JS.truthy (needle query)
  then firstn (Z.to_nat (Qfloor limit)) (all_hits st (needle query))
  else [].
Proof.
  unfold findFeatures. fold (needle query).
  destruct (JS.truthy (needle query)); [ | reflexivity ].
  rewrite find_loop_firstn. simpl List.length. simpl app.
  rewrite Z.sub_0_r. apply slice0_firstn.
Qed.

Lemma lower_unit_space (c : ascii) :
  JS.is_space c = true -> JS.lower_unit c = c.
Proof.
  destruct c as [[] [] [] [] [] [] [] []]; intros E;
    try discriminate E; reflexivity.
Qed.

Lemma needle_of_space (s : string) :
  all_space s = true -> needle (Some s) = "".
Proof.
  unfold needle, JS.trim. intros E.
  assert (JS.trimStart (JS.toLowerCase (or_default (Some s) "")) = "") as T.
  { assert (all_space s = true -> JS.trimStart (JS.toLowerCase s) = "")
      as Low.
    { clear E. induction s as [ | c r IH]; simpl; [ reflexivity | ].
      intros E. apply andb_true_iff in E. destruct E as [Ec Er].
      rewrite (lower_unit_space c Ec), Ec. apply IH, Er. }
    unfold or_default. destruct (JS.truthy s); [ apply Low, E | reflexivity ]. }
  rewrite T. reflexivity.
Qed.



(* ================================================================== *)
(** * The cache as a map in insertion order *)
(* ================================================================== *)

Section Assoc.
Context {K V : Type} (keq : K -> K -> bool).
Hypothesis keq_eq : forall a b, keq a b = true <-> a = b.

Lemma keq_refl (a : K) : keq a a = true.
Proof. apply keq_eq. reflexivity. Qed.

Lemma keq_neq (a b : K) : a <> b -> keq a b = false.
Proof.
  intros N. destruct (keq a b) eqn:E; [ | reflexivity ].
  apply keq_eq in E. contradiction.
Qed.

Lemma assoc_get_set_same (k : K) (v : V) (c : list (K * V)) :
  JS.map_get keq k (JS.map_set keq k v c) = Some v.
Proof.
  induction c as [ | [k' v'] r IH]; simpl.
  - rewrite keq_refl. reflexivity.
  - destruct (keq k k') eqn:E; simpl.
    + rewrite keq_refl. reflexivity.
    + rewrite E. exact IH.
Qed.

Lemma assoc_get_set_other (k k' : K) (v : V) (c : list (K * V)) :
  k <> k' ->
  JS.map_get keq k (JS.map_set keq k' v c) = JS.map_get keq k c.
Proof.
  intros N. pose proof (keq_neq k k' N) as F.
  induction c as [ | [k2 v2] r IH]; simpl.
  - rewrite F. reflexivity.
  - destruct (keq k' k2) eqn:E; simpl.
    + apply keq_eq in E. subst k2. rewrite F. reflexivity.
    + destruct (keq k k2); [ reflexivity | exact IH ].
Qed.

Lemma assoc_get_In (k : K) (v : V) (c : list (K * V)) :
  JS.map_get keq k c = Some v -> In (k, v) c.
Proof.
  induction c as [ | [k' v'] r IH]; simpl; [ discriminate | ].
  destruct (keq k k') eqn:E.
  - apply keq_eq in E. subst k'. intros X. injection X as <-.
    left. reflexivity.
  - intros X. right. apply IH, X.
Qed.

Lemma assoc_get_None (k : K) (c : list (K * V)) :
  JS.map_get keq k c = None <-> ~ In k (map fst c).
Proof.
  induction c as [ | [k' v'] r IH]; simpl.
  - split; [ intros _ [] | reflexivity ].
  - destruct (keq k k') eqn:E.
    + apply keq_eq in E. subst k'. split; [ discriminate | ].
      intros N. destruct N. left. reflexivity.
    + rewrite IH. split.
      * intros N [X | X]; [ | contradiction ].
        subst k'. rewrite keq_refl in E. discriminate E.
      * intros N X. apply N. right. exact X.
Qed.

(** [set] keeps every key at its place and puts a new key at the end. *)
Lemma assoc_keys_set (k : K) (v : V) (c : list (K * V)) :
  map fst (JS.map_set keq k v c) =
  (map fst c
   ++ match JS.map_get keq k c with Some _ => [] | None => [k] end)%list.
Proof.
  induction c as [ | [k' v'] r IH]; simpl; [ reflexivity | ].
  destruct (keq k k') eqn:E; simpl.
  - apply keq_eq in E. subst k'. rewrite app_nil_r. reflexivity.
  - rewrite IH. reflexivity.
Qed.

Lemma assoc_set_NoDup (k : K) (v : V) (c : list (K * V)) :
  NoDup (map fst c) -> NoDup (map fst (JS.map_set keq k v c)).
Proof.
  intros N. rewrite assoc_keys_set.
  destruct (JS.map_get keq k c) eqn:G.
  - rewrite app_nil_r. exact N.
  - apply assoc_get_None in G.
    apply NoDup_app; [ exact N | repeat constructor; intros [] | ].
    intros x I [<- | []]. contradiction.
Qed.

(** Setting a key to the value it has changes nothing. *)
Lemma assoc_set_noop (k : K) (v : V) (c : list (K * V)) :
  JS.map_get keq k c = Some v -> JS.map_set keq k v c = c.
Proof.
  induction c as [ | [k' v'] r IH]; simpl; [ discriminate | ].
  destruct (keq k k') eqn:E.
  - apply keq_eq in E. subst k'. intros X. injection X as <-. reflexivity.
  - intros X. rewrite (IH X). reflexivity.
Qed.

(** Two caches with the same keys in the same order, none twice, and the
    same value under each key are the same cache. *)
Lemma assoc_ext (c c' : list (K * V)) :
  NoDup (map fst c) -> map fst c = map fst c' ->
  (forall k, JS.map_get keq k c = JS.map_get keq k c') -> c = c'.
Proof.
  revert c'. induction c as [ | [k v] r IH]; intros [ | [k' v'] r'];
    simpl; intros N E G; try discriminate E; [ reflexivity | ].
  injection E as <- E. inversion N as [ | x l NI N' ]; subst.
  pose proof (G k) as Gk. simpl in Gk. rewrite keq_refl in Gk.
  injection Gk as <-. f_equal. apply IH; [ exact N' | exact E | ].
  intros k0. pose proof (G k0) as G0. simpl in G0.
  destruct (keq k0 k) eqn:X; [ | exact G0 ].
  apply keq_eq in X. subst k0.
  assert (JS.map_get keq k r = None) as A by (apply assoc_get_None, NI).
  assert (JS.map_get keq k r' = None) as B
    by (apply assoc_get_None; rewrite <- E; exact NI).
  rewrite A, B. reflexivity.
Qed.

Lemma assoc_In_get (k : K) (v : V) (c : list (K * V)) :
  NoDup (map fst c) -> In (k, v) c -> JS.map_get keq k c = Some v.
Proof.
  induction c as [ | [k' v'] r IH]; simpl; [ intros _ [] | ].
  intros N I. inversion N as [ | x l NI N' ]; subst.
  destruct I as [E | I].
  - injection E as -> ->. rewrite keq_refl. reflexivity.
  - destruct (keq k k') eqn:E; [ | apply IH; assumption ].
    apply keq_eq in E. subst k'. destruct NI.
    apply (in_map fst) in I. exact I.
Qed.

End Assoc.

Lemma set_all_app (es es' c : list (string * FeatureData)) :
  set_all (es ++ es')%list c = set_all es' (set_all es c).
Proof. unfold set_all. apply fold_left_app. Qed.

(** After a run of [set]s a key holds the value of the last [set] on it,
    or what it held before when there was none. *)
Lemma get_set_all (k : string) (es c : list (string * FeatureData)) :
  JS.map_get String.eqb k (set_all es c) =
  match last_value k es with
  | Some v => Some v
  | None => JS.map_get String.eqb k c
  end.
Proof.
  revert c. induction es as [ | [k' v'] rest IH]; intros c; [ reflexivity | ].
  change (set_all ((k', v') :: rest) c)
    with (set_all rest (JS.map_set String.eqb k' v' c)).
  rewrite IH. simpl last_value.
  destruct (last_value k rest); [ reflexivity | ].
  destruct (String.eqb_spec k k') as [-> | N].
  - apply (assoc_get_set_same String.eqb String.eqb_eq).
  - apply (assoc_get_set_other String.eqb String.eqb_eq), N.
Qed.

Lemma last_value_In (k : string) (es : list (string * FeatureData)) :
  In k (map fst es) -> last_value k es <> None.
Proof.
  induction es as [ | [k' v'] rest IH]; simpl; [ intros [] | ].
  intros [-> | I].
  - destruct (last_value k rest); [ discriminate | ].
    rewrite String.eqb_refl. discriminate.
  - specialize (IH I). destruct (last_value k rest);
      [ discriminate | contradiction ].
Qed.

Lemma last_value_None (k : string) (es : list (string * FeatureData)) :
  ~ In k (map fst es) -> last_value k es = None.
Proof.
  induction es as [ | [k' v'] rest IH]; simpl; [ reflexivity | ].
  intros N. rewrite IH by tauto.
  destruct (String.eqb_spec k k') as [-> | _]; [ | reflexivity ].
  destruct N. left. reflexivity.
Qed.

Lemma last_value_unique (k : string) (v : FeatureData)
  (es : list (string * FeatureData)) :
  NoDup (map fst es) -> In (k, v) es -> last_value k es = Some v.
Proof.
  induction es as [ | [k' v'] rest IH]; simpl; [ intros _ [] | ].
  intros N I. inversion N as [ | x l NI N' ]; subst.
  destruct I as [E | I].
  - injection E as -> ->. rewrite (last_value_None k rest NI).
    rewrite String.eqb_refl. reflexivity.
  - rewrite (IH N' I). reflexivity.
Qed.

(** A run of [set]s keeps the keys there are at their places and adds the
    new ones behind them. *)
Lemma keys_set_all (es c : list (string * FeatureData)) :
  exists added, map fst (set_all es c) = (map fst c ++ added)%list
                /\ forall k, In k added -> In k (map fst es).
Proof.
  revert c. induction es as [ | [k v] rest IH]; intros c.
  - exists []. rewrite app_nil_r. split; [ reflexivity | intros k [] ].
  - change (set_all ((k, v) :: rest) c)
      with (set_all rest (JS.map_set String.eqb k v c)).
    destruct (IH (JS.map_set String.eqb k v c)) as (added & E & Sub).
    rewrite E, (assoc_keys_set String.eqb String.eqb_eq), <- app_assoc.
    eexists. split; [ reflexivity | ].
    intros k0 I. apply in_app_or in I. simpl. destruct I as [I | I].
    + destruct (JS.map_get String.eqb k c); [ destruct I | ].
      destruct I as [<- | []]. left. reflexivity.
    + right. apply Sub, I.
Qed.

Lemma set_all_NoDup (es c : list (string * FeatureData)) :
  NoDup (map fst c) -> NoDup (map fst (set_all es c)).
Proof.
  revert c. induction es as [ | [k v] rest IH]; intros c N; [ exact N | ].
  apply (IH (JS.map_set String.eqb k v c)).
  apply (assoc_set_NoDup String.eqb String.eqb_eq), N.
Qed.

Lemma keys_set_all_present (es c : list (string * FeatureData)) :
  (forall k, In k (map fst es) -> In k (map fst c)) ->
  map fst (set_all es c) = map fst c.
Proof.
  revert c. induction es as [ | [k v] rest IH]; intros c Sub;
    [ reflexivity | ].
  change (set_all ((k, v) :: rest) c)
    with (set_all rest (JS.map_set String.eqb k v c)).
  assert (map fst (JS.map_set String.eqb k v c) = map fst c) as Same.
  { rewrite (assoc_keys_set String.eqb String.eqb_eq).
    destruct (JS.map_get String.eqb k c) eqn:G; [ apply app_nil_r | ].
    apply (assoc_get_None String.eqb String.eqb_eq) in G.
    destruct G. apply Sub. left. reflexivity. }
  rewrite IH; [ exact Same | ].
  intros k0 I. rewrite Same. apply Sub. right. exact I.
Qed.

(** Running the same [set]s a second time changes nothing. *)
Lemma set_all_idempotent (es c : list (string * FeatureData)) :
  NoDup (map fst c) -> set_all es (set_all es c) = set_all es c.
Proof.
  intros N. symmetry.
  apply (assoc_ext String.eqb String.eqb_eq).
  - apply set_all_NoDup, N.
  - symmetry. apply keys_set_all_present. intros k I.
    destruct (JS.map_get String.eqb k (set_all es c)) eqn:G.
    + apply (assoc_get_In String.eqb String.eqb_eq) in G.
      apply (in_map fst) in G. exact G.
    + rewrite get_set_all in G. pose proof (last_value_In k es I) as L.
      destruct (last_value k es); [ discriminate G | contradiction ].
  - intros k. rewrite !get_set_all.
    destruct (last_value k es); reflexivity.
Qed.

(* ================================================================== *)
(** * What a load does to the cache *)
(* ================================================================== *)

Lemma before_null_split (fm : Features) :
  if existsb is_null fm
  then exists i post,
         fm = (before_null fm ++ (i, None) :: post)%list
         /\ Forall not_null (before_null fm)
  else before_null fm = fm /\ Forall not_null fm.
Proof.
  induction fm as [ | [i [f | ]] rest IH].
  - split; [ reflexivity | constructor ].
  - change (existsb is_null ((i, Some f) :: rest))
      with (existsb is_null rest).
    change (before_null ((i, Some f) :: rest))
      with ((i, Some f) :: before_null rest).
    destruct (existsb is_null rest).
    + destruct IH as (j & post & E & NN). exists j, post.
      split; [ simpl; f_equal; exact E | ].
      constructor; [ unfold not_null; simpl; discriminate | exact NN ].
    + destruct IH as [E NN]. rewrite E. split; [ reflexivity | ].
      constructor; [ unfold not_null; simpl; discriminate | exact NN ].
  - exists i, rest. split; [ reflexivity | constructor ].
Qed.

Lemma set_exports_cache (f : option Features) (g b s : option AnyRecord)
  (st : DataLoader) :
  bcdCache (set_exports f g b s st) = bcdCache st.
Proof. reflexivity. Qed.

(** What [try] and [catch] together make of the cache: the run of [set]s
    that the source fixes. *)
Lemma loaded_cache (st : DataLoader) (imported : option WebFeatures)
  (now : Z) :
  match try_block st imported now with
  | Normal st' => bcdCache st' = set_all (writes imported) (bcdCache st)
  | Throw st' =>
      bcdCache (load_sample st') = set_all (writes imported) (bcdCache st)
  end.
Proof.
  unfold try_block, writes. destruct imported as [m | ]; [ | reflexivity ].
  destruct (has_features_or_default m); [ | reflexivity ].
  rewrite load_external_features.
  destruct (export_of m e_features) as [fm | ]; [ | reflexivity ].
  pose proof (before_null_split fm) as Split.
  destruct (existsb is_null fm).
  - destruct Split as (i & post & E & NN).
    destruct (map_features_throw (before_null fm) post i
                (set_exports (Some fm) (export_of m e_groups)
                   (export_of m e_browsers) (export_of m e_snapshots) st) NN)
      as (stT & M & C & _).
    rewrite <- E in M. rewrite M.
    rewrite load_sample_cache, C, set_exports_cache, set_all_app.
    reflexivity.
  - destruct Split as [_ NN].
    destruct (map_features_normal fm
                (set_exports (Some fm) (export_of m e_groups)
                   (export_of m e_browsers) (export_of m e_snapshots) st) NN)
      as (stE & M & C & _).
    rewrite M. simpl. rewrite C, set_exports_cache. reflexivity.
Qed.

Lemma loadBCDData_writes (st : DataLoader)
  (imported : option WebFeatures) (now0 now : Z) :
  fresh st now0 = false ->
  exists st',
    loadBCDData st imported now0 now = Normal st'
    /\ bcdCache st' = set_all (writes imported) (bcdCache st).
Proof.
  intros Stale. rewrite (loadBCDData_stale st imported now0 now Stale).
  pose proof (loaded_cache st imported now) as C.
  destruct (try_block st imported now) as [st' | st'];
    eexists; (split; [ reflexivity | exact C ]).
Qed.

(** X1. Whatever the module gives, a load that passes the gate sets in the
    cache the records that the source fixes, one after the other, and
    nothing else happens to the cache: a key that was there keeps its place
    in the iteration order, the new keys come behind, and no key is ever
    removed. *)
Theorem X1_load_writes (st : DataLoader) (imported : option WebFeatures)
  (now0 now : Z) :
  fresh st now0 = false ->
  exists st',
    loadBCDData st imported now0 now = Normal st'
    /\ bcdCache st' = set_all (writes imported) (bcdCache st)
    /\ (exists added,
          ids st' = (ids st ++ added)%list
          /\ forall k, In k added -> In k (map fst (writes imported)))
    /\ (forall k, In k (ids st) -> In k (ids st')).
Proof.
  intros Stale. rewrite (loadBCDData_stale st imported now0 now Stale).
  pose proof (loaded_cache st imported now) as C.
  assert (forall st',
            bcdCache st' = set_all (writes imported) (bcdCache st) ->
            (exists added,
               ids st' = (ids st ++ added)%list
               /\ forall k, In k added -> In k (map fst (writes imported)))
            /\ (forall k, In k (ids st) -> In k (ids st'))) as Keys.
  { intros st' E. unfold ids. rewrite E.
    destruct (keys_set_all (writes imported) (bcdCache st))
      as (added & K & Sub).
    split; [ exists added; split; assumption | ].
    intros k I. rewrite K. apply in_or_app. left. exact I. }
  destruct (try_block st imported now) as [st' | st'].
  - exists st'. split; [ reflexivity | ]. split; [ exact C | ].
    apply Keys, C.
  - exists (load_sample st'). split; [ reflexivity | ].
    split; [ exact C | ]. apply Keys, C.
Qed.

Lemma X1_load_writes_witness :
  fresh new_DataLoader 5 = false
  /\ exists st',
       loadBCDData new_DataLoader (Some exports_with_null) 5 7 = Normal st'
       /\ bcdCache st'
          = set_all (("view-transitions",
                      mapped "view-transitions"
                             (raw_named "View Transitions"))
                     :: getSampleBCDData) [].
Proof.
  split; [ reflexivity | ].
  destruct (X1_load_writes new_DataLoader (Some exports_with_null) 5 7
              eq_refl) as (st' & L & C & _).
  exists st'. split; [ exact L | exact C ].
Defined.

(* ================================================================== *)
(** * Invariants of the stores a process can reach *)
(* ================================================================== *)

Lemma cache_set_baseline (k : string) (v : FeatureData) (st : DataLoader) :
  baselineCache (cache_set k v st) = baselineCache st.
Proof. reflexivity. Qed.

Lemma load_sample_baseline (st : DataLoader) :
  baselineCache (load_sample st) = baselineCache st.
Proof. reflexivity. Qed.

Lemma map_features_baseline (fm : Features) (st : DataLoader) :
  match map_features fm st with
  | Normal st' | Throw st' => baselineCache st' = baselineCache st
  end.
Proof.
  revert st. induction fm as [ | [i [f | ]] rest IH]; intros st;
    simpl; try reflexivity.
  specialize (IH (cache_set i (mapped i f) st)).
  destruct (map_features rest (cache_set i (mapped i f) st)); exact IH.
Qed.

(** [loadBCDData] never touches the baseline cache. *)
Lemma loadBCDData_baseline (st st' : DataLoader)
  (imported : option WebFeatures) (now0 now : Z) :
  loadBCDData st imported now0 now = Normal st' ->
  baselineCache st' = baselineCache st.
Proof.
  unfold loadBCDData. destruct (_ && _).
  - intros E. injection E as <-. reflexivity.
  - assert (match try_block st imported now with
            | Normal s | Throw s => baselineCache s = baselineCache st
            end) as T.
    { unfold try_block. destruct imported as [m | ]; [ | reflexivity ].
      destruct (has_features_or_default m); [ | reflexivity ].
      rewrite load_external_features.
      destruct (export_of m e_features) as [fm | ]; [ | reflexivity ].
      pose proof (map_features_baseline fm
                    (set_exports (Some fm) (export_of m e_groups)
                       (export_of m e_browsers) (export_of m e_snapshots)
                       st)) as B.
      destruct (map_features fm _); exact B. }
    destruct (try_block st imported now) as [s | s]; intros E;
      injection E as <-; [ exact T | ].
    rewrite load_sample_baseline. exact T.
Qed.

Lemma loadBaselineData_baseline (st : DataLoader) :
  baselineCache (loadBaselineData st) =
  fold_left (fun c kv => JS.map_set Z.eqb (fst kv) (snd kv) c)
            getSampleBaselineData (baselineCache st).
Proof. reflexivity. Qed.

Lemma loadBaselineData_cache (st : DataLoader) :
  bcdCache (loadBaselineData st) = bcdCache st.
Proof. reflexivity. Qed.

Lemma loadBCDData_NoDup (st st' : DataLoader)
  (imported : option WebFeatures) (now0 now : Z) :
  loadBCDData st imported now0 now = Normal st' ->
  NoDup (ids st) -> NoDup (ids st').
Proof.
  intros L N. destruct (fresh st now0) eqn:F.
  - rewrite (loadBCDData_fresh st imported now0 now F) in L.
    injection L as <-. exact N.
  - rewrite (loadBCDData_stale st imported now0 now F) in L.
    pose proof (loaded_cache st imported now) as C.
    destruct (try_block st imported now) as [s | s]; injection L as <-;
      unfold ids; rewrite C; apply set_all_NoDup, N.
Qed.

Lemma Reachable_NoDup (st : DataLoader) : Reachable st -> NoDup (ids st).
Proof.
  intros R. induction R as [ | st imported now0 now st' R N L | st R N].
  - constructor.
  - apply (loadBCDData_NoDup st st' imported now0 now L N).
  - exact N.
Qed.

Lemma Reachable_baseline (st : DataLoader) :
  Reachable st ->
  baselineCache st = [] \/ baselineCache st = getSampleBaselineData.
Proof.
  intros R. induction R as [ | st imported now0 now st' R B L | st R B].
  - left. reflexivity.
  - rewrite (loadBCDData_baseline st st' imported now0 now L). exact B.
  - right. rewrite loadBaselineData_baseline.
    destruct B as [-> | ->]; reflexivity.
Qed.

(** X2. In every store a process can reach, whatever the modules, the
    clocks and the order of the loads, no id is twice in the cache, and the
    baseline cache is empty or holds the bundled years alone: a year other
    than 2022, 2023 and 2024 is never answered, and every entry returned
    for a year carries that year. *)
Theorem X2_reachable_invariant (st : DataLoader) :
  Reachable st ->
  NoDup (ids st)
  /\ (baselineCache st = [] \/ baselineCache st = getSampleBaselineData)
  /\ (forall y e, In e (getBaselineFeatures st y) ->
        year e = y /\ (y = 2022 \/ y = 2023 \/ y = 2024)).
Proof.
  intros R. pose proof (Reachable_NoDup st R) as N.
  pose proof (Reachable_baseline st R) as B.
  split; [ exact N | ]. split; [ exact B | ].
  intros y e. unfold getBaselineFeatures.
  destruct B as [-> | ->]; [ intros [] | ].
  unfold getSampleBaselineData. simpl.
  destruct (Z.eqb_spec y 2022) as [-> | _];
    [ intros [<- | [<- | []]]; split; auto | ].
  destruct (Z.eqb_spec y 2023) as [-> | _];
    [ intros [<- | []]; split; auto | ].
  destruct (Z.eqb_spec y 2024) as [-> | _];
    [ intros [<- | []]; split; auto | intros [] ].
Qed.

Lemma bundled_Reachable (now0 now : Z) : Reachable (bundled now0 now).
Proof.
  unfold bundled.
  destruct (loadBCDData_fulfilled new_DataLoader None now0 now) as [s L].
  rewrite L. apply reach_loadBaselineData.
  apply (reach_loadBCDData new_DataLoader None now0 now s reach_new L).
Qed.

Lemma X2_reachable_invariant_witness :
  Reachable (bundled 5 7) /\ NoDup (ids (bundled 5 7)).
Proof.
  split; [ apply bundled_Reachable | ].
  apply (X2_reachable_invariant (bundled 5 7) (bundled_Reachable 5 7)).
Defined.

(** X3. Loading again from the same source is idempotent on the cache,
    also when the gate is passed: in a store a process can reach, a second
    load that runs the [try] block on the module of the first leaves every
    record of the cache as the first load left it, in the same order. *)
Theorem X3_reload_idempotent (st st1 st2 : DataLoader)
  (imported : option WebFeatures) (now0 now now0' now' : Z) :
  Reachable st ->
  fresh st now0 = false ->
  loadBCDData st imported now0 now = Normal st1 ->
  fresh st1 now0' = false ->
  loadBCDData st1 imported now0' now' = Normal st2 ->
  bcdCache st2 = bcdCache st1.
Proof.
  intros R F1 L1 F2 L2.
  pose proof (Reachable_NoDup st R) as N.
  destruct (loadBCDData_writes st imported now0 now F1) as (s1 & E1 & C1).
  destruct (loadBCDData_writes st1 imported now0' now' F2) as (s2 & E2 & C2).
  rewrite L1 in E1. injection E1 as <-.
  rewrite L2 in E2. injection E2 as <-.
  rewrite C2, C1. apply set_all_idempotent, N.
Qed.

Lemma X3_reload_idempotent_witness :
  exists st1 st2,
    loadBCDData new_DataLoader (Some exports_with_null) 5 7 = Normal st1
    /\ loadBCDData st1 (Some exports_with_null) 4000000 4000001 = Normal st2
    /\ ids st1 = ["view-transitions"; "css-has-selector"; "offscreen-canvas";
                  "webusb"; "fetch-streaming"]
    /\ bcdCache st2 = bcdCache st1.
Proof.
  eexists. eexists. split; [ reflexivity | ]. split; [ reflexivity | ].
  split; [ reflexivity | ].
  apply (X3_reload_idempotent new_DataLoader _ _ (Some exports_with_null)
           5 7 4000000 4000001 reach_new); reflexivity.
Defined.

(* ================================================================== *)
(** * Loading from the external features and looking up *)
(* ================================================================== *)

Lemma export_has_features (m : WebFeatures) (fm : Features) :
  export_of m e_features = Some fm -> has_features_or_default m = true.
Proof.
  unfold has_features_or_default, export_of, or_obj.
  destruct (e_features (named m)); [ reflexivity | ].
  destruct (default m); [ reflexivity | discriminate ].
Qed.

Lemma mapped_entries_keys (fm : Features) :
  Forall not_null fm -> map fst (mapped_entries fm) = map fst fm.
Proof.
  induction 1 as [ | [i [f | ]] rest Hd _ IH]; simpl.
  - reflexivity.
  - f_equal. exact IH.
  - destruct Hd. reflexivity.
Qed.

Lemma mapped_entries_In (fm : Features) (i : string) (f : RawFeature) :
  In (i, Some f) fm -> In (i, mapped i f) (mapped_entries fm).
Proof.
  intros I. unfold mapped_entries. apply in_flat_map.
  exists (i, Some f). split; [ exact I | left; reflexivity ].
Qed.

(** After a load of external features none of which is [null], under ids
    that are all different: the map is the one of the module and each id
    holds the mapped record of its entry. *)
Lemma external_loaded (st st' : DataLoader) (m : WebFeatures)
  (fm : Features) (now0 now : Z) :
  fresh st now0 = false ->
  export_of m e_features = Some fm ->
  Forall not_null fm -> NoDup (map fst fm) ->
  loadBCDData st (Some m) now0 now = Normal st' ->
  featuresMap st' = Some fm
  /\ forall i f, In (i, Some f) fm ->
       JS.map_get String.eqb i (bcdCache st') = Some (mapped i f).
Proof.
  intros Stale F NN ND L.
  rewrite (loadBCDData_stale st (Some m) now0 now Stale) in L.
  unfold try_block in L.
  rewrite (export_has_features m fm F), load_external_features, F in L.
  destruct (map_features_normal fm
              (set_exports (Some fm) (export_of m e_groups)
                 (export_of m e_browsers) (export_of m e_snapshots) st) NN)
    as (stE & M & C & _ & FM).
  rewrite M in L. injection L as <-. simpl.
  split; [ exact FM | ].
  intros i f I. rewrite C, get_set_all.
  rewrite (last_value_unique i (mapped i f) (mapped_entries fm)).
  - reflexivity.
  - rewrite (mapped_entries_keys fm NN). exact ND.
  - apply mapped_entries_In, I.
Qed.

(** X4. Loading and looking up is a round trip: after a load of external
    features (none [null], under ids that are all different), [getFeature]
    on an id of the features returns the record mapped from its entry,
    whatever the cache held before, for every id that the lookup in the
    alias table does not catch. *)
Theorem X4_external_round_trip (st st' : DataLoader) (m : WebFeatures)
  (fm : Features) (now0 now : Z) (i : string) (f : RawFeature) :
  fresh st now0 = false ->
  export_of m e_features = Some fm ->
  Forall not_null fm -> NoDup (map fst fm) ->
  loadBCDData st (Some m) now0 now = Normal st' ->
  In (i, Some f) fm ->
  JS.obj_get normalizations (JS.toLowerCase i) = JS.Undefined ->
  getFeature st' i = Some (Cached (mapped i f)).
Proof.
  intros Stale F NN ND L I Miss.
  destruct (external_loaded st st' m fm now0 now Stale F NN ND L)
    as [FM Get].
  unfold getFeature. rewrite (normalize_miss i Miss), FM.
  unfold property_key, JS.obj_get.
  rewrite (assoc_In_get String.eqb String.eqb_eq i (Some f) fm ND I).
  unfold cache_get. rewrite (Get i f I). reflexivity.
Qed.

Lemma X4_external_round_trip_witness :
  exists st',
    loadBCDData (bundled 5 7) (Some exports_sound) 4000000 4000001
    = Normal st'
    /\ getFeature st' "popover"
       = Some (Cached (mapped "popover" (raw_named "")))
    /\ name (mapped "popover" (raw_named "")) = "popover".
Proof.
  eexists. split; [ reflexivity | ]. split; [ | reflexivity ].
  eapply (X4_external_round_trip (bundled 5 7)) with
    (m := exports_sound) (fm := features_sound)
    (now0 := 4000000) (now := 4000001).
  - reflexivity.
  - reflexivity.
  - repeat constructor; unfold not_null; simpl; discriminate.
  - repeat constructor; simpl; intuition discriminate.
  - reflexivity.
  - right. left. reflexivity.
  - reflexivity.
Defined.

(** X5. After a load of external features (none [null], ids all
    different), [getAllFeatures] returns the mapped records of the entries
    of the features, one each, in the order of the export, and none of the
    records that earlier loads left in the cache under other ids. *)
Theorem X5_getAllFeatures_external (st st' : DataLoader) (m : WebFeatures)
  (fm : Features) (now0 now : Z) :
  fresh st now0 = false ->
  export_of m e_features = Some fm ->
  Forall not_null fm -> NoDup (map fst fm) ->
  loadBCDData st (Some m) now0 now = Normal st' ->
  getAllFeatures st' = map snd (mapped_entries fm)
  /\ List.length (getAllFeatures st') = List.length fm.
Proof.
  intros Stale F NN ND L.
  destruct (external_loaded st st' m fm now0 now Stale F NN ND L)
    as [FM Get].
  assert (forall l,
            (forall i o, In (i, o) l ->
               exists f, o = Some f
                 /\ JS.map_get String.eqb i (bcdCache st')
                    = Some (mapped i f)) ->
            flat_map
              (fun kv =>
                 match JS.map_get String.eqb (fst kv) (bcdCache st') with
                 | Some f => [f]
                 | None => []
                 end) l
            = map snd (mapped_entries l)) as Each.
  { induction l as [ | [i o] rest IH]; intros All; [ reflexivity | ].
    destruct (All i o (or_introl eq_refl)) as (f & -> & G).
    simpl. rewrite G. simpl. f_equal. apply IH.
    intros j o' I. apply (All j o'). right. exact I. }
  assert (getAllFeatures st' = map snd (mapped_entries fm)) as E.
  { unfold getAllFeatures. rewrite FM. apply Each.
    intros i o I. destruct o as [f | ].
    - exists f. split; [ reflexivity | apply Get, I ].
    - rewrite Forall_forall in NN. destruct (NN (i, None) I). reflexivity. }
  split; [ exact E | ].
  rewrite E, length_map, <- (length_map fst), (mapped_entries_keys fm NN).
  apply length_map.
Qed.

Lemma X5_getAllFeatures_external_witness :
  exists st',
    loadBCDData (bundled 5 7) (Some exports_sound) 4000000 4000001
    = Normal st'
    /\ List.length (bcdCache st') = 6%nat
    /\ map name (getAllFeatures st') = ["View Transitions"; "popover"].
Proof.
  assert (Forall not_null features_sound) as NN
    by (repeat constructor; unfold not_null; simpl; discriminate).
  assert (NoDup (map fst features_sound)) as ND
    by (repeat constructor; simpl; intuition discriminate).
  eexists. split; [ reflexivity | ]. split; [ reflexivity | ].
  rewrite (proj1 (X5_getAllFeatures_external (bundled 5 7) _ exports_sound
                    features_sound 4000000 4000001 eq_refl eq_refl NN ND
                    eq_refl)).
  reflexivity.
Defined.

(** X6. [loadBaselineData] and [getBaselineFeatures] are a round trip on
    every store: after the load each of the bundled years returns the
    bundled list of that year, whatever the cache held under it, every
    other year returns what it returned before, and the feature cache and
    the time of the last update are left alone. *)
Theorem X6_loadBaselineData (st : DataLoader) (y : Z) :
  (forall l, JS.map_get Z.eqb y getSampleBaselineData = Some l ->
             getBaselineFeatures (loadBaselineData st) y = l)
  /\ (JS.map_get Z.eqb y getSampleBaselineData = None ->
      getBaselineFeatures (loadBaselineData st) y
      = getBaselineFeatures st y)
  /\ bcdCache (loadBaselineData st) = bcdCache st
  /\ lastUpdate (loadBaselineData st) = lastUpdate st
  /\ featuresMap (loadBaselineData st) = featuresMap st.
Proof.
  assert (forall k, JS.map_get Z.eqb k (baselineCache (loadBaselineData st))
                    = match JS.map_get Z.eqb k getSampleBaselineData with
                      | Some l => Some l
                      | None => JS.map_get Z.eqb k (baselineCache st)
                      end) as G.
  { intros k. rewrite loadBaselineData_baseline.
    unfold getSampleBaselineData. simpl.
    destruct (Z.eqb_spec k 2022) as [-> | N2].
    - rewrite !(assoc_get_set_other Z.eqb Z.eqb_eq) by discriminate.
      apply (assoc_get_set_same Z.eqb Z.eqb_eq).
    - destruct (Z.eqb_spec k 2023) as [-> | N3].
      + rewrite (assoc_get_set_other Z.eqb Z.eqb_eq) by discriminate.
        apply (assoc_get_set_same Z.eqb Z.eqb_eq).
      + destruct (Z.eqb_spec k 2024) as [-> | N4].
        * apply (assoc_get_set_same Z.eqb Z.eqb_eq).
        * rewrite !(assoc_get_set_other Z.eqb Z.eqb_eq) by assumption.
          reflexivity. }
  repeat split.
  - intros l E. unfold getBaselineFeatures. rewrite G, E. reflexivity.
  - intros E. unfold getBaselineFeatures. rewrite G, E. reflexivity.
Qed.

Lemma X6_loadBaselineData_witness :
  getBaselineFeatures (loadBaselineData new_DataLoader) 2023
  = [sample_entry "css-has-selector" 2023 "Q4"
                  "CSS :has() pseudo-class selector"]
  /\ getBaselineFeatures (loadBaselineData new_DataLoader) 2021 = [].
Proof.
  destruct (X6_loadBaselineData new_DataLoader 2023) as (Hit & _).
  destruct (X6_loadBaselineData new_DataLoader 2021) as (_ & Miss & _).
  split; [ apply Hit; reflexivity | apply Miss; reflexivity ].
Defined.

(** X7. In a record mapped from the external features the name is the raw
    name when that is a non-empty string and the id otherwise; the
    description, the MDN link and the specification link are never the empty
    string; the three status flags are always booleans; and the support
    matrix under [status] goes before the one at the top, the empty matrix
    standing in when there is neither. *)
Theorem X7_mapped_fields (i : string) (f : RawFeature) :
  (forall n, r_name f = Some n -> n <> "" -> name (mapped i f) = n)
  /\ (r_name f = None \/ r_name f = Some "" -> name (mapped i f) = i)
  /\ description (mapped i f) <> Some ""
  /\ mdn_url (mapped i f) <> Some ""
  /\ spec_url (mapped i f) <> Some ""
  /\ (exists e s d,
        status (mapped i f)
        = Some {| experimental := Some e; standard_track := Some s;
                  deprecated := Some d |})
  /\ (forall rs s, r_status f = Some rs -> rs_support rs = Some s ->
        support (mapped i f) = s)
  /\ (status_field f rs_support = None -> r_support f = None ->
        support (mapped i f) = no_support).
Proof.
  assert (forall x, or_undefined x <> Some "") as NE.
  { intros [[ | c r] | ]; simpl; discriminate. }
  split; [ | split; [ | split; [ | split; [ | split; [ | split;
    [ | split ] ] ] ] ] ].
  - intros n E N. simpl. rewrite E. destruct n; [ contradiction | ].
    reflexivity.
  - intros [E | E]; simpl; rewrite E; reflexivity.
  - apply NE.
  - apply NE.
  - apply NE.
  - simpl. eexists. eexists. eexists. reflexivity.
  - intros rs s E S. simpl. unfold status_field. rewrite E, S. reflexivity.
  - intros E1 E2. simpl. rewrite E1, E2. reflexivity.
Qed.

Lemma X7_mapped_fields_witness :
  name (mapped "popover" (raw_named "Popover")) = "Popover"
  /\ name (mapped "popover" (raw_named "")) = "popover"
  /\ support (mapped "popover" (raw_named "")) = no_support.
Proof.
  destruct (X7_mapped_fields "popover" (raw_named "Popover"))
    as (Named & _).
  destruct (X7_mapped_fields "popover" (raw_named ""))
    as (_ & Unnamed & _ & _ & _ & _ & _ & Bare).
  split; [ apply Named; [ reflexivity | discriminate ] | ].
  split; [ apply Unnamed; right; reflexivity | ].
  apply Bare; reflexivity.
Defined.

Lemma inherited_with_capital_cases (k : string) :
  inherited_with_capital k = true ->
  In k [ "__defineGetter__"; "__defineSetter__"; "hasOwnProperty";
         "__lookupGetter__"; "__lookupSetter__"; "isPrototypeOf";
         "propertyIsEnumerable"; "toString"; "valueOf"; "toLocaleString" ].
Proof.
  unfold inherited_with_capital, mem. intros E.
  apply andb_true_iff in E. destruct E as [M C].
  apply existsb_exists in M. destruct M as (x & I & E).
  apply String.eqb_eq in E. subst x. simpl in I.
  repeat (destruct I as [<- | I];
          [ try discriminate C; simpl; tauto | ]).
  destruct I.
Qed.

(** X8. Once the external features are in place, [getFeature] finds a
    feature under the names that every object inherits, such as [toString],
    [valueOf] or [hasOwnProperty]: when the features have no entry of that
    name the result is not absent but the cached record of that name, if
    there is one, and the member of [Object.prototype] otherwise. Without
    the external features the same names are absent unless cached. *)
Theorem X8_inherited_names (st : DataLoader) (k : string) :
  inherited_with_capital k = true ->
  (forall fm, featuresMap st = Some fm ->
     JS.map_get String.eqb k fm = None ->
     getFeature st k =
     Some (match JS.map_get String.eqb k (bcdCache st) with
           | Some f => Cached f
           | None => Proto k
           end))
  /\ (featuresMap st = None ->
      getFeature st k = cached (JS.map_get String.eqb k (bcdCache st))).
Proof.
  intros C. pose proof (inherited_with_capital_cases k C) as Cases.
  assert (normalizeFeatureName k = Str k) as N.
  { simpl in Cases.
    repeat (destruct Cases as [<- | Cases]; [ reflexivity | ]).
    destruct Cases. }
  assert (existsb (String.eqb k) JS.object_prototype_keys = true) as M.
  { unfold inherited_with_capital, mem in C.
    apply andb_true_iff in C. apply C. }
  split.
  - intros fm FM G. unfold getFeature.
    rewrite N, FM. unfold property_key, JS.obj_get. rewrite G, M.
    reflexivity.
  - intros FM. unfold getFeature. rewrite N, FM. unfold cache_get.
    destruct (JS.map_get String.eqb k (bcdCache st)); reflexivity.
Qed.

Lemma X8_inherited_names_witness :
  inherited_with_capital "toString" = true
  /\ (exists st',
        loadBCDData (bundled 5 7) (Some exports_sound) 4000000 4000001
        = Normal st'
        /\ getFeature st' "toString" = Some (Proto "toString"))
  /\ getFeature (bundled 5 7) "toString" = None.
Proof.
  split; [ reflexivity | ].
  split.
  - eexists. split; [ reflexivity | ].
    destruct (X8_inherited_names
                (set_lastUpdate 4000001
                   (cache_set "popover" (mapped "popover" (raw_named ""))
                      (cache_set "view-transitions"
                         (mapped "view-transitions"
                                 (raw_named "View Transitions"))
                         (set_exports (Some features_sound) None None None
                            (bundled 5 7)))))
                "toString" eq_refl) as (Ext & _).
    apply (Ext features_sound); reflexivity.
  - destruct (X8_inherited_names (bundled 5 7) "toString" eq_refl)
      as (_ & Plain).
    apply Plain. reflexivity.
Defined.

(* ================================================================== *)
(** * Search: what the results are made of *)
(* ================================================================== *)

Lemma firstn_prefix {A : Type} (a b : nat) (l : list A) :
  (a <= b)%nat ->
  firstn b l = (firstn a l ++ firstn (b - a) (skipn a l))%list.
Proof.
  revert b l. induction a as [ | a IH]; intros b l Le.
  - rewrite Nat.sub_0_r. reflexivity.
  - destruct b as [ | b]; [ lia | ].
    destruct l as [ | x l]; [ simpl; rewrite firstn_nil; reflexivity | ].
    simpl. f_equal. apply IH. lia.
Qed.

Lemma In_firstn {A : Type} (n : nat) (l : list A) (x : A) :
  In x (firstn n l) -> In x l.
Proof.
  intros I. rewrite <- (firstn_skipn n l). apply in_or_app. left. exact I.
Qed.

Lemma NoDup_firstn {A : Type} (n : nat) (l : list A) :
  NoDup l -> NoDup (firstn n l).
Proof.
  intros N. rewrite <- (firstn_skipn n l) in N.
  apply NoDup_app_remove_r in N. exact N.
Qed.

Lemma all_hits_ids (st : DataLoader) (q : string) :
  map id (all_hits st q) = map fst (filter (matches st q) (entries st)).
Proof.
  unfold all_hits. rewrite map_map. reflexivity.
Qed.

Lemma NoDup_keys_filter {A B : Type} (p : A * B -> bool) (l : list (A * B)) :
  NoDup (map fst l) -> NoDup (map fst (filter p l)).
Proof.
  induction l as [ | x l IH]; simpl; intros N; [ constructor | ].
  inversion N as [ | y r NI N' ]; subst.
  destruct (p x); [ | apply IH, N' ].
  simpl. constructor; [ | apply IH, N' ].
  intros I. apply NI. apply in_map_iff in I.
  destruct I as (z & E & I). apply filter_In in I.
  apply in_map_iff. exists z. split; [ exact E | apply I ].
Qed.

(** X9. Raising the limit only adds results behind those there were: for
    [l1 <= l2] the results under the limit [l1] are the first of the
    results under [l2], in the same order. *)
Theorem X9_limit_prefix (st : DataLoader) (query : option string)
  (l1 l2 : Q) :
  (l1 <= l2)%Q ->
  exists more,
    findFeatures st query l2 = (findFeatures st query l1 ++ more)%list.
Proof.
  intros Le. rewrite !findFeatures_firstn.
  destruct (JS.truthy (needle query)); [ | exists []; reflexivity ].
  apply Qfloor_resp_le in Le. eexists.
  apply firstn_prefix. lia.
Qed.

Lemma X9_limit_prefix_witness :
  (inject_Z 1 <= inject_Z 3)%Q
  /\ map id (findFeatures (bundled 5 7) (Some "api") (inject_Z 1))
     = ["webusb"]
  /\ exists more,
       findFeatures (bundled 5 7) (Some "api") (inject_Z 3)
       = (findFeatures (bundled 5 7) (Some "api") (inject_Z 1) ++ more)%list.
Proof.
  split; [ discriminate | ]. split; [ reflexivity | ].
  apply X9_limit_prefix. discriminate.
Defined.

(** X10. Every result of [findFeatures] is the hit of an entry of the
    dataset whose haystack holds the lowercased and trimmed query, which is
    not empty; and when the ids of the dataset are all different, as in
    every store without the external features that a process can reach, no
    id comes twice in the results. *)
Theorem X10_results_sound (st : DataLoader) (query : option string)
  (limit : Q) :
  (forall h, In h (findFeatures st query limit) ->
     needle query <> ""
     /\ exists e,
          In (id h, e) (entries st)
          /\ h = hit st (id h) e
          /\ JS.includes (hay st (id h) e) (needle query) = true)
  /\ (NoDup (map fst (entries st)) ->
      NoDup (map id (findFeatures st query limit)))
  /\ (Reachable st -> featuresMap st = None ->
      NoDup (map id (findFeatures st query limit))).
Proof.
  assert (NoDup (map fst (entries st)) ->
          NoDup (map id (findFeatures st query limit))) as Distinct.
  { intros N. rewrite findFeatures_firstn.
    destruct (JS.truthy (needle query)); [ | constructor ].
    rewrite <- firstn_map. apply NoDup_firstn.
    rewrite all_hits_ids. apply NoDup_keys_filter, N. }
  split; [ | split; [ exact Distinct | ] ].
  - intros h. rewrite findFeatures_firstn.
    destruct (JS.truthy (needle query)) eqn:T; [ | intros [] ].
    intros I. apply In_firstn in I. unfold all_hits in I.
    apply in_map_iff in I. destruct I as ([i e] & <- & I).
    apply filter_In in I. destruct I as [I M].
    split; [ intros E; rewrite E in T; discriminate T | ].
    exists e. simpl. split; [ exact I | ]. split; [ reflexivity | exact M ].
  - intros R FM. apply Distinct. unfold entries. rewrite FM.
    rewrite map_map. simpl. apply (Reachable_NoDup st R).
Qed.

Lemma X10_results_sound_witness :
  Reachable (bundled 5 7) /\ featuresMap (bundled 5 7) = None
  /\ NoDup (map id (findFeatures (bundled 5 7) (Some "s") (inject_Z 10)))
  /\ map id (findFeatures (bundled 5 7) (Some "s") (inject_Z 10))
     = ["css-has-selector"; "offscreen-canvas"; "webusb"; "fetch-streaming"].
Proof.
  split; [ apply bundled_Reachable | ]. split; [ reflexivity | ].
  split; [ | reflexivity ].
  apply (X10_results_sound (bundled 5 7) (Some "s") (inject_Z 10)).
  - apply bundled_Reachable.
  - reflexivity.
Defined.

Lemma append_assoc (a b c : string) : (a ++ b) ++ c = a ++ b ++ c.
Proof. induction a as [ | x a IH]; simpl; [ | rewrite IH ]; reflexivity. Qed.

Lemma append_empty_r (a : string) : a ++ "" = a.
Proof. induction a as [ | x a IH]; simpl; [ | rewrite IH ]; reflexivity. Qed.

Lemma occurs_in_refl (x : string) : occurs_in x x.
Proof. exists "", "". simpl. rewrite append_empty_r. reflexivity. Qed.

Lemma occurs_in_trans (a b c : string) :
  occurs_in a b -> occurs_in b c -> occurs_in a c.
Proof.
  intros (p & s & ->) (p' & s' & ->).
  exists (p' ++ p), (s ++ s'). rewrite !append_assoc. reflexivity.
Qed.

Lemma prefix_append (t s : string) : String.prefix t (t ++ s) = true.
Proof.
  induction t as [ | c t IH]; simpl; [ destruct s; reflexivity | ].
  destruct (ascii_dec c c) as [_ | N]; [ exact IH | destruct N; reflexivity ].
Qed.

Lemma includes_unfold (x t : string) :
  JS.includes x t =
  String.prefix t x
  || match x with
     | EmptyString => false
     | String _ r => JS.includes r t
     end.
Proof. destruct x; reflexivity. Qed.

(** A text that occurs in the haystack is found by [includes]. *)
Lemma includes_occurs (t x : string) :
  occurs_in t x -> JS.includes x t = true.
Proof.
  intros (p & s & ->). induction p as [ | c p IH].
  - simpl append. rewrite includes_unfold, prefix_append. reflexivity.
  - change (String c p ++ t ++ s) with (String c (p ++ t ++ s)).
    rewrite includes_unfold. cbv iota. rewrite IH. apply orb_true_r.
Qed.

Lemma toLowerCase_append (a b : string) :
  JS.toLowerCase (a ++ b) = JS.toLowerCase a ++ JS.toLowerCase b.
Proof. induction a as [ | c a IH]; simpl; [ | rewrite IH ]; reflexivity. Qed.

Lemma occurs_in_lower (t x : string) :
  occurs_in t x -> occurs_in (JS.toLowerCase t) (JS.toLowerCase x).
Proof.
  intros (p & s & ->). exists (JS.toLowerCase p), (JS.toLowerCase s).
  rewrite !toLowerCase_append. reflexivity.
Qed.

Lemma trimStart_occurs (x : string) : occurs_in (JS.trimStart x) x.
Proof.
  induction x as [ | c x IH]; simpl; [ apply occurs_in_refl | ].
  destruct (JS.is_space c); [ | apply occurs_in_refl ].
  destruct IH as (p & s & E). exists (String c p), s.
  simpl. rewrite <- E. reflexivity.
Qed.

Lemma trimEnd_occurs (x : string) : occurs_in (JS.trimEnd x) x.
Proof.
  assert (exists s, x = JS.trimEnd x ++ s) as [s E].
  { induction x as [ | c x [s IH]]; [ exists ""; reflexivity | ].
    simpl. destruct (JS.is_space c && (JS.trimEnd x =? "")%string).
    - exists (String c x). reflexivity.
    - exists s. simpl. f_equal. exact IH. }
  exists "", s. exact E.
Qed.

Lemma join_occurs (x : string) (l : list string) :
  In x l -> occurs_in x (JS.join l).
Proof.
  unfold JS.join. induction l as [ | y l IH]; [ intros [] | ].
  destruct l as [ | z l].
  - intros [<- | []]. apply occurs_in_refl.
  - change (String.concat " " (y :: z :: l))
      with (y ++ " " ++ String.concat " " (z :: l)).
    intros [<- | I].
    + exists "", (" " ++ String.concat " " (z :: l)). reflexivity.
    + destruct (IH I) as (p & s & E). exists (y ++ " " ++ p), s.
      rewrite E, !append_assoc. reflexivity.
Qed.

Lemma needle_Some (x : string) :
  needle (Some x) = JS.trim (JS.toLowerCase x).
Proof.
  unfold needle, or_default. destruct x; reflexivity.
Qed.

(** An entry passes the test of the loop for each of the texts of its
    haystack, taken as a query. *)
Lemma matches_own_text (st : DataLoader) (i : string) (e : Entry)
  (x : string) :
  In x (hay_texts st i e) -> JS.truthy (needle (Some x)) = true ->
  matches st (needle (Some x)) (i, e) = true.
Proof.
  intros I T. unfold matches. simpl fst. simpl snd.
  apply includes_occurs. rewrite needle_Some in T |- *.
  assert (JS.truthy x = true) as Tx.
  { destruct x; [ discriminate T | reflexivity ]. }
  apply occurs_in_trans with (JS.toLowerCase x).
  - unfold JS.trim.
    apply occurs_in_trans with (JS.trimStart (JS.toLowerCase x));
      [ apply trimEnd_occurs | apply trimStart_occurs ].
  - unfold hay. apply occurs_in_lower, join_occurs.
    apply filter_In. split; [ exact I | exact Tx ].
Qed.

(** X11. A feature is found by each of its own texts: for every entry of
    the dataset, a query that is its id, the name or the description of its
    hit, or one of its [compat_features], and is not blank, returns the hit
    of the entry, provided the limit is not below the number of entries. *)
Theorem X11_found_by_own_text (st : DataLoader) (i : string) (e : Entry)
  (x : string) (limit : Q) :
  In (i, e) (entries st) ->
  In x (hay_texts st i e) ->
  JS.truthy (needle (Some x)) = true ->
  (inject_Z (Z.of_nat (List.length (entries st))) <= limit)%Q ->
  In (hit st i e) (findFeatures st (Some x) limit).
Proof.
  intros I X T L. rewrite findFeatures_firstn, T.
  assert (In (hit st i e) (all_hits st (needle (Some x)))) as H.
  { unfold all_hits.
    apply (in_map (fun e0 => hit st (fst e0) (snd e0)) _ (i, e)).
    apply filter_In. split; [ exact I | ].
    apply matches_own_text; assumption. }
  rewrite firstn_all2; [ exact H | ].
  apply Qfloor_resp_le in L. rewrite Qfloor_Z in L.
  unfold all_hits. rewrite length_map.
  pose proof (filter_length_le (matches st (needle (Some x))) (entries st)).
  lia.
Qed.

Lemma X11_found_by_own_text_witness :
  In (hit (bundled 5 7) "offscreen-canvas" (OfCache offscreen_canvas))
     (findFeatures (bundled 5 7) (Some "OffscreenCanvas") (inject_Z 4))
  /\ h_name (hit (bundled 5 7) "offscreen-canvas" (OfCache offscreen_canvas))
     = "OffscreenCanvas".
Proof.
  split; [ | reflexivity ].
  apply (X11_found_by_own_text (bundled 5 7) "offscreen-canvas"
           (OfCache offscreen_canvas) "OffscreenCanvas" (inject_Z 4)).
  - right. left. reflexivity.
  - right. left. reflexivity.
  - reflexivity.
  - discriminate.
Defined.

(* ================================================================== *)
(** * The comparison, from one side and from the other *)
(* ================================================================== *)

(** X12. Comparing [b] with [a] is comparing [a] with [b] read from the
    other side: the rows are the same with the two versions exchanged;
    there is a [baselineDifference] in the one exactly when there is in the
    other, with the same [yearDiff], which is never negative; [aFirst] holds
    in at most one of the two, and in neither exactly when the years are
    the same. *)
Theorem X12_comparison_swap (h : JS.Host) (a b : FeatureData) :
  map cells (supportDifference (compareFeatures h b a))
  = map swapped (supportDifference (compareFeatures h a b))
  /\ match baselineDifference (compareFeatures h a b),
           baselineDifference (compareFeatures h b a) with
     | Some d, Some d' =>
         yearDiff d' = yearDiff d
         /\ aFirst d && aFirst d' = false
         /\ (forall z, yearDiff d = JS.Int z ->
               0 <= z
               /\ (z = 0 <-> aFirst d = false /\ aFirst d' = false))
     | None, None => True
     | _, _ => False
     end.
Proof.
  split; [ reflexivity | ].
  rewrite !baselineDifference_guard.
  destruct (baseline_high a) as [sa | ], (baseline_high b) as [sb | ];
    try exact I.
  destruct (JS.getFullYear h sa) as [ya | ], (JS.getFullYear h sb) as [yb | ];
    simpl;
    try (split; [ reflexivity
                | split; [ reflexivity | intros z E; discriminate E ] ]).
  split; [ f_equal; lia | ].
  split.
  - destruct (Z.ltb_spec ya yb), (Z.ltb_spec yb ya); simpl; trivial; lia.
  - intros z E. injection E as <-. split; [ lia | ].
    rewrite !Z.ltb_ge. lia.
Qed.

Lemma X12_comparison_swap_witness :
  baselineDifference (compareFeatures utc css_has_selector offscreen_canvas)
  = Some {| yearDiff := JS.Int 1; aFirst := false |}
  /\ baselineDifference (compareFeatures utc offscreen_canvas css_has_selector)
     = Some {| yearDiff := JS.Int 1; aFirst := true |}
  /\ 0 <= 1
  /\ map cells
       (supportDifference
          (compareFeatures utc offscreen_canvas css_has_selector))
     = map swapped
         (supportDifference
            (compareFeatures utc css_has_selector offscreen_canvas)).
Proof.
  split; [ reflexivity | ]. split; [ reflexivity | ].
  pose proof (X12_comparison_swap utc css_has_selector offscreen_canvas)
    as (Rows & P).
  change (baselineDifference
            (compareFeatures utc css_has_selector offscreen_canvas))
    with (Some {| yearDiff := JS.Int 1; aFirst := false |}) in P.
  change (baselineDifference
            (compareFeatures utc offscreen_canvas css_has_selector))
    with (Some {| yearDiff := JS.Int 1; aFirst := true |}) in P.
  destruct P as (_ & _ & Year).
  split; [ exact (proj1 (Year 1 eq_refl)) | exact Rows ].
Defined.

(** X13. The comparison reads the four desktop cells of each support
    matrix and the baseline high date of each side, when it is not empty,
    and nothing else: two records that agree on those give the same rows
    and the same [baselineDifference], whatever their names, texts, links,
    status, low dates and mobile cells. *)
Theorem X13_comparison_reads (h : JS.Host) (a a' b b' : FeatureData) :
  desktop_cells (support a) = desktop_cells (support a') ->
  desktop_cells (support b) = desktop_cells (support b') ->
  baseline_high a = baseline_high a' ->
  baseline_high b = baseline_high b' ->
  supportDifference (compareFeatures h a b)
  = supportDifference (compareFeatures h a' b')
  /\ baselineDifference (compareFeatures h a b)
     = baselineDifference (compareFeatures h a' b').
Proof.
  unfold desktop_cells. intros Sa Sb Ha Hb.
  injection Sa as A1 A2 A3 A4. injection Sb as B1 B2 B3 B4. split.
  - rewrite !supportDifference_rows. apply map_ext_in.
    assert (forall br, In br browsers_tracked ->
              support_get (support a) br = support_get (support a') br
              /\ support_get (support b) br = support_get (support b') br)
      as Cells.
    { intros br [<- | [<- | [<- | [<- | []]]]]; split; assumption. }
    intros br I. destruct (Cells br I) as [Ea Eb].
    unfold row. rewrite Ea, Eb. reflexivity.
  - rewrite !baselineDifference_guard, Ha, Hb. reflexivity.
Qed.

Lemma X13_comparison_reads_witness :
  name offscreen_canvas_mobile <> name offscreen_canvas
  /\ supportDifference
       (compareFeatures utc css_has_selector offscreen_canvas_mobile)
     = supportDifference
         (compareFeatures utc css_has_selector offscreen_canvas)
  /\ baselineDifference
       (compareFeatures utc css_has_selector offscreen_canvas_mobile)
     = baselineDifference
         (compareFeatures utc css_has_selector offscreen_canvas).
Proof.
  split; [ discriminate | ].
  apply (X13_comparison_reads utc css_has_selector css_has_selector
           offscreen_canvas_mobile offscreen_canvas); reflexivity.
Defined.

(* ================================================================== *)
(** * The HTTP server: who may call *)
(* ================================================================== *)

Lemma prefix_iff (p s : string) :
  String.prefix p s = true <-> exists r, s = p ++ r.
Proof.
  split.
  - revert s. induction p as [ | c p IH]; intros s E.
    + exists s. reflexivity.
    + destruct s as [ | d s]; simpl in E; [ discriminate E | ].
      destruct (ascii_dec c d) as [<- | _]; [ | discriminate E ].
      destruct (IH s E) as [r ->]. exists r. reflexivity.
  - intros [r ->]. apply prefix_append.
Qed.

(** X14. The check of the [Origin] header lets a request through exactly
    when it has no such header, an empty one, or one that begins with
    [http://localhost] or with [http://127.0.0.1], whatever comes behind
    that beginning; every other origin is answered 403 with [Invalid
    origin], whatever body was read, and the server is left as it was. *)
Theorem X14_origin_check (o : option string) :
  (Sse.validateOrigin o = None <->
   o = None \/ o = Some ""
   \/ (exists r, o = Some ("http://localhost" ++ r))
   \/ (exists r, o = Some ("http://127.0.0.1" ++ r)))
  /\ (Sse.validateOrigin o <> None ->
      Sse.validateOrigin o = Some (403, "Invalid origin")
      /\ forall h s env r hd content,
           Sse.Origin hd = o ->
           Sse.post h s env r hd (Sse.Read content)
           = (s, Sse.reply 403 (Sse.ErrorBody "Invalid origin"))).
Proof.
  split.
  - unfold Sse.validateOrigin. destruct o as [o | ]; [ | tauto ].
    destruct (String.prefix "http://localhost" o) eqn:L.
    + rewrite andb_false_r. simpl.
      apply prefix_iff in L. destruct L as [r ->].
      split; [ intros _ | reflexivity ]. right. right. left.
      exists r. reflexivity.
    + destruct (String.prefix "http://127.0.0.1" o) eqn:I.
      * rewrite andb_false_r.
        apply prefix_iff in I. destruct I as [r ->].
        split; [ intros _ | reflexivity ]. right. right. right.
        exists r. reflexivity.
      * destruct o as [ | c o]; simpl.
        { split; [ intros _; right; left; reflexivity | reflexivity ]. }
        split; [ discriminate | ].
        intros [E | [E | [[r E] | [r E]]]]; try discriminate E;
          apply (f_equal (fun x => match x with Some y => y | None => "" end))
            in E.
        -- assert (String.prefix "http://localhost" (String c o) = true)
             as P by (apply prefix_iff; exists r; exact E).
           rewrite P in L. discriminate L.
        -- assert (String.prefix "http://127.0.0.1" (String c o) = true)
             as P by (apply prefix_iff; exists r; exact E).
           rewrite P in I. discriminate I.
  - intros N.
    assert (Sse.validateOrigin o = Some (403, "Invalid origin")) as E.
    { unfold Sse.validateOrigin in N |- *. destruct o as [o | ];
        [ | contradiction ].
      destruct (JS.truthy o && negb (String.prefix "http://localhost" o)
                && negb (String.prefix "http://127.0.0.1" o));
        [ reflexivity | contradiction ]. }
    split; [ exact E | ].
    intros h s env r hd content <-. unfold Sse.post. rewrite E.
    reflexivity.
Qed.

Lemma X14_origin_check_witness :
  Sse.validateOrigin (Some "http://localhost.attacker.example") = None
  /\ Sse.validateOrigin (Some "https://localhost:3001")
     = Some (403, "Invalid origin").
Proof.
  split.
  - apply (X14_origin_check (Some "http://localhost.attacker.example")).
    right. right. left. exists ".attacker.example". reflexivity.
  - apply (X14_origin_check (Some "https://localhost:3001")).
    discriminate.
Defined.

(* ================================================================== *)
(** * The tools of the two servers *)
(* ================================================================== *)

(** The awaited load never ends in a rejection. *)
Lemma load_fulfilled (st : DataLoader) (env : Env) :
  exists st1,
    load st env = (st1, None)
    /\ loadBCDData st (imported env) (gate_time env) (load_time env)
       = Normal st1.
Proof.
  unfold load.
  destruct (loadBCDData_fulfilled st (imported env) (gate_time env)
              (load_time env)) as [st1 L].
  rewrite L. exists st1. split; reflexivity.
Qed.

Lemma comparison_reply_shape (h : JS.Host) (st : DataLoader)
  (a b : option string) :
  match comparison_reply h st a b with
  | Returned (ComparisonJson _) | Returned (Plain _) | Raised TypeError =>
      True
  | _ => False
  end.
Proof.
  unfold comparison_reply, getFeature_arg.
  destruct a as [a | ]; [ | exact I ].
  destruct b as [b | ]; [ | exact I ].
  destruct (getFeature st a) as [x | ], (getFeature st b) as [y | ];
    try exact I.
  unfold compareFeatures_cast.
  destruct (found_support x), (found_support y); exact I.
Qed.

Lemma comparison_reply_known (h : JS.Host) (st : DataLoader)
  (a b : option string) (t : option string) :
  comparison_reply h st a b <> Raised (UnknownTool t).
Proof.
  pose proof (comparison_reply_shape h st a b) as S. intros E.
  rewrite E in S. exact S.
Qed.

Lemma sse_getFeatureSupport_known (h : JS.Host) (st : DataLoader)
  (n t : option string) :
  Sse.getFeatureSupport h st n <> Raised (UnknownTool t).
Proof.
  unfold Sse.getFeatureSupport, getFeature_arg.
  destruct n as [n | ]; [ | discriminate ].
  destruct (getFeature st n); discriminate.
Qed.

(** X15. Each server answers a call exactly for the tools of its list. In
    the HTTP server a call ends in [Unknown tool] exactly when its name is
    none of the list (or is missing); in the stdio server a name outside
    the list is answered with the text of that error, with the store
    untouched, and a name of the list other than [getFeatureSupport], which
    is taken as it is, never is. The list of the HTTP server is that of the
    stdio server without [findFeatureId]. *)
Theorem X15_tools_dispatch :
  (forall h st env p,
     snd (Sse.handleToolCall h st env (Some p))
     = Raised (UnknownTool (tool p))
     <-> forall n, tool p = Some n -> ~ In n (map fst Sse.tools))
  /\ (forall gfs h st env n args,
        ~ In n (map fst Mcp.tools) ->
        Mcp.callTool gfs h st env n args
        = (st, ErrorText (UnknownTool (Some n))))
  /\ (forall gfs h st env n args t,
        In n (map fst Mcp.tools) -> n <> "getFeatureSupport" ->
        snd (Mcp.callTool gfs h st env n args)
        <> ErrorText (UnknownTool t))
  /\ (forall n, In n (map fst Sse.tools)
                <-> In n (map fst Mcp.tools) /\ n <> "findFeatureId").
Proof.
  split; [ | split; [ | split ] ].
  - intros h st env p. unfold Sse.handleToolCall.
    destruct (load_fulfilled st env) as (st1 & -> & _). simpl snd.
    unfold is_case. destruct (tool p) as [n | ].
    + destruct (String.eqb_spec n "getFeatureSupport") as [-> | N1].
      { split.
        - intros E. destruct (sse_getFeatureSupport_known _ _ _ _ E).
        - intros A. destruct (A _ eq_refl). simpl. tauto. }
      destruct (String.eqb_spec n "listBaselineFeatures") as [-> | N2].
      { split; [ discriminate | ].
        intros A. destruct (A _ eq_refl). simpl. tauto. }
      destruct (String.eqb_spec n "compareSupport") as [-> | N3].
      { split.
        - intros E. destruct (comparison_reply_known _ _ _ _ _ E).
        - intros A. destruct (A _ eq_refl). simpl. tauto. }
      split; [ | reflexivity ].
      intros _ m E. injection E as <-. simpl. intuition congruence.
    + split; [ intros _ n E; discriminate E | reflexivity ].
  - intros gfs h st env n args N. unfold Mcp.callTool. simpl in N.
    destruct (String.eqb_spec n "getFeatureSupport") as [-> | _];
      [ tauto | ].
    destruct (String.eqb_spec n "findFeatureId") as [-> | _]; [ tauto | ].
    destruct (String.eqb_spec n "listBaselineFeatures") as [-> | _];
      [ tauto | ].
    destruct (String.eqb_spec n "compareSupport") as [-> | _]; [ tauto | ].
    reflexivity.
  - intros gfs h st env n args t I N. unfold Mcp.callTool. simpl in I.
    destruct I as [<- | [<- | [<- | [<- | []]]]]; [ contradiction | | | ].
    + simpl. unfold Mcp.findFeatureId.
      destruct (load_fulfilled st env) as (st1 & -> & _). discriminate.
    + simpl. unfold baseline_reply.
      destruct (arg args arg_year) as [y | ]; [ | discriminate ].
      destruct (getBaselineFeatures (loadBaselineData st) y); discriminate.
    + simpl. unfold Mcp.compareSupport.
      destruct (load_fulfilled st env) as (st1 & -> & _).
      pose proof (comparison_reply_shape h st1
                    (arg args arg_featureA) (arg args arg_featureB)) as K.
      destruct (comparison_reply h st1 (arg args arg_featureA)
                  (arg args arg_featureB)) as [[ | | | | | ] | [ | | ]];
        simpl; try discriminate; contradiction.
  - intros n. simpl. split.
    + intros [<- | [<- | [<- | []]]]; split; try discriminate; tauto.
    + intros [[<- | [<- | [<- | [<- | []]]]] N]; tauto.
Qed.

Lemma X15_tools_dispatch_witness :
  let env := {| imported := None; gate_time := 5; load_time := 7 |} in
  snd (Sse.handleToolCall utc new_DataLoader env
         (Some {| tool := Some "findFeatureId"; arguments := None |}))
  = Raised (UnknownTool (Some "findFeatureId"))
  /\ ~ In "getFeatureSuport" (map fst Mcp.tools)
  /\ Mcp.callTool (fun st _ _ => (st, Raised TypeError)) utc new_DataLoader
       env "getFeatureSuport" None
     = (new_DataLoader, ErrorText (UnknownTool (Some "getFeatureSuport"))).
Proof.
  intros env.
  destruct X15_tools_dispatch as (Http & Stdio & _ & _).
  assert (~ In "getFeatureSuport" (map fst Mcp.tools)) as Out
      by (simpl; intuition discriminate).
  split; [ | split; [ exact Out | apply Stdio; exact Out ] ].
  apply (proj2 (Http utc new_DataLoader env
                  {| tool := Some "findFeatureId"; arguments := None |})).
  intros n E. injection E as <-. simpl. intuition discriminate.
Defined.

Lemma baseline_reply_year (st : DataLoader) (n : Z) :
  getBaselineFeatures st n <> [] ->
  exists fs,
    baseline_reply st (Some n) = YearJson n (List.length fs) fs
    /\ fs <> []
    /\ map sum_name fs = map bf_name (getBaselineFeatures st n).
Proof.
  unfold baseline_reply. destruct (getBaselineFeatures st n) as [ | f l];
    [ contradiction | intros _ ].
  eexists. split; [ | split ].
  - rewrite <- (length_map
                  (fun f0 => {| sum_name := bf_name f0;
                                sum_quarter := quarter f0;
                                sum_description := bf_description f0 |})).
    reflexivity.
  - discriminate.
  - rewrite map_map. reflexivity.
Qed.

Lemma years_as_named_sample (st : DataLoader) (y : option Z) :
  baselineCache st = getSampleBaselineData -> years_as_named st y.
Proof.
  intros B. unfold years_as_named, year_named.
  destruct y as [n | ]; [ | reflexivity ].
  assert (forall l, JS.map_get Z.eqb n getSampleBaselineData = Some l ->
                    l <> [] ->
                    exists m fs,
                      Some n = Some m
                      /\ baseline_reply st (Some n)
                         = YearJson m (List.length fs) fs
                      /\ fs <> []
                      /\ map sum_name fs
                         = map bf_name (getBaselineFeatures st m)) as Year.
  { intros l G NE.
    destruct (baseline_reply_year st n) as (fs & E & F & M).
    - unfold getBaselineFeatures. rewrite B, G. exact NE.
    - exists n, fs. repeat split; assumption. }
  simpl. destruct (Z.eqb_spec n 2022) as [-> | N2];
    [ eapply Year; [ reflexivity | discriminate ] | ].
  destruct (Z.eqb_spec n 2023) as [-> | N3];
    [ eapply Year; [ reflexivity | discriminate ] | ].
  destruct (Z.eqb_spec n 2024) as [-> | N4];
    [ eapply Year; [ reflexivity | discriminate ] | ].
  simpl. unfold baseline_reply, getBaselineFeatures. rewrite B.
  unfold getSampleBaselineData. simpl.
  rewrite (proj2 (Z.eqb_neq n 2022) N2), (proj2 (Z.eqb_neq n 2023) N3),
          (proj2 (Z.eqb_neq n 2024) N4).
  reflexivity.
Qed.

Lemma loadBaselineData_sample (st : DataLoader) :
  Reachable st -> baselineCache (loadBaselineData st) = getSampleBaselineData.
Proof.
  intros R. rewrite loadBaselineData_baseline.
  destruct (Reachable_baseline st R) as [-> | ->]; reflexivity.
Qed.

(** X16. The years that the sentence of [listBaselineFeatures] names are
    the years the tool answers: in a process of either server, whatever was
    loaded before, the tool returns the entries of the year, at least one
    and as many as [count] says, for 2022, 2023 and 2024, and the sentence
    [No Baseline features found] for every other year and for a missing
    one. *)
Theorem X16_years_answered (st : DataLoader) (y : option Z) :
  Reachable st ->
  (exists st',
     Mcp.listBaselineFeatures st y = (st', Returned (baseline_reply st' y))
     /\ years_as_named st' y)
  /\ (forall h env args,
        arg args arg_year = y ->
        exists st',
          Sse.handleToolCall h st env
            (Some {| tool := Some "listBaselineFeatures";
                     arguments := args |})
          = (st', Returned (baseline_reply st' y))
          /\ years_as_named st' y).
Proof.
  intros R. split.
  - exists (loadBaselineData st). split; [ reflexivity | ].
    apply years_as_named_sample, loadBaselineData_sample, R.
  - intros h env args <-. unfold Sse.handleToolCall.
    destruct (load_fulfilled st env) as (st1 & -> & L).
    exists (loadBaselineData st1). split; [ reflexivity | ].
    apply years_as_named_sample, loadBaselineData_sample.
    apply (reach_loadBCDData st (imported env) (gate_time env)
             (load_time env) st1 R L).
Qed.

Lemma X16_years_answered_witness :
  Reachable new_DataLoader
  /\ (exists st',
        Mcp.listBaselineFeatures new_DataLoader (Some 2022)
        = (st', Returned (baseline_reply st' (Some 2022)))
        /\ years_as_named st' (Some 2022))
  /\ baseline_reply (loadBaselineData new_DataLoader) (Some 1999)
     = Plain "No Baseline features found for year 1999. Available years: 2022, 2023, 2024".
Proof.
  split; [ apply reach_new | ]. split; [ | reflexivity ].
  apply (X16_years_answered new_DataLoader (Some 2022) reach_new).
Defined.

(* ================================================================== *)
(** * Numbers in a path *)
(* ================================================================== *)

Ltac read_digit :=
  cbn [NilEmpty.string_of_uint Pos.of_uint_acc Pos.of_uint digits_prefix];
  lazymatch goal with
  | |- context [JS.digit ?c] =>
      let v := eval vm_compute in (JS.digit c) in
      change (JS.digit c) with v
  end;
  cbv iota beta.

Lemma digits_of_uint_acc (u : Decimal.uint) (acc : positive) :
  digits_prefix 10 JS.digit (NilEmpty.string_of_uint u) (Some (Z.pos acc))
  = Some (Z.pos (Pos.of_uint_acc u acc)).
Proof.
  revert acc. induction u; intros acc; [ reflexivity | .. ];
    read_digit; rewrite <- IHu; f_equal; f_equal; lia.
Qed.

Lemma digits_of_uint (u : Decimal.uint) (start : option Z) :
  (start = Some 0 \/ (start = None /\ u <> Decimal.Nil)) ->
  digits_prefix 10 JS.digit (NilEmpty.string_of_uint u) start
  = Some (Z.of_N (Pos.of_uint u)).
Proof.
  revert start. induction u; intros start S.
  - destruct S as [-> | [_ N]]; [ reflexivity | contradiction ].
  - read_digit.
    destruct S as [-> | [-> _]]; exact (IHu (Some 0) (or_introl eq_refl)).
  - read_digit.
    destruct S as [-> | [-> _]]; exact (digits_of_uint_acc u 1).
  - read_digit.
    destruct S as [-> | [-> _]]; exact (digits_of_uint_acc u 2).
  - read_digit.
    destruct S as [-> | [-> _]]; exact (digits_of_uint_acc u 3).
  - read_digit.
    destruct S as [-> | [-> _]]; exact (digits_of_uint_acc u 4).
  - read_digit.
    destruct S as [-> | [-> _]]; exact (digits_of_uint_acc u 5).
  - read_digit.
    destruct S as [-> | [-> _]]; exact (digits_of_uint_acc u 6).
  - read_digit.
    destruct S as [-> | [-> _]]; exact (digits_of_uint_acc u 7).
  - read_digit.
    destruct S as [-> | [-> _]]; exact (digits_of_uint_acc u 8).
  - read_digit.
    destruct S as [-> | [-> _]]; exact (digits_of_uint_acc u 9).
Qed.

(** The run of digits at the head of a string ends where the digits
    end, whatever comes behind. *)
Lemma digits_prefix_stop (radix : Z) (digit_of : ascii -> option Z)
  (s rest : string) (acc : option Z) :
  match rest with
  | EmptyString => True
  | String c _ => digit_of c = None
  end ->
  digits_prefix radix digit_of (s ++ rest) acc
  = digits_prefix radix digit_of s acc.
Proof.
  intros Stop. revert acc. induction s as [ | c s IH]; intros acc.
  - simpl. destruct rest as [ | c r]; [ reflexivity | ].
    simpl. rewrite Stop. reflexivity.
  - simpl. destruct (digit_of c); [ apply IH | reflexivity ].
Qed.

Lemma stops_digit (rest : string) :
  stops rest = true ->
  match rest with
  | EmptyString => True
  | String c _ => JS.digit c = None
  end.
Proof.
  destruct rest as [ | c r]; [ trivial | ]. simpl.
  destruct (JS.digit c); [ discriminate | reflexivity ].
Qed.

(** A run of digits is read in base ten, unless it is a lone [0] before
    an [x]. *)
Lemma read_unsigned_decimal (u : Decimal.uint) (rest : string) :
  u <> Decimal.Nil ->
  (u = Decimal.D0 Decimal.Nil -> begins_with_x rest = false) ->
  read_unsigned (NilEmpty.string_of_uint u ++ rest)
  = digits_prefix 10 JS.digit (NilEmpty.string_of_uint u ++ rest) None.
Proof.
  intros N X.
  destruct u as [ | u | u | u | u | u | u | u | u | u | u];
    [ contradiction | | reflexivity .. ].
  destruct u; try reflexivity.
  specialize (X eq_refl). destruct rest as [ | c r]; [ reflexivity | ].
  simpl in X. apply orb_false_iff in X. destruct X as [X1 X2].
  destruct c as [[] [] [] [] [] [] [] []];
    try discriminate X1; try discriminate X2; reflexivity.
Qed.

Lemma read_unsigned_digits (u : Decimal.uint) (rest : string) :
  u <> Decimal.Nil ->
  (u = Decimal.D0 Decimal.Nil -> begins_with_x rest = false) ->
  stops rest = true ->
  read_unsigned (NilEmpty.string_of_uint u ++ rest)
  = Some (Z.of_N (Pos.of_uint u)).
Proof.
  intros N X S.
  rewrite (read_unsigned_decimal u rest N X).
  rewrite (digits_prefix_stop 10 JS.digit _ rest None (stops_digit rest S)).
  apply digits_of_uint. right. split; [ reflexivity | exact N ].
Qed.

Lemma NilZero_nonnil (u : Decimal.uint) :
  u <> Decimal.Nil -> NilZero.string_of_uint u = NilEmpty.string_of_uint u.
Proof. destruct u; [ contradiction | reflexivity .. ]. Qed.

Lemma to_uint_not_zero (p : positive) :
  Pos.to_uint p <> Decimal.D0 Decimal.Nil.
Proof.
  intros E. pose proof (DecimalPos.Unsigned.of_to p) as R.
  rewrite E in R. discriminate R.
Qed.

Lemma integer_read_minus (r : string) :
  integer_read (String "-" r) = option_map Z.opp (read_unsigned r).
Proof. reflexivity. Qed.

Lemma integer_read_digits (u : Decimal.uint) (rest : string) :
  u <> Decimal.Nil ->
  (u = Decimal.D0 Decimal.Nil -> begins_with_x rest = false) ->
  stops rest = true ->
  integer_read (NilEmpty.string_of_uint u ++ rest)
  = Some (Z.of_N (Pos.of_uint u))
  /\ integer_read (String "-" (NilEmpty.string_of_uint u ++ rest))
     = Some (- Z.of_N (Pos.of_uint u)).
Proof.
  intros N X S. pose proof (read_unsigned_digits u rest N X S) as R.
  split.
  - rewrite <- R. clear R.
    destruct u as [ | u | u | u | u | u | u | u | u | u | u];
      [ contradiction | reflexivity .. ].
  - rewrite integer_read_minus, R. reflexivity.
Qed.

(** Reading is the inverse of printing: the decimal text of a whole
    number, followed by anything that does not go on with the number, is
    read as that number. *)
Lemma integer_read_show (n : Z) (rest : string) :
  ends_number n rest = true -> integer_read (show n ++ rest) = Some n.
Proof.
  unfold ends_number. intros E. apply andb_true_iff in E.
  destruct E as [S X]. apply negb_true_iff in X.
  unfold show. destruct n as [ | p | p].
  - simpl in X.
    apply (integer_read_digits (Decimal.D0 Decimal.Nil) rest);
      [ discriminate | intros _; exact X | exact S ].
  - simpl Z.to_int. cbn [NilZero.string_of_int].
    rewrite (NilZero_nonnil _ (Unsigned.to_uint_nonnil p)).
    rewrite (proj1 (integer_read_digits _ rest (Unsigned.to_uint_nonnil p)
                      (fun E => match to_uint_not_zero p E with end) S)).
    rewrite DecimalPos.Unsigned.of_to. reflexivity.
  - simpl Z.to_int. cbn [NilZero.string_of_int].
    rewrite (NilZero_nonnil _ (Unsigned.to_uint_nonnil p)).
    change (String "-" (NilEmpty.string_of_uint (Pos.to_uint p)) ++ rest)
      with (String "-" (NilEmpty.string_of_uint (Pos.to_uint p) ++ rest)).
    rewrite (proj2 (integer_read_digits _ rest (Unsigned.to_uint_nonnil p)
                      (fun E => match to_uint_not_zero p E with end) S)).
    rewrite DecimalPos.Unsigned.of_to. reflexivity.
Qed.

Lemma sample_years (n : Z) (fs : list BaselineFeature) :
  In (n, fs) getSampleBaselineData ->
  (n = 2022 \/ n = 2023 \/ n = 2024) /\ fs <> []
  /\ JS.map_get Z.eqb n getSampleBaselineData = Some fs.
Proof.
  unfold getSampleBaselineData. simpl.
  intros [E | [E | [E | []]]]; injection E as <- <-;
    (split; [ tauto | split; [ discriminate | reflexivity ] ]).
Qed.

(** X17. The route [/api/baseline/:year] answers 200 with the Number that
    [parseInt] reads at the head of the parameter and the entries of that
    year. In a process of the server the entries are not empty exactly
    when that Number is one of the bundled years, and they are then the
    bundled entries of the year; the Number is [NaN] exactly when the
    parameter has no number at its head, and there are no entries then,
    nor for a number that the host rounds to another one or to an
    infinity. The decimal text of a whole number up to 2^53
    in magnitude is read as that number, whatever follows it that does not
    go on with the number, and whatever way the host rounds. *)
Theorem X17_baseline_route (R : Rounding) (s : Sse.Server) (y : string) :
  Reachable (Sse.dataLoader s) ->
  (exists fs,
     snd (Sse.api_baseline R s y)
     = Sse.reply 200 (Sse.BaselineBody (parseInt R y) fs)
     /\ (fs <> [] <->
         exists n, parseInt R y = Finite n
                   /\ In (n, fs) getSampleBaselineData)
     /\ (integer_read y = None -> parseInt R y = NotANumber /\ fs = [])
     /\ (parseInt R y = NotANumber -> integer_read y = None))
  /\ (forall n rest,
        - 2 ^ 53 <= n <= 2 ^ 53 -> ends_number n rest = true ->
        y = show n ++ rest ->
        parseInt R y = Finite n
        /\ snd (Sse.api_baseline R s y)
           = Sse.reply 200
               (Sse.BaselineBody (Finite n)
                  (getBaselineFeatures
                     (loadBaselineData (Sse.dataLoader s)) n))).
Proof.
  intros Re. split.
  - exists (Sse.getBaselineFeatures_num (loadBaselineData (Sse.dataLoader s))
              (parseInt R y)).
    split; [ reflexivity | ]. split.
    + unfold Sse.getBaselineFeatures_num, getBaselineFeatures.
      rewrite (loadBaselineData_sample _ Re).
      destruct (parseInt R y) as [n | | neg].
      * destruct (JS.map_get Z.eqb n getSampleBaselineData) as [l | ] eqn:G.
        -- split.
           ++ intros _. exists n. split; [ reflexivity | ].
              apply (assoc_get_In Z.eqb Z.eqb_eq). exact G.
           ++ intros (m & E & I). injection E as <-.
              destruct (sample_years n l I) as (_ & NE & _). exact NE.
        -- split; [ intros NE; destruct NE; reflexivity | ].
           intros (m & E & I). injection E as <-.
           destruct (sample_years n [] I) as (_ & _ & G').
           rewrite G' in G. discriminate G.
      * split; [ intros NE; destruct NE; reflexivity | ].
        intros (m & E & _). discriminate E.
      * split; [ intros NE; destruct NE; reflexivity | ].
        intros (m & E & _). discriminate E.
    + split.
      * intros N. unfold parseInt. rewrite N. split; reflexivity.
      * unfold parseInt. destruct (integer_read y) as [z | ];
          [ | reflexivity ].
        intros N. destruct (to_number_defined R z N).
  - intros n rest Safe E ->.
    assert (parseInt R (show n ++ rest) = Finite n) as P.
    { unfold parseInt. rewrite (integer_read_show n rest E).
      apply to_number_safe. exact Safe. }
    split; [ exact P | ].
    unfold Sse.api_baseline. rewrite P. reflexivity.
Qed.

Lemma X17_baseline_route_witness :
  Reachable (Sse.dataLoader Sse.new_Server)
  /\ - 2 ^ 53 <= 2024 <= 2 ^ 53
  /\ ends_number 2024 "abc" = true
  /\ "2024abc" = show 2024 ++ "abc"
  /\ snd (Sse.api_baseline nearest_even Sse.new_Server "2024abc")
     = Sse.reply 200
         (Sse.BaselineBody (Finite 2024)
            [sample_entry "css-has-selector" 2024 "Q1"
                          "CSS :has() pseudo-class selector"])
  /\ snd (Sse.api_baseline nearest_even Sse.new_Server "next")
     = Sse.reply 200 (Sse.BaselineBody NotANumber [])
  /\ parseInt nearest_even "9007199254740993" = Finite 9007199254740992
  /\ parseInt nearest_even "0x7E8" = Finite 2024.
Proof.
  split; [ exact reach_new | ].
  assert (- 2 ^ 53 <= 2024 <= 2 ^ 53) as Safe by (split; discriminate).
  split; [ exact Safe | ].
  split; [ reflexivity | ]. split; [ reflexivity | ].
  split.
  - destruct (X17_baseline_route nearest_even Sse.new_Server "2024abc"
                reach_new) as (_ & Printed).
    destruct (Printed 2024 "abc" Safe eq_refl eq_refl) as (_ & E).
    rewrite E. reflexivity.
  - split; [ | split; vm_compute; reflexivity ].
    destruct (X17_baseline_route nearest_even Sse.new_Server "next"
                reach_new) as ((fs & E & _ & None_read & _) & _).
    destruct (None_read eq_refl) as (P & F).
    rewrite E. rewrite F. f_equal.
Defined.

(* ================================================================== *)
(** * [start] of the HTTP server *)
(* ================================================================== *)

Lemma start_from_outcome (listen : Z -> Sse.Listen) (fuel : nat) :
  forall p, 0 <= p <= 65536 -> 65536 - p < Z.of_nat fuel ->
  exists r, Sse.start_from listen fuel p = Some r
            /\ start_outcome listen p r.
Proof.
  induction fuel as [ | f IH]; intros p R F; [ lia | ].
  cbn [Sse.start_from].
  destruct (Z.ltb_spec p 0) as [ | _]; [ lia | ]. cbn [orb].
  destruct (Z.ltb_spec 65535 p) as [Hi | Lo].
  - exists (Sse.BadPort p). split; [ reflexivity | ].
    split; [ lia | intros k K; lia ].
  - destruct (listen p) eqn:L.
    + exists (Sse.Bound p). split; [ reflexivity | ].
      repeat split; try lia; try exact L; try (intros k K; lia).
    + destruct (IH (p + 1)) as (r & E & O); [ lia | lia | ].
      exists r. split; [ exact E | ].
      assert (forall q k, (forall j, p + 1 <= j < q ->
                                     listen j = Sse.AddressInUse) ->
                          p <= k < q -> listen k = Sse.AddressInUse) as Ext.
      { intros q k A K. destruct (Z.eq_dec k p) as [-> | N];
          [ exact L | apply A; lia ]. }
      destruct r as [q | q | q]; cbn [start_outcome] in *.
      * destruct O as (B & Li & A).
        split; [ lia | split; [ exact Li | ] ].
        intros k K. exact (Ext q k A K).
      * destruct O as (B & Li & A).
        split; [ lia | split; [ exact Li | ] ].
        intros k K. exact (Ext q k A K).
      * destruct O as (-> & A). split; [ reflexivity | ].
        intros k K. apply (Ext 65536 k); [ | lia ].
        intros j J. apply A. lia.
    + exists (Sse.Failed p). split; [ reflexivity | ].
      repeat split; try lia; try exact L; try (intros k K; lia).
Qed.

(** X18. [start(port)] of the HTTP server comes to an end for every port
    and every state of the ports: from a port of 0..65535 it binds the
    first port from [port] on that is not in use, all the ports before it
    being in use, or stops at the first port whose error is another one;
    when every port up to 65535 is in use it ends in the call of [listen]
    on 65536, which throws. *)
Theorem X18_start_first_free (listen : Z -> Sse.Listen) (p : Z) :
  0 <= p <= 65535 ->
  exists r, Sse.start listen p = Some r /\ start_outcome listen p r.
Proof.
  intros R. unfold Sse.start. apply start_from_outcome; lia.
Qed.

Lemma X18_start_first_free_witness :
  0 <= 3001 <= 65535
  /\ Sse.start (fun q => if q <? 3003 then Sse.AddressInUse
                         else Sse.Listening) 3001
     = Some (Sse.Bound 3003)
  /\ Sse.start (fun _ => Sse.AddressInUse) 65530 = Some (Sse.BadPort 65536).
Proof.
  split; [ lia | ].
  destruct (X18_start_first_free
              (fun q => if q <? 3003 then Sse.AddressInUse
                        else Sse.Listening) 3001) as (r & E & O); [ lia | ].
  split; [ | reflexivity ].
  rewrite E. f_equal.
  destruct r as [q | q | q]; cbn [start_outcome] in O.
  - destruct O as (B & Li & A). f_equal.
    destruct (Z.ltb_spec q 3003) as [Lt | Ge]; [ discriminate Li | ].
    destruct (Z.eq_dec q 3003) as [-> | N]; [ reflexivity | ].
    specialize (A 3003). simpl in A. discriminate A. lia.
  - destruct O as (_ & Li & _).
    destruct (q <? 3003); discriminate Li.
  - destruct O as (_ & A). specialize (A 3003). simpl in A.
    discriminate A. lia.
Defined.

(* ================================================================== *)
(** * The comparison, through the tools and through the route *)
(* ================================================================== *)

Lemma compareFeatures_cast_cached (h : JS.Host) (fa fb : FeatureData) :
  compareFeatures_cast h (Cached fa) (Cached fb)
  = Returned (of_result (compareFeatures h fa fb)).
Proof. reflexivity. Qed.

Lemma getFeature_bundled_shape (st : DataLoader) (n : string) :
  featuresMap st = None ->
  getFeature st n = None \/ exists f, getFeature st n = Some (Cached f).
Proof.
  intros FM. unfold getFeature. rewrite FM.
  destruct (or_obj _ _) as [f | ]; [ right; exists f | left ]; reflexivity.
Qed.

Lemma getFeature_loadBaselineData (st : DataLoader) (n : string) :
  getFeature (loadBaselineData st) n = getFeature st n.
Proof. reflexivity. Qed.

(** X19. The three ways to a comparison agree. On the store [d] that the
    load leaves, the route [/api/compare/:a/:b] answers 200 with the
    comparison exactly when the tool [compareSupport] of either server
    returns that comparison, 404 exactly when the tool returns its
    sentence [One or both features not found], and 500 exactly when the
    tool throws, which happens when a value that [getFeature] returned has
    no support matrix. For two cached records the comparison is the one
    [compareFeatures] computes, and while no external features are in
    place the route never answers 500. *)
Theorem X19_comparison_paths (h : JS.Host) (s : Sse.Server) (env : Env)
  (a b : string) :
  let d := fst (load (Sse.dataLoader s) env) in
  let tool_reply := comparison_reply h d (Some a) (Some b) in
  let args :=
    Some {| featureName := None; arg_year := None;
            arg_featureA := Some a; arg_featureB := Some b;
            arg_query := None; arg_limit := None |} in
  Sse.api_compare h s env a b
  = (Sse.set_dataLoader d s,
     match tool_reply with
     | Returned (ComparisonJson c) => Sse.reply 200 (Sse.ComparisonBody c)
     | Returned _ =>
         Sse.reply 404 (Sse.ErrorBody "One or both features not found")
     | Raised _ => Sse.reply 500 (Sse.ErrorBody "Internal server error")
     end)
  /\ Mcp.compareSupport h (Sse.dataLoader s) env (Some a) (Some b)
     = (d, tool_reply)
  /\ Sse.handleToolCall h (Sse.dataLoader s) env
       (Some {| tool := Some "compareSupport"; arguments := args |})
     = (loadBaselineData d, tool_reply)
  /\ (tool_reply = Raised TypeError
      <-> exists x y,
            getFeature d a = Some x /\ getFeature d b = Some y
            /\ (found_support x = None \/ found_support y = None))
  /\ (forall fa fb,
        getFeature d a = Some (Cached fa) ->
        getFeature d b = Some (Cached fb) ->
        tool_reply
        = Returned (ComparisonJson (of_result (compareFeatures h fa fb))))
  /\ (featuresMap d = None -> forall e, tool_reply <> Raised e).
Proof.
  intros d tool_reply args.
  destruct (load_fulfilled (Sse.dataLoader s) env) as (st1 & L & _).
  assert (d = st1) as D by (unfold d; rewrite L; reflexivity).
  clearbody d. subst st1.
  split; [ | split; [ | split; [ | split; [ | split ] ] ] ].
  - unfold Sse.api_compare. rewrite L. f_equal.
    unfold tool_reply, comparison_reply, getFeature_arg.
    destruct (getFeature d a) as [x | ]; [ | reflexivity ].
    destruct (getFeature d b) as [y | ]; [ | reflexivity ].
    destruct (compareFeatures_cast h x y); reflexivity.
  - unfold Mcp.compareSupport. rewrite L. reflexivity.
  - unfold Sse.handleToolCall. rewrite L. reflexivity.
  - unfold tool_reply, comparison_reply, getFeature_arg.
    destruct (getFeature d a) as [x | ];
      [ | split; [ discriminate
                 | intros (x' & y' & X & _); discriminate X ] ].
    destruct (getFeature d b) as [y | ];
      [ | split; [ discriminate
                 | intros (x' & y' & _ & Y & _); discriminate Y ] ].
    + unfold compareFeatures_cast.
      destruct (found_support x) as [sa | ] eqn:SA,
               (found_support y) as [sb | ] eqn:SB.
      * split; [ discriminate | ].
        intros (x' & y' & X & Y & [N | N]).
        -- injection X as <-. rewrite SA in N. discriminate N.
        -- injection Y as <-. rewrite SB in N. discriminate N.
      * split; [ intros _ | reflexivity ].
        exists x, y. rewrite SB. tauto.
      * split; [ intros _ | reflexivity ].
        exists x, y. rewrite SA. tauto.
      * split; [ intros _ | reflexivity ].
        exists x, y. rewrite SA. tauto.
  - intros fa fb A B. unfold tool_reply, comparison_reply, getFeature_arg.
    rewrite A, B, compareFeatures_cast_cached. reflexivity.
  - intros FM e. unfold tool_reply, comparison_reply, getFeature_arg.
    destruct (getFeature_bundled_shape d a FM) as [-> | (fa & ->)];
      [ discriminate | ].
    destruct (getFeature_bundled_shape d b FM) as [-> | (fb & ->)];
      [ discriminate | ].
    rewrite compareFeatures_cast_cached. discriminate.
Qed.

Lemma X19_comparison_paths_witness :
  featuresMap (fst (load (Sse.dataLoader Sse.new_Server)
                         {| imported := None; gate_time := 5;
                            load_time := 7 |})) = None
  /\ (exists c,
        snd (Sse.api_compare utc Sse.new_Server
               {| imported := None; gate_time := 5; load_time := 7 |}
               "css-has-selector" "offscreen-canvas")
        = Sse.reply 200 (Sse.ComparisonBody c)
        /\ c_baselineDifference c
           = Some {| yearDiff := JS.Int 1; aFirst := false |})
  /\ snd (Sse.api_compare utc Sse.new_Server
            {| imported := Some exports_sound; gate_time := 5;
               load_time := 7 |}
            "toString" "popover")
     = Sse.reply 500 (Sse.ErrorBody "Internal server error").
Proof.
  split; [ reflexivity | ]. split; [ | reflexivity ].
  pose proof (X19_comparison_paths utc Sse.new_Server
                {| imported := None; gate_time := 5; load_time := 7 |}
                "css-has-selector" "offscreen-canvas") as P.
  cbv zeta in P. destruct P as (Route & _ & _ & _ & _ & Never).
  specialize (Never eq_refl). rewrite Route.
  eexists. split; reflexivity.
Defined.

(* ================================================================== *)
(** * The endpoint [POST /] and the sessions *)
(* ================================================================== *)

Lemma map_delete_set {V : Type} (k : string) (v : V)
  (m : list (string * V)) :
  Sse.map_delete k (JS.map_set String.eqb k v m) = Sse.map_delete k m.
Proof.
  induction m as [ | [k' v'] m IH]; simpl.
  - rewrite String.eqb_refl. reflexivity.
  - destruct (String.eqb k k') eqn:E; simpl.
    + rewrite String.eqb_refl. reflexivity.
    + rewrite E, IH. reflexivity.
Qed.

Lemma map_delete_absent {V : Type} (k : string) (m : list (string * V)) :
  JS.map_get String.eqb k m = None -> Sse.map_delete k m = m.
Proof.
  induction m as [ | [k' v'] m IH]; simpl; [ reflexivity | ].
  destruct (String.eqb k k'); [ discriminate | ].
  intros G. rewrite (IH G). reflexivity.
Qed.

Lemma map_get_delete {V : Type} (k : string) (m : list (string * V)) :
  NoDup (map fst m) ->
  JS.map_get String.eqb k (Sse.map_delete k m) = None.
Proof.
  induction m as [ | [k' v'] m IH]; simpl; intros N; [ reflexivity | ].
  inversion N as [ | ? ? NI N']; subst.
  destruct (String.eqb_spec k k') as [-> | NE].
  - clear IH N N'. induction m as [ | [k2 v2] m IH]; [ reflexivity | ].
    simpl in *. destruct (String.eqb_spec k' k2) as [-> | _];
      [ tauto | apply IH; tauto ].
  - simpl. rewrite (proj2 (String.eqb_neq k k') NE). exact (IH N').
Qed.

Lemma map_get_set_here {V : Type} (k : string) (v : V)
  (m : list (string * V)) :
  JS.map_get String.eqb k (JS.map_set String.eqb k v m) = Some v.
Proof.
  induction m as [ | [k' v'] m IH]; simpl.
  - rewrite String.eqb_refl. reflexivity.
  - destruct (String.eqb k k') eqn:E; simpl.
    + rewrite String.eqb_refl. reflexivity.
    + rewrite E. exact IH.
Qed.

(** X20. A session lives from [initialize] to [DELETE]. A [POST /] whose
    body is read as a request with the method [initialize], and that
    passes the checks of the origin and of the protocol version, answers
    200 with the new session id in the
    header [Mcp-Session-Id] and records the session under that id. A
    [DELETE /] with that id then answers 200 and removes the session and
    the client of that id, leaving the sessions as they were before (but
    for a session of the same id, which is gone); the data and the event
    counter are not touched. A second [DELETE /] with the id answers 404
    and changes nothing. *)
Theorem X20_session_round_trip (h : JS.Host) (s : Sse.Server) (env : Env)
  (r : Sse.Entropy) (hd hd' : Sse.Headers) (request : Sse.Request) :
  NoDup (map fst (Sse.sessions s)) ->
  Sse.validateOrigin (Sse.Origin hd) = None ->
  mem (or_default (Sse.MCP_Protocol_Version hd) "2025-03-26")
      Sse.supported_versions = true ->
  Sse.method request = Some "initialize" ->
  Sse.Mcp_Session_Id hd' = Some (Sse.newSessionId r) ->
  let sid := Sse.newSessionId r in
  let s1 := fst (Sse.post h s env r hd (Sse.Read (Some request))) in
  let rep1 :=
    snd (Sse.post h s env r hd (Sse.Read (Some request))) in
  let s2 := fst (Sse.delete_root s1 hd') in
  Sse.status_code rep1 = 200
  /\ Sse.session_header rep1 = Some sid
  /\ JS.map_get String.eqb sid (Sse.sessions s1)
     = Some {| Sse.session_id := sid; Sse.created := Sse.created_time r |}
  /\ Sse.dataLoader s1 = Sse.dataLoader s
  /\ snd (Sse.delete_root s1 hd') = Sse.reply 200 Sse.NoBody
  /\ Sse.sessions s2 = Sse.map_delete sid (Sse.sessions s)
  /\ (JS.map_get String.eqb sid (Sse.sessions s) = None ->
      Sse.sessions s2 = Sse.sessions s)
  /\ Sse.clients s2 = Sse.map_delete sid (Sse.clients s)
  /\ Sse.dataLoader s2 = Sse.dataLoader s
  /\ Sse.eventCounter s2 = Sse.eventCounter s1
  /\ Sse.delete_root s2 hd'
     = (s2, Sse.reply 404 (Sse.ErrorBody "Session not found")).
Proof.
  intros ND O V M H' sid s1 rep1 s2.
  assert (exists n,
            Sse.post h s env r hd (Sse.Read (Some request))
            = ({| Sse.dataLoader := Sse.dataLoader s;
                  Sse.clients := Sse.clients s;
                  Sse.sessions :=
                    JS.map_set String.eqb sid
                      {| Sse.session_id := sid;
                         Sse.created := Sse.created_time r |}
                      (Sse.sessions s);
                  Sse.eventCounter := n |},
               {| Sse.status_code := 200; Sse.session_header := Some sid;
                  Sse.body :=
                    match JS.includes
                            (or_default (Sse.Accept hd) "")
                            "text/event-stream" with
                    | true =>
                        Sse.EventStream
                          ("event-" ++ show (Sse.eventCounter s + 1))
                          (Sse.answer (Sse.id request)
                             (Sse.Initialized "2025-06-18"
                                "web-baseline-server" "1.0.0"))
                    | false =>
                        Sse.JsonBody
                          (Sse.answer (Sse.id request)
                             (Sse.Initialized "2025-06-18"
                                "web-baseline-server" "1.0.0"))
                    end |})) as (n & P).
  { unfold Sse.post, Sse.post_root. rewrite O, V, M. cbn [negb].
    change (JS.or_str (Some "initialize") None) with (Some "initialize").
    unfold Sse.handleMCPRequest. rewrite M.
    change (is_case (Some "initialize") "initialize") with true.
    cbv iota.
    destruct (JS.includes _ _); eexists; reflexivity. }
  assert (Sse.sessions s1
          = JS.map_set String.eqb sid
              {| Sse.session_id := sid; Sse.created := Sse.created_time r |}
              (Sse.sessions s)) as S1
      by (unfold s1; rewrite P; reflexivity).
  assert (JS.map_get String.eqb sid (Sse.sessions s1)
          = Some {| Sse.session_id := sid;
                    Sse.created := Sse.created_time r |}) as G1
      by (rewrite S1; apply map_get_set_here).
  assert (Sse.delete_root s1 hd'
          = ({| Sse.dataLoader := Sse.dataLoader s1;
                Sse.clients := Sse.map_delete sid (Sse.clients s1);
                Sse.sessions := Sse.map_delete sid (Sse.sessions s1);
                Sse.eventCounter := Sse.eventCounter s1 |},
             Sse.reply 200 Sse.NoBody)) as D1.
  { unfold Sse.delete_root. rewrite H'. fold sid.
    unfold Sse.map_has. rewrite G1. reflexivity. }
  assert (Sse.sessions s2 = Sse.map_delete sid (Sse.sessions s)) as S2.
  { unfold s2. rewrite D1. cbn [fst Sse.sessions].
    rewrite S1. apply map_delete_set. }
  repeat split.
  - unfold rep1. rewrite P. reflexivity.
  - unfold rep1. rewrite P. reflexivity.
  - exact G1.
  - unfold s1. rewrite P. reflexivity.
  - rewrite D1. reflexivity.
  - exact S2.
  - intros G. rewrite S2. apply map_delete_absent. exact G.
  - unfold s2. rewrite D1. cbn [fst Sse.clients].
    unfold s1. rewrite P. reflexivity.
  - unfold s2. rewrite D1. cbn [fst Sse.dataLoader].
    unfold s1. rewrite P. reflexivity.
  - unfold s2. rewrite D1. reflexivity.
  - unfold Sse.delete_root. rewrite H'. fold sid.
    unfold Sse.map_has. rewrite S2.
    rewrite (map_get_delete sid (Sse.sessions s) ND).
    rewrite andb_false_r. reflexivity.
Qed.

Lemma X20_session_round_trip_witness :
  let r := {| Sse.id_time := 1700000000000; Sse.random := "k3j9x2q1z";
              Sse.created_time := 1700000000001 |} in
  let hd := {| Sse.Origin := Some "http://localhost:5173";
               Sse.Mcp_Session_Id := None;
               Sse.MCP_Protocol_Version := None;
               Sse.Accept := Some "application/json" |} in
  let hd' := {| Sse.Origin := None;
                Sse.Mcp_Session_Id :=
                  Some "session-1700000000000-k3j9x2q1z";
                Sse.MCP_Protocol_Version := None;
                Sse.Accept := None |} in
  let request := {| Sse.method := Some "initialize"; Sse.params := None;
                    Sse.id := Sse.IdNumber 1 |} in
  let env := {| imported := None; gate_time := 5; load_time := 7 |} in
  NoDup (map fst (Sse.sessions Sse.new_Server))
  /\ Sse.validateOrigin (Sse.Origin hd) = None
  /\ mem (or_default (Sse.MCP_Protocol_Version hd) "2025-03-26")
         Sse.supported_versions = true
  /\ Sse.method request = Some "initialize"
  /\ Sse.Mcp_Session_Id hd' = Some (Sse.newSessionId r)
  /\ Sse.sessions
       (fst (Sse.delete_root
               (fst (Sse.post utc Sse.new_Server env r hd
                       (Sse.Read (Some request)))) hd'))
     = [].
Proof.
  intros r hd hd' request env.
  assert (NoDup (map fst (Sse.sessions Sse.new_Server))) as ND
      by constructor.
  split; [ exact ND | ]. split; [ reflexivity | ].
  split; [ reflexivity | ]. split; [ reflexivity | ].
  split; [ reflexivity | ].
  pose proof (X20_session_round_trip utc Sse.new_Server env r hd hd'
                request ND eq_refl eq_refl eq_refl eq_refl) as P.
  cbv zeta in P.
  destruct P as (_ & _ & _ & _ & _ & _ & Fresh & _).
  exact (Fresh eq_refl).
Defined.

(** The reply of [handleMCPRequest] and what it leaves alone. *)
Lemma handleMCPRequest_frame (h : JS.Host) (s : Sse.Server) (env : Env)
  (r : Sse.Entropy) (request : Sse.Request) :
  exists st' resp sid,
    Sse.handleMCPRequest h s env r request = (st', (resp, sid))
    /\ Sse.jsonrpc resp = "2.0"
    /\ Sse.response_id resp = Sse.id request
    /\ Sse.clients st' = Sse.clients s
    /\ Sse.eventCounter st' = Sse.eventCounter s
    /\ (Sse.method request <> Some "initialize" ->
        Sse.sessions st' = Sse.sessions s /\ sid = None)
    /\ (Sse.method request <> Some "tools/call" ->
        Sse.dataLoader st' = Sse.dataLoader s).
Proof.
  unfold Sse.handleMCPRequest, is_case.
  destruct (Sse.method request) as [n | ].
  - destruct (String.eqb_spec n "initialize") as [-> | N1].
    { do 3 eexists. split; [ reflexivity | ].
      repeat split; try reflexivity; congruence. }
    destruct (String.eqb_spec n "tools/list") as [-> | N2].
    { do 3 eexists. split; [ reflexivity | ]. repeat split; reflexivity. }
    destruct (String.eqb_spec n "tools/call") as [-> | N3].
    { destruct (Sse.handleToolCall h (Sse.dataLoader s) env
                  (Sse.params request)) as [d [t | e]];
        do 3 eexists; (split; [ reflexivity | ]);
        repeat split; try reflexivity; congruence. }
    do 3 eexists. split; [ reflexivity | ]. repeat split; reflexivity.
  - do 3 eexists. split; [ reflexivity | ]. repeat split; reflexivity.
Qed.

(** X21. What [POST /] does to the server. When the parser of the body
    fails, the answer has the status of its error, whatever the origin,
    and nothing else happens. Once the body is read, the answer is 403,
    400, 500, 202 or 200: 403 exactly when the origin is refused, then 400
    for a protocol version that is not supported, then 500, with the
    error -32603 and the id [null], for a body that the parser left
    undefined, then 202 for a message without a method. None of these
    changes the server or names a session. An answer 200 carries the reply
    to the request with the [id] of the request; the clients are never
    touched, the sessions only by [initialize], the data only by
    [tools/call], and the event counter goes up by one exactly when the
    reply is sent as an event stream, whose event id is the new count. *)
Theorem X21_post_gate (h : JS.Host) (s : Sse.Server) (env : Env)
  (r : Sse.Entropy) (hd : Sse.Headers) (payload : Sse.Payload) :
  let s1 := fst (Sse.post h s env r hd payload) in
  let rep := snd (Sse.post h s env r hd payload) in
  let stream :=
    JS.includes (or_default (Sse.Accept hd) "") "text/event-stream" in
  let version_ok :=
    mem (or_default (Sse.MCP_Protocol_Version hd) "2025-03-26")
        Sse.supported_versions in
  let origin_ok := Sse.validateOrigin (Sse.Origin hd) = None in
  (forall status,
     payload = Sse.Unreadable status ->
     s1 = s /\ rep = Sse.reply status Sse.ErrorPage)
  /\ (forall content,
        payload = Sse.Read content ->
        In (Sse.status_code rep) [200; 202; 400; 403; 500]
        /\ (Sse.status_code rep = 403 <-> ~ origin_ok)
        /\ (Sse.status_code rep = 400
            <-> origin_ok /\ version_ok = false)
        /\ (Sse.status_code rep = 500
            <-> origin_ok /\ version_ok = true /\ content = None)
        /\ (Sse.status_code rep = 202
            <-> origin_ok /\ version_ok = true
                /\ exists request,
                     content = Some request
                     /\ JS.or_str (Sse.method request) None = None)
        /\ (Sse.status_code rep <> 200 ->
            s1 = s /\ Sse.session_header rep = None)
        /\ (Sse.status_code rep = 500 ->
            Sse.body rep
            = Sse.JsonBody
                (Sse.answer Sse.IdNull
                   (Sse.RpcError (-32603) "Internal error"
                                 (Some TypeError))))
        /\ (Sse.status_code rep = 200 ->
            exists request resp,
              content = Some request
              /\ Sse.body rep
                 = (if stream
                    then Sse.EventStream
                           ("event-" ++ show (Sse.eventCounter s + 1)) resp
                    else Sse.JsonBody resp)
              /\ Sse.jsonrpc resp = "2.0"
              /\ Sse.response_id resp = Sse.id request
              /\ Sse.eventCounter s1
                 = (if stream then Sse.eventCounter s + 1
                    else Sse.eventCounter s)
              /\ (Sse.method request <> Some "initialize" ->
                  Sse.sessions s1 = Sse.sessions s
                  /\ Sse.session_header rep = None)
              /\ (Sse.method request <> Some "tools/call" ->
                  Sse.dataLoader s1 = Sse.dataLoader s)))
  /\ Sse.clients s1 = Sse.clients s.
Proof.
  intros s1 rep stream version_ok origin_ok.
  unfold s1, rep, origin_ok, Sse.post. clear s1 rep origin_ok.
  destruct payload as [status | content].
  { split; [ intros st E; injection E as <-; split; reflexivity | ].
    split; [ intros c E; discriminate E | reflexivity ]. }
  split; [ intros st E; discriminate E | ].
  assert (forall (P : option Sse.Request -> Prop),
            P content ->
            forall c, Sse.Read content = Sse.Read c -> P c) as Same
      by (intros P H c E; injection E as <-; exact H).
  destruct (Sse.validateOrigin (Sse.Origin hd)) as [[code error] | ] eqn:O.
  { assert (code = 403) as ->.
    { unfold Sse.validateOrigin in O.
      destruct (Sse.Origin hd) as [o | ]; [ | discriminate O ].
      destruct (_ && _); [ | discriminate O ].
      injection O as <- _. reflexivity. }
    cbn [fst snd Sse.reply Sse.status_code Sse.session_header Sse.body].
    split; [ | reflexivity ]. apply Same.
    split; [ simpl; tauto | ].
    split; [ split; [ discriminate | reflexivity ] | ].
    split; [ split; [ discriminate | intros (E & _); discriminate E ] | ].
    split; [ split; [ discriminate | intros (E & _); discriminate E ] | ].
    split; [ split; [ discriminate | intros (E & _); discriminate E ] | ].
    split; [ intros _; split; reflexivity | ].
    split; discriminate. }
  unfold Sse.post_root. fold version_ok.
  destruct version_ok.
  2:{ cbn [negb fst snd Sse.reply Sse.status_code Sse.session_header
           Sse.body].
      split; [ | reflexivity ]. apply Same.
      split; [ simpl; tauto | ].
      split; [ split; [ discriminate | intros E; destruct E; reflexivity ] | ].
      split; [ split; [ split; reflexivity | reflexivity ] | ].
      split; [ split; [ discriminate | intros (_ & E & _); discriminate E ]
             | ].
      split; [ split; [ discriminate | intros (_ & E & _); discriminate E ]
             | ].
      split; [ intros _; split; reflexivity | ].
      split; discriminate. }
  cbn [negb].
  destruct content as [request | ].
  2:{ cbn [fst snd Sse.internal_error Sse.reply Sse.status_code
           Sse.session_header Sse.body].
      split; [ | reflexivity ]. apply Same.
      split; [ simpl; tauto | ].
      split; [ split; [ discriminate | intros E; destruct E; reflexivity ] | ].
      split; [ split; [ discriminate | intros (_ & E); discriminate E ] | ].
      split; [ split; [ repeat split | reflexivity ] | ].
      split; [ split; [ discriminate
                      | intros (_ & _ & q & E & _); discriminate E ] | ].
      split; [ intros _; split; reflexivity | ].
      split; [ reflexivity | discriminate ]. }
  destruct (JS.or_str (Sse.method request) None) as [m | ] eqn:M.
  2:{ cbn [fst snd Sse.reply Sse.status_code Sse.session_header Sse.body].
      split; [ | reflexivity ]. apply Same.
      split; [ simpl; tauto | ].
      split; [ split; [ discriminate | intros E; destruct E; reflexivity ] | ].
      split; [ split; [ discriminate | intros (_ & E); discriminate E ] | ].
      split; [ split; [ discriminate | intros (_ & _ & E); discriminate E ]
             | ].
      split; [ split; [ intros _ | reflexivity ] | ].
      { split; [ reflexivity | ]. split; [ reflexivity | ].
        exists request. split; [ reflexivity | exact M ]. }
      split; [ intros _; split; reflexivity | ].
      split; discriminate. }
  destruct (handleMCPRequest_frame h s env r request)
    as (st' & resp & sid & -> & J & I & C & EC & Ses & Dat).
  fold stream.
  destruct stream; cbn [fst snd Sse.status_code];
    (split; [ | exact C ]); apply Same;
    (split; [ simpl; tauto | ]);
    (split; [ split; [ discriminate | intros E; destruct E; reflexivity ]
            | ]);
    (split; [ split; [ discriminate | intros (_ & E); discriminate E ] | ]);
    (split; [ split; [ discriminate
                     | intros (_ & _ & E); discriminate E ] | ]);
    (split; [ split; [ discriminate
                     | intros (_ & _ & q & E & F); injection E as <-;
                       rewrite F in M; discriminate M ] | ]);
    (split; [ intros E; destruct E; reflexivity | ]);
    (split; [ discriminate | ]);
    intros _; exists request, resp;
    cbn [Sse.body Sse.eventCounter Sse.sessions Sse.dataLoader
         Sse.session_header].
  - rewrite EC. split; [ reflexivity | ].
    split; [ reflexivity | ]. split; [ exact J | ]. split; [ exact I | ].
    split; [ reflexivity | ]. split; [ exact Ses | exact Dat ].
  - split; [ reflexivity | ].
    split; [ reflexivity | ]. split; [ exact J | ]. split; [ exact I | ].
    split; [ exact EC | ]. split; [ exact Ses | exact Dat ].
Qed.

Lemma X21_post_gate_witness :
  let r := {| Sse.id_time := 1700000000000; Sse.random := "k3j9x2q1z";
              Sse.created_time := 1700000000001 |} in
  let hd := {| Sse.Origin := Some "http://127.0.0.1:8080";
               Sse.Mcp_Session_Id := None;
               Sse.MCP_Protocol_Version := Some "2024-11-05";
               Sse.Accept := Some "application/json, text/event-stream" |} in
  let refused := {| Sse.Origin := Some "https://localhost";
                    Sse.Mcp_Session_Id := None;
                    Sse.MCP_Protocol_Version := Some "1999-01-01";
                    Sse.Accept := None |} in
  let request := {| Sse.method := Some "tools/list"; Sse.params := None;
                    Sse.id := Sse.IdString "a" |} in
  let env := {| imported := None; gate_time := 5; load_time := 7 |} in
  let p := Sse.post utc Sse.new_Server env r hd (Sse.Read (Some request)) in
  Sse.status_code (snd p) = 200
  /\ Sse.method request <> Some "initialize"
  /\ Sse.method request <> Some "tools/call"
  /\ Sse.sessions (fst p) = []
  /\ Sse.dataLoader (fst p) = new_DataLoader
  /\ Sse.eventCounter (fst p) = 1
  /\ Sse.post utc Sse.new_Server env r refused (Sse.Unreadable 400)
     = (Sse.new_Server, Sse.reply 400 Sse.ErrorPage)
  /\ Sse.status_code
       (snd (Sse.post utc Sse.new_Server env r refused
               (Sse.Read (Some request)))) = 403
  /\ Sse.status_code
       (snd (Sse.post utc Sse.new_Server env r hd (Sse.Read None))) = 500.
Proof.
  intros r hd refused request env p.
  assert (Sse.status_code (snd p) = 200) as OK by reflexivity.
  assert (Sse.method request <> Some "initialize") as N1 by discriminate.
  assert (Sse.method request <> Some "tools/call") as N2 by discriminate.
  pose proof (X21_post_gate utc Sse.new_Server env r hd
                (Sse.Read (Some request))) as G.
  cbv zeta in G. destruct G as (_ & Parsed & _).
  destruct (Parsed _ eq_refl) as (_ & _ & _ & _ & _ & _ & _ & Served).
  destruct (Served OK) as (q & resp & Q & _ & _ & _ & Count & Ses & Dat).
  injection Q as <-.
  split; [ exact OK | ]. split; [ exact N1 | ]. split; [ exact N2 | ].
  split; [ exact (proj1 (Ses N1)) | ]. split; [ exact (Dat N2) | ].
  split; [ exact Count | ].
  split.
  - pose proof (X21_post_gate utc Sse.new_Server env r refused
                  (Sse.Unreadable 400)) as U.
    cbv zeta in U. destruct U as (Fails & _).
    destruct (Fails 400 eq_refl) as (S0 & R0).
    apply injective_projections; assumption.
  - split; reflexivity.
Defined.

(* ================================================================== *)
(** * The store of a running server *)
(* ================================================================== *)

Lemma load_Reachable (st : DataLoader) (env : Env) :
  Reachable st -> Reachable (fst (load st env)).
Proof.
  intros R. destruct (load_fulfilled st env) as (st1 & -> & L).
  exact (reach_loadBCDData _ _ _ _ _ R L).
Qed.

Lemma handleToolCall_Reachable (h : JS.Host) (st : DataLoader) (env : Env)
  (p : option Params) :
  Reachable st -> Reachable (fst (Sse.handleToolCall h st env p)).
Proof.
  intros R. unfold Sse.handleToolCall. destruct p as [p | ]; [ | exact R ].
  pose proof (load_Reachable st env R) as R1.
  destruct (load st env) as [st1 [e | ]]; [ exact R1 | ].
  apply reach_loadBaselineData. exact R1.
Qed.

(** X22. The servers write their store through the two loads only: the
    store of a new server is that of a new [DataLoader], and every
    handler ([POST /], [DELETE /], the three routes under [/api], the
    tools of the stdio server and its [start]) leaves a store that a
    sequence of [loadBCDData] and [loadBaselineData] builds from it, so
    that what holds of every such store holds in every state of a
    server. (The tool [getFeatureSupport] of the stdio server is taken as
    it is, and left out.) *)
Theorem X22_server_store :
  Reachable (Sse.dataLoader Sse.new_Server)
  /\ (forall h R s env r hd payload n a b,
        Reachable (Sse.dataLoader s) ->
        Reachable (Sse.dataLoader (fst (Sse.post h s env r hd payload)))
        /\ Reachable (Sse.dataLoader (fst (Sse.delete_root s hd)))
        /\ Reachable (Sse.dataLoader (fst (Sse.api_features s env n)))
        /\ Reachable (Sse.dataLoader (fst (Sse.api_baseline R s n)))
        /\ Reachable (Sse.dataLoader (fst (Sse.api_compare h s env a b))))
  /\ (forall gfs h st env n args,
        Reachable st -> n <> "getFeatureSupport" ->
        Reachable (fst (Mcp.callTool gfs h st env n args))
        /\ Reachable (fst (Mcp.start st env))).
Proof.
  split; [ exact reach_new | ]. split.
  - intros h Ro s env r hd payload n a b R.
    split; [ | split; [ | split; [ | split ] ] ].
    + unfold Sse.post. destruct payload as [status | content]; [ exact R | ].
      destruct (Sse.validateOrigin _) as [[code error] | ]; [ exact R | ].
      unfold Sse.post_root. destruct (negb _); [ exact R | ].
      destruct content as [request | ]; [ | exact R ].
      destruct (JS.or_str _ _); [ | exact R ].
      assert (Reachable
                (Sse.dataLoader
                   (fst (Sse.handleMCPRequest h s env r request)))) as R1.
      { unfold Sse.handleMCPRequest.
        destruct (is_case _ "initialize"); [ exact R | ].
        destruct (is_case _ "tools/list"); [ exact R | ].
        destruct (is_case _ "tools/call"); [ | exact R ].
        pose proof (handleToolCall_Reachable h _ env (Sse.params request) R)
          as RT.
        destruct (Sse.handleToolCall _ _ _ _) as [d [t | e]]; exact RT. }
      destruct (Sse.handleMCPRequest h s env r request)
        as [s1 [response sid]].
      destruct (JS.includes _ _); exact R1.
    + unfold Sse.delete_root. destruct (Sse.Mcp_Session_Id hd) as [sid | ];
        [ | exact R ].
      destruct (_ && _); exact R.
    + unfold Sse.api_features.
      pose proof (load_Reachable _ env R) as R1.
      destruct (load _ env) as [d [e | ]]; exact R1.
    + apply reach_loadBaselineData. exact R.
    + unfold Sse.api_compare.
      pose proof (load_Reachable _ env R) as R1.
      destruct (load _ env) as [d [e | ]]; exact R1.
  - intros gfs h st env n args R N. split.
    + unfold Mcp.callTool.
      destruct (String.eqb_spec n "getFeatureSupport") as [E | _];
        [ contradiction | ].
      destruct (String.eqb n "findFeatureId").
      { unfold Mcp.findFeatureId.
        pose proof (load_Reachable _ env R) as R1.
        destruct (load _ env) as [d [e | ]]; exact R1. }
      destruct (String.eqb n "listBaselineFeatures").
      { apply reach_loadBaselineData. exact R. }
      destruct (String.eqb n "compareSupport"); [ | exact R ].
      unfold Mcp.compareSupport.
      pose proof (load_Reachable _ env R) as R1.
      destruct (load _ env) as [d [e | ]]; [ exact R1 | ].
      destruct (comparison_reply _ _ _ _); exact R1.
    + unfold Mcp.start.
      pose proof (load_Reachable _ env R) as R1.
      destruct (load _ env) as [d [e | ]]; [ exact R1 | ].
      apply reach_loadBaselineData. exact R1.
Qed.

Lemma X22_server_store_witness :
  let env := {| imported := Some exports_sound; gate_time := 4000000;
                load_time := 4000001 |} in
  let request :=
    {| Sse.method := Some "tools/call";
       Sse.params :=
         Some {| tool := Some "listBaselineFeatures"; arguments := None |};
       Sse.id := Sse.IdNumber 7 |} in
  let hd := {| Sse.Origin := None; Sse.Mcp_Session_Id := None;
               Sse.MCP_Protocol_Version := None; Sse.Accept := None |} in
  let r := {| Sse.id_time := 0; Sse.random := "a"; Sse.created_time := 0 |} in
  Reachable (Sse.dataLoader Sse.new_Server)
  /\ Sse.dataLoader
       (fst (Sse.post utc Sse.new_Server env r hd (Sse.Read (Some request))))
     <> new_DataLoader
  /\ Reachable
       (Sse.dataLoader
          (fst (Sse.post utc Sse.new_Server env r hd
                  (Sse.Read (Some request)))))
  /\ "findFeatureId" <> "getFeatureSupport"
  /\ Reachable
       (fst (Mcp.callTool (fun st _ _ => (st, Raised TypeError)) utc
               new_DataLoader env "findFeatureId" None)).
Proof.
  intros env request hd r.
  destruct X22_server_store as (New & Http & Stdio).
  split; [ exact New | ]. split; [ discriminate | ].
  split; [ | split; [ discriminate | ] ].
  - exact (proj1 (Http utc nearest_even Sse.new_Server env r hd
                    (Sse.Read (Some request)) "" "" "" New)).
  - apply Stdio; [ exact reach_new | discriminate ].
Defined.

(* ================================================================== *)
(** * The report of a feature and the comparison *)
(* ================================================================== *)

(** X23. The report of [getFeatureSupport] (HTTP server) and the
    comparison read the same data. When the tool reports both features, a
    report [Not in Baseline] has no year, and [compareSupport] on the same
    names never answers [not found]: it returns a comparison whose rows
    are the labels of the two reported support matrices and whose
    difference of years is computed from the two reported years, absent
    exactly when one report has no year; or it throws, exactly when one
    report has no support matrix. *)
Theorem X23_report_and_comparison (h : JS.Host) (st : DataLoader)
  (a b : string) (ra rb : Report) :
  Sse.getFeatureSupport h st (Some a) = Returned (FeatureJson ra) ->
  Sse.getFeatureSupport h st (Some b) = Returned (FeatureJson rb) ->
  (baselineStatus ra = "Not in Baseline" -> baselineYear ra = None)
  /\ match Sse.compareSupport h st (Some a) (Some b) with
     | Returned (ComparisonJson c) =>
         c_baselineDifference c
         = match baselineYear ra, baselineYear rb with
           | Some ya, Some yb =>
               Some {| yearDiff := JS.num_abs (JS.num_sub ya yb);
                       aFirst := JS.num_lt ya yb |}
           | _, _ => None
           end
         /\ exists sa sb,
              browserSupport ra = Some sa /\ browserSupport rb = Some sb
              /\ c_supportDifference c = map (row_of sa sb) browsers_tracked
     | Returned _ => False
     | Raised _ => browserSupport ra = None \/ browserSupport rb = None
     end.
Proof.
  unfold Sse.getFeatureSupport, Sse.compareSupport, comparison_reply,
    getFeature_arg.
  destruct (getFeature st a) as [x | ]; [ | discriminate ].
  destruct (getFeature st b) as [y | ]; [ | discriminate ].
  intros A B. injection A as <-. injection B as <-.
  cbn [baselineStatus baselineYear browserSupport]. split.
  - unfold found_high. destruct (found_baseline x); [ discriminate | ].
    reflexivity.
  - unfold compareFeatures_cast.
    destruct (found_support x) as [sa | ]; [ | left; reflexivity ].
    destruct (found_support y) as [sb | ]; [ | right; reflexivity ].
    cbn [c_baselineDifference c_supportDifference]. split.
    + destruct (found_high x), (found_high y); reflexivity.
    + exists sa, sb. repeat split; reflexivity.
Qed.

Lemma X23_report_and_comparison_witness :
  exists ra rb c,
    Sse.getFeatureSupport utc (bundled 5 7) (Some "CSS :has()")
    = Returned (FeatureJson ra)
    /\ Sse.getFeatureSupport utc (bundled 5 7) (Some "fetch-streaming")
       = Returned (FeatureJson rb)
    /\ baselineYear ra = Some (JS.Int 2023)
    /\ baselineYear rb = Some (JS.Int 2022)
    /\ Sse.compareSupport utc (bundled 5 7) (Some "CSS :has()")
         (Some "fetch-streaming")
       = Returned (ComparisonJson c)
    /\ c_baselineDifference c
       = Some {| yearDiff := JS.Int 1; aFirst := false |}.
Proof.
  do 3 eexists.
  split; [ reflexivity | ]. split; [ reflexivity | ].
  split; [ reflexivity | ]. split; [ reflexivity | ].
  split; [ reflexivity | ].
  pose proof (X23_report_and_comparison utc (bundled 5 7) "CSS :has()"
                "fetch-streaming" _ _ eq_refl eq_refl) as (_ & P).
  vm_compute in P. destruct P as (D & _). exact D.
Defined.

(* ================================================================== *)
(** * The event streams of the HTTP server *)
(* ================================================================== *)

Lemma map_set_length_present {V : Type} (k : string) (v v0 : V)
  (m : list (string * V)) :
  JS.map_get String.eqb k m = Some v0 ->
  List.length (JS.map_set String.eqb k v m) = List.length m.
Proof.
  induction m as [ | [k' v'] m IH]; simpl; [ discriminate | ].
  destruct (String.eqb k k'); [ reflexivity | ].
  intros G. simpl. rewrite (IH G). reflexivity.
Qed.

Lemma map_delete_app {V : Type} (k : string) (v : V)
  (pre post : list (string * V)) :
  ~ In k (map fst pre) ->
  Sse.map_delete k (pre ++ (k, v) :: post)%list = (pre ++ post)%list.
Proof.
  induction pre as [ | [k' v'] pre IH]; simpl; intros NI.
  - rewrite String.eqb_refl. reflexivity.
  - destruct (String.eqb_spec k k') as [-> | _]; [ tauto | ].
    rewrite IH by tauto. reflexivity.
Qed.

(** X24. A stream opened by [GET /] is registered under the session id
    of the request, or under [client-] and the time when there is none:
    the answer is the event whose id is the next count, the client is
    registered with its response, and no other client, no session and no
    data is touched. Closing the stream restores the clients when the id
    was new. A second stream that comes to the same id takes the place of
    the first, so that there is still one registration; and the [close] of
    either of the two then leaves no client under the id, though the other
    stream is open. *)
Theorem X24_stream_registration (s : Sse.Server) (hd hd' : Sse.Headers)
  (now now' : Z) (res res' : nat) :
  NoDup (map fst (Sse.clients s)) ->
  JS.includes (or_default (Sse.Accept hd) "") "text/event-stream" = true ->
  JS.includes (or_default (Sse.Accept hd') "") "text/event-stream" = true ->
  or_default (Sse.Mcp_Session_Id hd') ("client-" ++ show now')
  = or_default (Sse.Mcp_Session_Id hd) ("client-" ++ show now) ->
  let c := or_default (Sse.Mcp_Session_Id hd) ("client-" ++ show now) in
  let s1 := fst (Sse.get_root s hd now res) in
  let s2 := fst (Sse.get_root s1 hd' now' res') in
  snd (Sse.get_root s hd now res)
  = Sse.Opened c ("event-" ++ show (Sse.eventCounter s + 1))
  /\ JS.map_get String.eqb c (Sse.clients s1) = Some res
  /\ (forall k, k <> c ->
        JS.map_get String.eqb k (Sse.clients s1)
        = JS.map_get String.eqb k (Sse.clients s))
  /\ Sse.dataLoader s1 = Sse.dataLoader s
  /\ Sse.sessions s1 = Sse.sessions s
  /\ Sse.eventCounter s1 = Sse.eventCounter s + 1
  /\ (JS.map_get String.eqb c (Sse.clients s) = None ->
      Sse.clients (Sse.close s1 c) = Sse.clients s)
  /\ JS.map_get String.eqb c (Sse.clients s2) = Some res'
  /\ List.length (Sse.clients s2) = List.length (Sse.clients s1)
  /\ JS.map_get String.eqb c (Sse.clients (Sse.close s2 c)) = None.
Proof.
  intros ND A A' Same c s1 s2.
  assert (Sse.get_root s hd now res
          = ({| Sse.dataLoader := Sse.dataLoader s;
                Sse.clients := JS.map_set String.eqb c res (Sse.clients s);
                Sse.sessions := Sse.sessions s;
                Sse.eventCounter := Sse.eventCounter s + 1 |},
             Sse.Opened c ("event-" ++ show (Sse.eventCounter s + 1)))) as G1
      by (unfold Sse.get_root; rewrite A; reflexivity).
  assert (Sse.clients s1 = JS.map_set String.eqb c res (Sse.clients s)) as C1
      by (unfold s1; rewrite G1; reflexivity).
  assert (Sse.clients s2 = JS.map_set String.eqb c res' (Sse.clients s1))
    as C2 by (unfold s2, Sse.get_root; rewrite A', Same; reflexivity).
  assert (JS.map_get String.eqb c (Sse.clients s1) = Some res) as Reg
      by (rewrite C1; apply map_get_set_here).
  split; [ rewrite G1; reflexivity | ].
  split; [ exact Reg | ].
  split; [ intros k N; rewrite C1;
           apply (assoc_get_set_other String.eqb String.eqb_eq); exact N | ].
  split; [ unfold s1; rewrite G1; reflexivity | ].
  split; [ unfold s1; rewrite G1; reflexivity | ].
  split; [ unfold s1; rewrite G1; reflexivity | ].
  split.
  { intros New. cbn [Sse.close Sse.clients]. rewrite C1, map_delete_set.
    apply map_delete_absent. exact New. }
  split; [ rewrite C2; apply map_get_set_here | ].
  split; [ rewrite C2; exact (map_set_length_present c res' res _ Reg) | ].
  cbn [Sse.close Sse.clients]. rewrite C2, map_delete_set.
  apply map_get_delete. rewrite C1.
  apply (assoc_set_NoDup String.eqb String.eqb_eq). exact ND.
Qed.

Lemma X24_stream_registration_witness :
  let hd := {| Sse.Origin := None;
               Sse.Mcp_Session_Id := Some "session-1-abc";
               Sse.MCP_Protocol_Version := None;
               Sse.Accept := Some "text/event-stream" |} in
  let s2 := fst (Sse.get_root (fst (Sse.get_root Sse.new_Server hd 10 1))
                   hd 20 2) in
  NoDup (map fst (Sse.clients Sse.new_Server))
  /\ JS.includes (or_default (Sse.Accept hd) "") "text/event-stream" = true
  /\ or_default (Sse.Mcp_Session_Id hd) ("client-" ++ show 20)
     = or_default (Sse.Mcp_Session_Id hd) ("client-" ++ show 10)
  /\ Sse.clients s2 = [("session-1-abc", 2%nat)]
  /\ JS.map_get String.eqb "session-1-abc"
       (Sse.clients (Sse.close s2 "session-1-abc")) = None.
Proof.
  intros hd s2.
  assert (NoDup (map fst (Sse.clients Sse.new_Server))) as ND
      by constructor.
  split; [ exact ND | ]. split; [ reflexivity | ].
  split; [ reflexivity | ]. split; [ reflexivity | ].
  pose proof (X24_stream_registration Sse.new_Server hd hd 10 20 1 2 ND
                eq_refl eq_refl eq_refl) as P.
  cbv zeta in P. destruct P as (_ & _ & _ & _ & _ & _ & _ & _ & _ & Gone).
  exact Gone.
Defined.

Lemma broadcast_loop (write : nat -> bool) (l : list (string * nat)) :
  forall (pre : list (string * nat)) (st : Sse.Server) (log : list nat),
    Sse.clients st = (pre ++ l)%list ->
    NoDup (map fst (pre ++ l)%list) ->
    let r :=
      fold_left
        (fun acc kv =>
           (if write (snd kv) then fst acc
            else Sse.close (fst acc) (fst kv),
            (snd acc ++ [snd kv])%list))
        l (st, log) in
    Sse.clients (fst r)
    = (pre ++ filter (fun kv => write (snd kv)) l)%list
    /\ Sse.dataLoader (fst r) = Sse.dataLoader st
    /\ Sse.sessions (fst r) = Sse.sessions st
    /\ Sse.eventCounter (fst r) = Sse.eventCounter st
    /\ snd r = (log ++ map snd l)%list.
Proof.
  induction l as [ | [k res] l IH]; intros pre st log C ND; cbn zeta.
  - simpl. rewrite app_nil_r in *. rewrite app_nil_r. tauto.
  - cbn [fold_left fst snd filter map].
    destruct (write res).
    + destruct (IH (pre ++ [(k, res)])%list st (log ++ [res])%list)
        as (C' & D & S & E & L).
      * rewrite <- app_assoc. exact C.
      * rewrite <- app_assoc. exact ND.
      * cbn zeta in *. rewrite C', L, <- !app_assoc. tauto.
    + assert (~ In k (map fst pre)) as NI.
      { rewrite map_app in ND. simpl in ND.
        apply NoDup_remove_2 in ND. intros I. apply ND.
        apply in_or_app. left. exact I. }
      destruct (IH pre (Sse.close st k) (log ++ [res])%list)
        as (C' & D & S & E & L).
      * cbn [Sse.close Sse.clients]. rewrite C.
        apply map_delete_app. exact NI.
      * rewrite map_app in *. simpl in ND.
        apply NoDup_remove_1 in ND. exact ND.
      * cbn zeta in *. rewrite C', L, <- !app_assoc. tauto.
Qed.

(** X25. [broadcastUpdate] writes the message once to every registered
    client, in the order of their registration, and afterwards the clients
    are those whose write returned, in the same order: a client whose write
    throws is deleted, and no other is; sessions, data and event counter are
    left alone. *)
Theorem X25_broadcast (write : nat -> bool) (s : Sse.Server) :
  NoDup (map fst (Sse.clients s)) ->
  let s1 := fst (Sse.broadcastUpdate write s) in
  snd (Sse.broadcastUpdate write s) = map snd (Sse.clients s)
  /\ Sse.clients s1 = filter (fun kv => write (snd kv)) (Sse.clients s)
  /\ (forall k res, In (k, res) (Sse.clients s1)
                    <-> In (k, res) (Sse.clients s) /\ write res = true)
  /\ NoDup (map fst (Sse.clients s1))
  /\ Sse.dataLoader s1 = Sse.dataLoader s
  /\ Sse.sessions s1 = Sse.sessions s
  /\ Sse.eventCounter s1 = Sse.eventCounter s.
Proof.
  intros ND s1.
  destruct (broadcast_loop write (Sse.clients s) [] s [] eq_refl ND)
    as (C & D & S & E & L).
  cbn zeta in *. fold (Sse.broadcastUpdate write s) in C, D, S, E, L.
  fold s1 in C, D, S, E. simpl in C, L.
  split; [ exact L | ]. split; [ exact C | ].
  split; [ | split; [ | tauto ] ].
  - intros k res. rewrite C, filter_In. reflexivity.
  - rewrite C. apply NoDup_keys_filter. exact ND.
Qed.

Lemma X25_broadcast_witness :
  let s := fst (Sse.events
                  (fst (Sse.events
                          (fst (Sse.events Sse.new_Server 10 1)) 11 2))
                  12 3) in
  NoDup (map fst (Sse.clients s))
  /\ snd (Sse.broadcastUpdate (fun res => negb (Nat.eqb res 2)) s)
     = map snd (Sse.clients s)
  /\ Sse.broadcastUpdate (fun res => negb (Nat.eqb res 2)) s
     = ({| Sse.dataLoader := new_DataLoader;
           Sse.clients := [("legacy-10", 1%nat); ("legacy-12", 3%nat)];
           Sse.sessions := []; Sse.eventCounter := 0 |},
        [1%nat; 2%nat; 3%nat]).
Proof.
  intros s.
  assert (NoDup (map fst (Sse.clients s))) as ND.
  { simpl. repeat constructor; simpl; intuition discriminate. }
  split; [ exact ND | ].
  pose proof (X25_broadcast (fun res => negb (Nat.eqb res 2)) s ND) as P.
  cbv zeta in P. destruct P as (Log & _).
  split; [ exact Log | reflexivity ].
Defined.
